(** * Early stopping handlers of small-text: a shallow embedding

    Source: [small_text/training/early_stopping.py].

    Modelling decisions.
    - Python [float] / numpy [float64] values are exact rationals ([Q]); the
      only non-number kept is NaN, which is what numpy stores in the history
      when a measured value is [None].  A history cell is therefore an
      [option Q] with [None] standing for NaN.  Rounding is not modelled:
      a difference [v - b] is exact here and rounded to the nearest float in
      the source.  The two agree on its sign, and a difference that is at
      least [min_delta] stays so after rounding; only a difference just
      below [min_delta] can round up to it, so the theorems state nothing
      that depends on that boundary.
    - Python [int] is [Z].  The two integer columns of the history have the
      dtype [int], numpy's 64-bit integer; storing an epoch outside that
      range raises [OverflowError] and the history is left as it was.
    - A measurement is a Python [dict] from names to [float] or [None]:
      [gmap string (option Q)].
    - A method is a function from the receiver to an [outcome]: the receiver
      after the call, the records passed to [logging.debug], and either the
      exception raised or the value returned.  The receiver is returned in
      both cases because attribute assignments made before a [raise] persist.
    - The three handler classes form the inductive type
      [EarlyStoppingHandler]; the children of a sequential handler are taken
      to be distinct objects. *)

From Stdlib Require Import Strings.String ZArith QArith Qabs Bool Lia Lqa.
From stdpp Require Import base option list gmap strings.

Local Open Scope Z_scope.

(** ** Python and numpy primitives *)

Inductive ValueErrorMsg : Type :=
| UnsupportedMetric (monitor : string)
| InvalidMinDelta
| InvalidPatience
| InvalidThreshold
| InvalidEpoch
| NoField (name : string).

Inductive exn : Type :=
| ValueError (msg : ValueErrorMsg)
| IndexError
| KeyError (key : string)
| TypeError
| OverflowError.

Inductive LogRecord : Type :=
| ThresholdExceeded (value threshold : Q)
| PatienceExceeded (value patience : Z).

Record outcome (S A : Type) : Type := Outcome {
  final : S;
  emitted : list LogRecord;
  returned : exn + A
}.
Arguments Outcome {S A} _ _ _.
Arguments final {S A} _.
Arguments emitted {S A} _.
Arguments returned {S A} _.

(** numpy [float64] restricted to the rationals and NaN. *)
Definition npfloat : Type := option Q.

Definition Qlt_bool (a b : Q) : bool := negb (Qle_bool b a).

(** [np.sign] on a Python float. *)
Definition np_sign (x : Q) : Z := Z.sgn (Qnum x).

(** [np.sign(x) == s] for a numpy float [x] and an integer [s]; NaN equals
    nothing. *)
Definition sign_is (x : npfloat) (s : Z) : bool :=
  match x with
  | Some q => np_sign q =? s
  | None => false
  end.

(** [a - b] with [a] a Python float and [b] a numpy float. *)
Definition float_sub (a : Q) (b : npfloat) : npfloat :=
  match b with
  | Some q => Some (a - q)%Q
  | None => None
  end.

(** [np.abs(x) >= m]; false on NaN. *)
Definition abs_ge (x : npfloat) (m : Q) : bool :=
  match x with
  | Some q => Qle_bool m (Qabs q)
  | None => false
  end.

Definition np_isnan (x : npfloat) : bool :=
  match x with
  | Some _ => false
  | None => true
  end.

(** [a.sum()] of a boolean array. *)
Definition np_sum (a : list bool) : Z :=
  Z.of_nat (List.length (List.filter (fun b : bool => b) a)).

(** [np.any(a)]. *)
Definition np_any (a : list bool) : bool := existsb (fun b : bool => b) a.

(** [sub in s] on Python strings. *)
Fixpoint str_in (sub s : string) : bool :=
  String.prefix sub s ||
  match s with
  | EmptyString => false
  | String _ s' => str_in sub s'
  end.

(** [l[i]] with Python's negative indices. *)
Definition py_getitem {A : Type} (l : list A) (i : Z) : exn + A :=
  let n := Z.of_nat (List.length l) in
  let j := if i <? 0 then i + n else i in
  if (j <? 0) || (n <=? j) then inl IndexError
  else match l !! Z.to_nat j with
       | Some x => inr x
       | None => inl IndexError
       end.

(** [l[start:]] with Python's clamping of the start. *)
Definition py_slice_from {A : Type} (l : list A) (start : Z) : list A :=
  let n := Z.of_nat (List.length l) in
  let s := if start <? 0 then Z.max (start + n) 0 else Z.min start n in
  drop (Z.to_nat s) l.

(** [d.get(k, None)]: an absent key and a key bound to [None] both give
    [None]. *)
Definition dict_get (d : gmap string (option Q)) (k : string) : option Q :=
  match d !! k with
  | Some v => v
  | None => None
  end.

(** [d[k] - b]: [KeyError] on an absent key, [TypeError] on [None]. *)
Definition dict_item_sub (d : gmap string (option Q)) (k : string)
    (b : npfloat) : exn + npfloat :=
  match d !! k with
  | None => inl (KeyError k)
  | Some None => inl TypeError
  | Some (Some v) => inr (float_sub v b)
  end.

Definition int64_min : Z := - 2 ^ 63.
Definition int64_max : Z := 2 ^ 63 - 1.

(** ** The history: a numpy structured array *)

Record Row : Type := mkRow {
  epoch : Z;
  count : Z;
  train_acc : npfloat;
  train_loss : npfloat;
  val_acc : npfloat;
  val_loss : npfloat
}.

(** The field named [name] of the dtype, read as a float. *)
Definition field (name : string) : option (Row -> npfloat) :=
  if String.eqb name "epoch" then Some (fun r => Some (inject_Z (epoch r)))
  else if String.eqb name "count" then Some (fun r => Some (inject_Z (count r)))
  else if String.eqb name "train_acc" then Some train_acc
  else if String.eqb name "train_loss" then Some train_loss
  else if String.eqb name "val_acc" then Some val_acc
  else if String.eqb name "val_loss" then Some val_loss
  else None.

(** [history[name]]. *)
Definition column (history : list Row) (name : string) : exn + list npfloat :=
  match field name with
  | Some f => inr (map f history)
  | None => inl (ValueError (NoField name))
  end.

(** ** class EarlyStopping *)

Module EarlyStopping.

Record t : Type := mk {
  monitor : string;
  min_delta : Q;
  patience : Z;
  threshold : Q;
  index_best : Z;
  history : list Row
}.

Definition set_history (self : t) (h : list Row) : t :=
  mk (monitor self) (min_delta self) (patience self) (threshold self)
     (index_best self) h.

Definition set_index_best (self : t) (i : Z) : t :=
  mk (monitor self) (min_delta self) (patience self) (threshold self)
     i (history self).

Definition default_min_delta : Q := 1 # 100000000000000.
Definition default_patience : Z := 5.
Definition default_threshold : Q := 0.

Definition supported_metrics : list string :=
  ["train_acc"; "train_loss"; "val_acc"; "val_loss"]%string.

(** Lines 83-99. *)
Definition _validate_arguments (monitor : string) (min_delta : Q)
    (patience : Z) (threshold : Q) : exn + unit :=
  if negb (existsb (String.eqb monitor) supported_metrics)
  then inl (ValueError (UnsupportedMetric monitor))
  else if Qlt_bool min_delta 0
  then inl (ValueError InvalidMinDelta)
  else if patience <=? 0
  then inl (ValueError InvalidPatience)
  else if str_in "_acc" monitor
          && (Qlt_bool threshold 0 || Qlt_bool 1 threshold)
  then inl (ValueError InvalidThreshold)
  else inr tt.

(** Lines 51-81; the [dtype] attribute is the fixed shape of [Row]. *)
Definition __init__ (monitor : string) (min_delta : Q) (patience : Z)
    (threshold : Q) : exn + t :=
  match _validate_arguments monitor min_delta patience threshold with
  | inl e => inl e
  | inr _ => inr (mk monitor min_delta patience threshold (-1) [])
  end.

(** Lines 164-171.  The argument is [epoch0] because [epoch] names the
    column.  [np.array] raises on an epoch that does not fit the column. *)
Definition add_to_history (self : t) (epoch0 : Z)
    (measured_values : gmap string (option Q)) : exn + list Row :=
  let count0 := np_sum (map (fun r => epoch r =? epoch0) (history self)) in
  let tuple_measured_values :=
    (dict_get measured_values "train_acc",
     dict_get measured_values "train_loss",
     dict_get measured_values "val_acc",
     dict_get measured_values "val_loss") in
  let '(ta, tl, va, vl) := tuple_measured_values in
  if (epoch0 <? int64_min) || (int64_max <? epoch0)
  then inl OverflowError
  else inr (history self ++ [mkRow epoch0 count0 ta tl va vl]).

(** [self.history[self.monitor][self.index_best]], the first line of
    [_check_for_improvement]. *)
Definition previous_best (self : t) : exn + npfloat :=
  match column (history self) (monitor self) with
  | inl e => inl e
  | inr col => py_getitem col (index_best self)
  end.

(** The local variable [improvement] of [_check_for_improvement]; [delta]
    is the exact difference (see the note on rounding at the top). *)
Definition improvement (self : t) (monitor_sign : Z) (delta : npfloat)
    : bool :=
  if Qlt_bool 0 (min_delta self)
  then sign_is delta monitor_sign && abs_ge delta (min_delta self)
  else sign_is delta monitor_sign.

(** Lines 140-162. *)
Definition _check_for_improvement (self : t)
    (measured_values : gmap string (option Q)) (monitor_sign : Z)
    : outcome t bool :=
  match previous_best self with
  | inl e => Outcome self [] (inl e)
  | inr previous_best =>
  let index_last := Z.of_nat (List.length (history self)) - 1 in
  match dict_item_sub measured_values (monitor self) previous_best with
  | inl e => Outcome self [] (inl e)
  | inr delta =>
  if improvement self monitor_sign delta
  then Outcome (set_index_best self index_last) [] (inr false)
  else
    match column (py_slice_from (history self) (index_best self + 1))
                 (monitor self) with
    | inl e => Outcome self [] (inl e)
    | inr history_since_previous_best =>
      let rows_not_nan :=
        map (fun x => negb (np_isnan x)) history_since_previous_best in
      if patience self <? np_sum rows_not_nan
      then Outcome self
             [PatienceExceeded (index_last - index_best self) (patience self)]
             (inr true)
      else Outcome self [] (inr false)
    end
  end end.

Definition monitor_sign_of (monitor : string) : Z :=
  let greater_is_better := str_in "_acc" monitor in
  if greater_is_better then 1 else -1.

(** Lines 116-138.  The log message reads [measured_values[self.monitor]];
    its [None] case cannot occur, [has_crossed_threshold] being false then. *)
Definition check_early_stop (self : t) (epoch0 : Z)
    (measured_values : gmap string (option Q)) : outcome t bool :=
  if epoch0 <=? 0 then Outcome self [] (inl (ValueError InvalidEpoch))
  else
  match add_to_history self epoch0 measured_values with
  | inl e => Outcome self [] (inl e)
  | inr h =>
  let self := set_history self h in
  let monitor_sign := monitor_sign_of (monitor self) in
  let measured_value := dict_get measured_values (monitor self) in
  let has_crossed_threshold :=
    match measured_value with
    | Some v => np_sign (v - threshold self)%Q =? monitor_sign
    | None => false
    end in
  if Qlt_bool 0 (threshold self) && has_crossed_threshold
  then
    match measured_value with
    | Some v =>
        Outcome self [ThresholdExceeded v (threshold self)] (inr true)
    | None => Outcome self [] (inl (KeyError (monitor self)))
    end
  else
    match measured_value with
    | None => Outcome self [] (inr false)
    | Some _ =>
        if Z.of_nat (List.length (history self)) =? 1
        then Outcome (set_index_best self 0) [] (inr false)
        else _check_for_improvement self measured_values monitor_sign
    end
  end.

End EarlyStopping.

(** ** class NoopEarlyStopping *)

Module NoopEarlyStopping.

(** Lines 30-42: no state, no validation. *)
Definition check_early_stop (epoch0 : Z)
    (measured_values : gmap string (option Q)) : exn + bool :=
  let _unused := (epoch0, measured_values) in
  inr false.

End NoopEarlyStopping.

(** ** class SequentialEarlyStopping *)

Module SequentialEarlyStopping.

Section Loop.
Context {H : Type}.
(** The [check_early_stop] method of the sub handlers, bound late. *)
Variable check : H -> outcome H bool.

(** The [for] loop: the handlers already visited carry their new state,
    a raise leaves the remaining ones untouched. *)
Fixpoint for_each (early_stopping_handlers : list H) (results : list bool)
    : outcome (list H) (list bool) :=
  match early_stopping_handlers with
  | [] => Outcome [] [] (inr results)
  | early_stopping_handler :: rest =>
      let o := check early_stopping_handler in
      match returned o with
      | inl e => Outcome (final o :: rest) (emitted o) (inl e)
      | inr b =>
          let o' := for_each rest (results ++ [b]) in
          Outcome (final o :: final o') (emitted o ++ emitted o')
                  (returned o')
      end
  end.

Definition check_early_stop (early_stopping_handlers : list H)
    : outcome (list H) bool :=
  let o := for_each early_stopping_handlers [] in
  Outcome (final o) (emitted o)
    match returned o with
    | inl e => inl e
    | inr results => inr (np_any results)
    end.
End Loop.

End SequentialEarlyStopping.

(** ** The abstract base class and dynamic dispatch *)

#[warnings="-register-all"]
Inductive EarlyStoppingHandler : Type :=
| Noop
| Single (self : EarlyStopping.t)
| Sequential (early_stopping_handlers : list EarlyStoppingHandler).

(** Induction over nested handlers. *)
Fixpoint EarlyStoppingHandler_nested_ind (P : EarlyStoppingHandler -> Prop)
    (HNoop : P Noop) (HSingle : forall self, P (Single self))
    (HSeq : forall hs, Forall P hs -> P (Sequential hs))
    (h : EarlyStoppingHandler) : P h :=
  match h with
  | Noop => HNoop
  | Single self => HSingle self
  | Sequential hs =>
      HSeq hs
        ((fix children (l : list EarlyStoppingHandler) : Forall P l :=
            match l with
            | [] => @List.Forall_nil _ P
            | c :: l' =>
                @List.Forall_cons _ P c l'
                  (EarlyStoppingHandler_nested_ind P HNoop HSingle HSeq c)
                  (children l')
            end) hs)
  end.

Fixpoint check_early_stop (h : EarlyStoppingHandler) (epoch0 : Z)
    (measured_values : gmap string (option Q))
    : outcome EarlyStoppingHandler bool :=
  match h with
  | Noop =>
      Outcome Noop []
        (NoopEarlyStopping.check_early_stop epoch0 measured_values)
  | Single self =>
      let o := EarlyStopping.check_early_stop self epoch0 measured_values in
      Outcome (Single (final o)) (emitted o) (returned o)
  | Sequential hs =>
      let o :=
        SequentialEarlyStopping.check_early_stop
          (fun c => check_early_stop c epoch0 measured_values) hs in
      Outcome (Sequential (final o)) (emitted o) (returned o)
  end.

(** ** Sequences of calls *)

Definition call : Type := Z * gmap string (option Q).

(** The caller keeps the handler and calls it again, whatever it answered. *)
Fixpoint run (self : EarlyStopping.t) (calls : list call)
    : EarlyStopping.t * list (exn + bool) :=
  match calls with
  | [] => (self, [])
  | (e, mv) :: rest =>
      let o := EarlyStopping.check_early_stop self e mv in
      let '(s', rs) := run (final o) rest in
      (s', returned o :: rs)
  end.


(** The handlers reachable from a successful construction. *)
Inductive reachable : EarlyStopping.t -> Prop :=
| reachable_init monitor min_delta patience threshold self :
    EarlyStopping.__init__ monitor min_delta patience threshold = inr self ->
    reachable self
| reachable_check self e mv :
    reachable self ->
    reachable (final (EarlyStopping.check_early_stop self e mv)).

(** ** Vocabulary of the specification *)

(** Configuration errors are the four [ValueError]s of the constructor. *)
Definition is_configuration_error (e : exn) : Prop :=
  match e with
  | ValueError (UnsupportedMetric _)
  | ValueError InvalidMinDelta
  | ValueError InvalidPatience
  | ValueError InvalidThreshold => True
  | _ => False
  end.

(** The invocation error is the [ValueError] on the epoch. *)
Definition invocation_error : exn := ValueError InvalidEpoch.

Definition accuracy_metric (m : string) : Prop :=
  m = "train_acc"%string \/ m = "val_acc"%string.

Definition loss_metric (m : string) : Prop :=
  m = "train_loss"%string \/ m = "val_loss"%string.

(** An epoch that [check_early_stop] accepts and the history can store. *)
Definition valid_epoch (e : Z) : Prop := 0 < e <= int64_max.

(** The monitored cell of a history row (NaN for an unknown monitor). *)
Definition monitored (monitor : string) (r : Row) : npfloat :=
  match field monitor with
  | Some f => f r
  | None => None
  end.

(** The row that a call appends. *)
Definition new_row (self : EarlyStopping.t) (e : Z)
    (mv : gmap string (option Q)) : Row :=
  mkRow e
    (Z.of_nat (count_occ Z.eq_dec (map epoch (EarlyStopping.history self)) e))
    (dict_get mv "train_acc") (dict_get mv "train_loss")
    (dict_get mv "val_acc") (dict_get mv "val_loss").

(** The handler right after the append of step 2. *)
Definition appended (self : EarlyStopping.t) (e : Z)
    (mv : gmap string (option Q)) : EarlyStopping.t :=
  EarlyStopping.set_history self
    (EarlyStopping.history self ++ [new_row self e mv]).

(** [a] is strictly better than [b] in the direction [sign]. *)
Definition better (sign : Z) (a b : Q) : Prop := np_sign (a - b)%Q = sign.

(** The threshold rule of step 4 on a present value. *)
Definition crosses_threshold (self : EarlyStopping.t) (v : Q) : Prop :=
  (0 < EarlyStopping.threshold self)%Q /\
  better (EarlyStopping.monitor_sign_of (EarlyStopping.monitor self))
         v (EarlyStopping.threshold self).

(** Number of rows strictly after index [ib] whose monitored cell is present. *)
Fixpoint present_after (monitor : string) (ib : Z) (pos : Z) (h : list Row)
    : Z :=
  match h with
  | [] => 0
  | r :: rest =>
      (if (ib <? pos) && negb (np_isnan (monitored monitor r)) then 1 else 0)
      + present_after monitor ib (pos + 1) rest
  end.

Definition non_missing_count_since_best (self : EarlyStopping.t) : Z :=
  present_after (EarlyStopping.monitor self) (EarlyStopping.index_best self)
    0 (EarlyStopping.history self).

(** Whether the call on the appended handler [self'] with present value [v]
    counts as an improvement over the previous best. *)
Definition is_improvement (self' : EarlyStopping.t) (v : Q) : bool :=
  match EarlyStopping.previous_best self' with
  | inr pb =>
      EarlyStopping.improvement self'
        (EarlyStopping.monitor_sign_of (EarlyStopping.monitor self'))
        (float_sub v pb)
  | inl _ => false
  end.

(** [v] improves on [b]: strictly better, and by [min_delta] or more. *)
Definition improves_on (self : EarlyStopping.t) (v b : Q) : Prop :=
  better (EarlyStopping.monitor_sign_of (EarlyStopping.monitor self)) v b /\
  (EarlyStopping.min_delta self <= Qabs (v - b))%Q.

(** What index-of-best points to, when it is an index: a row with a present
    monitored value [b] such that, among the rows with a present value that
    did not take the threshold branch, the earlier ones are strictly worse
    than [b] and the later ones do not improve on [b]. *)
Definition best_so_far (self : EarlyStopping.t) : Prop :=
  let m := EarlyStopping.monitor self in
  let sign := EarlyStopping.monitor_sign_of m in
  let i := EarlyStopping.index_best self in
  exists r b,
    EarlyStopping.history self !! Z.to_nat i = Some r /\
    monitored m r = Some b /\
    forall (j : nat) r' v,
      EarlyStopping.history self !! j = Some r' ->
      monitored m r' = Some v ->
      ~ crosses_threshold self v ->
      (Z.of_nat j < i -> better sign b v) /\
      (i < Z.of_nat j -> ~ improves_on self v b).

(** The direction as the specification gives it: +1 for the two accuracy
    metrics (greater is better), -1 for the two loss metrics. *)
Definition direction_sign (m : string) : Z :=
  if String.eqb m "train_acc" || String.eqb m "val_acc" then 1 else -1.

(** [a] is strictly better than [b] for the metric [m]: greater for an
    accuracy metric, smaller for a loss metric. *)
Definition strictly_better (m : string) (a b : Q) : Prop :=
  (accuracy_metric m /\ (b < a)%Q) \/ (loss_metric m /\ (a < b)%Q).

(** The value triggers the threshold stop: the threshold is positive and
    the value is strictly beyond it on the good side. *)
Definition triggers_threshold (self : EarlyStopping.t) (v : Q) : Prop :=
  (0 < EarlyStopping.threshold self)%Q /\
  strictly_better (EarlyStopping.monitor self) v
    (EarlyStopping.threshold self).

(** [v] is strictly better than [b], and by [min_delta] or more. *)
Definition gains (self : EarlyStopping.t) (v b : Q) : Prop :=
  strictly_better (EarlyStopping.monitor self) v b /\
  (EarlyStopping.min_delta self <= Qabs (v - b))%Q.

(** The first row of the history holds a present monitored value that did
    not trigger the threshold stop. *)
Definition first_entry_counts (self : EarlyStopping.t) : Prop :=
  exists r v,
    EarlyStopping.history self !! 0%nat = Some r /\
    monitored (EarlyStopping.monitor self) r = Some v /\
    ~ triggers_threshold self v.

(** Index-of-best points to a row with a present monitored value [b]; among
    the rows with a present value that did not trigger the threshold stop,
    the earlier ones are strictly worse than [b] and no later one is better
    than [b] by [min_delta] or more. *)
Definition best_entry (self : EarlyStopping.t) : Prop :=
  let m := EarlyStopping.monitor self in
  let i := EarlyStopping.index_best self in
  exists r b,
    EarlyStopping.history self !! Z.to_nat i = Some r /\
    monitored m r = Some b /\
    forall (j : nat) r' v,
      EarlyStopping.history self !! j = Some r' ->
      monitored m r' = Some v ->
      ~ triggers_threshold self v ->
      (Z.of_nat j < i -> strictly_better m b v) /\
      (i < Z.of_nat j -> ~ gains self v b).

(** The claim that index-of-best holds the best present value outright:
    no row holds a strictly better one (the maximum for an accuracy
    monitor, the minimum for a loss monitor). *)
Definition points_to_best (self : EarlyStopping.t) : Prop :=
  let m := EarlyStopping.monitor self in
  exists r b,
    EarlyStopping.history self
      !! Z.to_nat (EarlyStopping.index_best self) = Some r /\
    monitored m r = Some b /\
    forall r' v,
      r' ∈ EarlyStopping.history self ->
      monitored m r' = Some v ->
      ~ strictly_better m v b.

(** Whether a handler contains an [EarlyStopping] instance. *)
Fixpoint has_single (h : EarlyStoppingHandler) : bool :=
  match h with
  | Noop => false
  | Single _ => true
  | Sequential hs => existsb has_single hs
  end.

(** The stop decision of an outcome, [false] when it raised. *)
Definition answer {S : Type} (o : outcome S bool) : bool :=
  match returned o with
  | inr b => b
  | inl _ => false
  end.

Definition succeeds {S : Type} (o : outcome S bool) : Prop :=
  exists b, returned o = inr b.

(** ** Auxiliary forms used in the proofs *)

(** The body of [check_early_stop] after the epoch test and the append. *)
Definition decide_stop (self' : EarlyStopping.t)
    (mv : gmap string (option Q)) : outcome EarlyStopping.t bool :=
  let sign := EarlyStopping.monitor_sign_of (EarlyStopping.monitor self') in
  match dict_get mv (EarlyStopping.monitor self') with
  | None => Outcome self' [] (inr false)
  | Some v =>
      if Qlt_bool 0 (EarlyStopping.threshold self')
         && (np_sign (v - EarlyStopping.threshold self')%Q =? sign)
      then Outcome self' [ThresholdExceeded v (EarlyStopping.threshold self')]
             (inr true)
      else if Z.of_nat (List.length (EarlyStopping.history self')) =? 1
      then Outcome (EarlyStopping.set_index_best self' 0) [] (inr false)
      else EarlyStopping._check_for_improvement self' mv sign
  end.

(** The state invariant of a constructed handler. *)
Record wf (self : EarlyStopping.t) : Prop := mk_wf {
  wf_monitor :
    In (EarlyStopping.monitor self) EarlyStopping.supported_metrics;
  wf_min_delta : (0 <= EarlyStopping.min_delta self)%Q;
  wf_patience : 1 <= EarlyStopping.patience self;
  wf_index :
    EarlyStopping.index_best self = -1 \/
    0 <= EarlyStopping.index_best self
      < Z.of_nat (List.length (EarlyStopping.history self));
  wf_best : 0 <= EarlyStopping.index_best self -> best_so_far self
}.

(** The outcome of the improvement check, given the previous best. *)
Definition improvement_outcome (self' : EarlyStopping.t) (v : Q)
    (pb : npfloat) : outcome EarlyStopping.t bool :=
  let sign := EarlyStopping.monitor_sign_of (EarlyStopping.monitor self') in
  let index_last :=
    Z.of_nat (List.length (EarlyStopping.history self')) - 1 in
  if EarlyStopping.improvement self' sign (float_sub v pb)
  then Outcome (EarlyStopping.set_index_best self' index_last) [] (inr false)
  else if EarlyStopping.patience self' <? non_missing_count_since_best self'
  then Outcome self'
         [PatienceExceeded (index_last - EarlyStopping.index_best self')
            (EarlyStopping.patience self')] (inr true)
  else Outcome self' [] (inr false).

(** A call sequence in which some calls are marked as inserted. *)
Definition kept_calls (l : list (bool * call)) : list call :=
  map snd (List.filter (fun x : bool * call => negb (fst x)) l).

Definition all_calls (l : list (bool * call)) : list call := map snd l.

(** The answers given to the calls that are not marked. *)
Fixpoint kept_answers (l : list (bool * call)) (rs : list (exn + bool))
    : list (exn + bool) :=
  match l, rs with
  | (inserted, _) :: l', r :: rs' =>
      if inserted then kept_answers l' rs' else r :: kept_answers l' rs'
  | _, _ => []
  end.

(** [t] is [s] with rows lacking the monitored value put in after the first
    row: same configuration, index-of-best set in both or in neither, the
    same best value, and as many present values since the best. *)
Record sim (s t : EarlyStopping.t) : Prop := mk_sim {
  sim_monitor : EarlyStopping.monitor t = EarlyStopping.monitor s;
  sim_min_delta : EarlyStopping.min_delta t = EarlyStopping.min_delta s;
  sim_patience : EarlyStopping.patience t = EarlyStopping.patience s;
  sim_threshold : EarlyStopping.threshold t = EarlyStopping.threshold s;
  sim_wf_s : wf s;
  sim_wf_t : wf t;
  sim_nonempty_s : EarlyStopping.history s <> [];
  sim_nonempty_t : EarlyStopping.history t <> [];
  sim_unset :
    EarlyStopping.index_best s = -1 <-> EarlyStopping.index_best t = -1;
  sim_best :
    0 <= EarlyStopping.index_best s ->
    exists rs rt,
      EarlyStopping.history s
        !! Z.to_nat (EarlyStopping.index_best s) = Some rs /\
      EarlyStopping.history t
        !! Z.to_nat (EarlyStopping.index_best t) = Some rt /\
      monitored (EarlyStopping.monitor s) rs
        = monitored (EarlyStopping.monitor s) rt;
  sim_count :
    non_missing_count_since_best s = non_missing_count_since_best t
}.

(** ** Vocabulary of the further properties *)

(** [valid_epoch] as a test. *)
Definition valid_epochb (e : Z) : bool := (0 <? e) && (e <=? int64_max).

(** The calls of a sequence that append a row. *)
Definition recorded (calls : list call) : list call :=
  List.filter (fun c : call => valid_epochb (fst c)) calls.

(** Every row's duplicate-count is the number of earlier rows with its
    epoch. *)
Definition rows_counted (h : list Row) : Prop :=
  forall (i : nat) (r : Row),
    h !! i = Some r ->
    count r = Z.of_nat (count_occ Z.eq_dec (map epoch (take i h)) (epoch r)).

(** Number of rows of a history whose monitored cell is present. *)
Definition present_rows (monitor : string) (h : list Row) : Z :=
  present_after monitor (-1) 0 h.

(** The [EarlyStopping] instances inside a handler, in call order. *)
Fixpoint leaves (h : EarlyStoppingHandler) : list EarlyStopping.t :=
  match h with
  | Noop => []
  | Single self => [self]
  | Sequential hs => flat_map leaves hs
  end.

(** Handlers all of whose [EarlyStopping] instances are reachable. *)
Definition handler_reachable (h : EarlyStoppingHandler) : Prop :=
  Forall reachable (leaves h).

(** The flat sequential handler over the same instances. *)
Definition flat (h : EarlyStoppingHandler) : EarlyStoppingHandler :=
  Sequential (map Single (leaves h)).

(** The loop of a sequential handler run over a flat list of instances:
    the instances after the call, the log, and the exception or the
    disjunction of the answers.  Used to compare nested handlers. *)
Fixpoint leaves_loop (ls : list EarlyStopping.t) (e : Z)
    (mv : gmap string (option Q))
    : list EarlyStopping.t * list LogRecord * (exn + bool) :=
  match ls with
  | [] => ([], [], inr false)
  | s :: rest =>
      let o := EarlyStopping.check_early_stop s e mv in
      match returned o with
      | inl x => (final o :: rest, emitted o, inl x)
      | inr b =>
          let '(ls', lg, r) := leaves_loop rest e mv in
          (final o :: ls', emitted o ++ lg,
           match r with
           | inl x => inl x
           | inr b' => inr (b || b')
           end)
      end
  end.

(** What a call on a handler shows: its instances afterwards, the log and
    the result. *)
Definition observe (o : outcome EarlyStoppingHandler bool)
    : list EarlyStopping.t * list LogRecord * (exn + bool) :=
  (leaves (final o), emitted o, returned o).

(** The same handler with another patience. *)
Definition with_patience (self : EarlyStopping.t) (p : Z) : EarlyStopping.t :=
  EarlyStopping.mk (EarlyStopping.monitor self) (EarlyStopping.min_delta self)
    p (EarlyStopping.threshold self) (EarlyStopping.index_best self)
    (EarlyStopping.history self).

(** The second answer is the first, or a [False] in place of a [True]. *)
Definition no_earlier (a a' : exn + bool) : Prop :=
  a' = a \/ (a = inr true /\ a' = inr false).

(** The opposite of a numpy float; NaN stays NaN. *)
Definition opp_float (x : npfloat) : npfloat :=
  match x with
  | Some q => Some (- q)%Q
  | None => None
  end.

(** One of [s], [t] watches an accuracy metric and the other a loss metric;
    the threshold rule is off in both; they have the same index-of-best, and
    [t] holds in its monitored column the opposite of the values of [s]. *)
Record mirrored (s t : EarlyStopping.t) : Prop := mk_mirrored {
  mirrored_monitor_s :
    In (EarlyStopping.monitor s) EarlyStopping.supported_metrics;
  mirrored_monitor_t :
    In (EarlyStopping.monitor t) EarlyStopping.supported_metrics;
  mirrored_kinds :
    (accuracy_metric (EarlyStopping.monitor s)
     /\ loss_metric (EarlyStopping.monitor t)) \/
    (loss_metric (EarlyStopping.monitor s)
     /\ accuracy_metric (EarlyStopping.monitor t));
  mirrored_min_delta : EarlyStopping.min_delta t = EarlyStopping.min_delta s;
  mirrored_patience : EarlyStopping.patience t = EarlyStopping.patience s;
  mirrored_threshold_s : (EarlyStopping.threshold s <= 0)%Q;
  mirrored_threshold_t : (EarlyStopping.threshold t <= 0)%Q;
  mirrored_index : EarlyStopping.index_best t = EarlyStopping.index_best s;
  mirrored_history :
    map (monitored (EarlyStopping.monitor t)) (EarlyStopping.history t)
    = map opp_float
        (map (monitored (EarlyStopping.monitor s)) (EarlyStopping.history s))
}.

(** What each call of a sequence logs and answers. *)
Fixpoint run_outcomes (self : EarlyStopping.t) (calls : list call)
    : list (list LogRecord * (exn + bool)) :=
  match calls with
  | [] => []
  | (e, mv) :: rest =>
      let o := EarlyStopping.check_early_stop self e mv in
      (emitted o, returned o) :: run_outcomes (final o) rest
  end.

(** Two calls with the same epoch and opposite monitored values. *)
Definition mirrored_call (s t : EarlyStopping.t) (c c' : call) : Prop :=
  fst c' = fst c /\
  dict_get (snd c') (EarlyStopping.monitor t)
  = opp_float (dict_get (snd c) (EarlyStopping.monitor s)).

(* ===================================================================== *)
(** * Theorems *)
(* ===================================================================== *)

(** ** Arithmetic of signs *)

Lemma np_sign_sub_pos (a b : Q) : np_sign (a - b)%Q = 1 <-> (b < a)%Q.
Proof.
  destruct a as [na da], b as [nb db]. unfold np_sign, Qlt. simpl.
  rewrite Z.sgn_pos_iff. lia.
Qed.

Lemma np_sign_sub_neg (a b : Q) : np_sign (a - b)%Q = -1 <-> (a < b)%Q.
Proof.
  destruct a as [na da], b as [nb db]. unfold np_sign, Qlt. simpl.
  rewrite Z.sgn_neg_iff. lia.
Qed.

Lemma np_sign_sub_zero (a b : Q) : np_sign (a - b)%Q = 0 <-> (a == b)%Q.
Proof.
  destruct a as [na da], b as [nb db]. unfold np_sign, Qeq. simpl.
  rewrite Z.sgn_null_iff. lia.
Qed.

Lemma Qlt_bool_true (a b : Q) : Qlt_bool a b = true <-> (a < b)%Q.
Proof.
  unfold Qlt_bool. rewrite negb_true_iff.
  destruct (Qle_bool b a) eqn:E.
  - apply Qle_bool_iff in E. split; [discriminate | intros H].
    exfalso. exact (Qlt_not_le _ _ H E).
  - split; [intros _ | reflexivity].
    apply Qnot_le_lt. intros H. apply Qle_bool_iff in H. congruence.
Qed.

Lemma Qlt_bool_false (a b : Q) : Qlt_bool a b = false <-> (b <= a)%Q.
Proof.
  unfold Qlt_bool. rewrite negb_false_iff. apply Qle_bool_iff.
Qed.

(** ** Construction *)

Lemma supported_iff (m : string) :
  existsb (String.eqb m) EarlyStopping.supported_metrics = true <->
  In m EarlyStopping.supported_metrics.
Proof.
  rewrite existsb_exists. split.
  - intros (x & Hx & E). apply String.eqb_eq in E. now subst.
  - intros H. exists m. split; [exact H | apply String.eqb_refl].
Qed.

Lemma supported_cases (m : string) :
  In m EarlyStopping.supported_metrics ->
  m = "train_acc"%string \/ m = "train_loss"%string \/
  m = "val_acc"%string \/ m = "val_loss"%string.
Proof. simpl. intuition. Qed.

Lemma supported_accuracy (m : string) :
  In m EarlyStopping.supported_metrics ->
  (str_in "_acc" m = true <-> accuracy_metric m).
Proof.
  intros H. unfold accuracy_metric.
  destruct (supported_cases m H) as [-> | [-> | [-> | ->]]]; simpl;
    intuition discriminate.
Qed.

Lemma supported_loss (m : string) :
  In m EarlyStopping.supported_metrics ->
  (str_in "_acc" m = false <-> loss_metric m).
Proof.
  intros H. unfold loss_metric.
  destruct (supported_cases m H) as [-> | [-> | [-> | ->]]]; simpl;
    intuition discriminate.
Qed.

(** The code derives the direction from the substring test ['_acc' in
    monitor]; on the four names it is the direction of the specification. *)
Lemma monitor_sign_direction (m : string) :
  In m EarlyStopping.supported_metrics ->
  EarlyStopping.monitor_sign_of m = direction_sign m.
Proof.
  intros H.
  destruct (supported_cases m H) as [-> | [-> | [-> | ->]]]; reflexivity.
Qed.

Lemma sign_directed (m : string) (a b : Q) :
  In m EarlyStopping.supported_metrics ->
  (np_sign (a - b)%Q = EarlyStopping.monitor_sign_of m <->
   strictly_better m a b).
Proof.
  intros H. unfold strictly_better, accuracy_metric, loss_metric.
  destruct (supported_cases m H) as [-> | [-> | [-> | ->]]].
  - change (EarlyStopping.monitor_sign_of "train_acc") with 1.
    rewrite np_sign_sub_pos. split.
    + intros Hlt. left. split; [now left | exact Hlt].
    + intros [[_ Hlt] | [[E | E] _]]; [exact Hlt | discriminate E ..].
  - change (EarlyStopping.monitor_sign_of "train_loss") with (-1).
    rewrite np_sign_sub_neg. split.
    + intros Hlt. right. split; [now left | exact Hlt].
    + intros [[[E | E] _] | [_ Hlt]]; [discriminate E .. | exact Hlt].
  - change (EarlyStopping.monitor_sign_of "val_acc") with 1.
    rewrite np_sign_sub_pos. split.
    + intros Hlt. left. split; [now right | exact Hlt].
    + intros [[_ Hlt] | [[E | E] _]]; [exact Hlt | discriminate E ..].
  - change (EarlyStopping.monitor_sign_of "val_loss") with (-1).
    rewrite np_sign_sub_neg. split.
    + intros Hlt. right. split; [now right | exact Hlt].
    + intros [[[E | E] _] | [_ Hlt]]; [discriminate E .. | exact Hlt].
Qed.

Lemma crosses_triggers (self : EarlyStopping.t) (v : Q) :
  In (EarlyStopping.monitor self) EarlyStopping.supported_metrics ->
  (crosses_threshold self v <-> triggers_threshold self v).
Proof.
  intros Hm. unfold crosses_threshold, triggers_threshold, better.
  now rewrite (sign_directed _ _ _ Hm).
Qed.

Lemma improves_gains (self : EarlyStopping.t) (v b : Q) :
  In (EarlyStopping.monitor self) EarlyStopping.supported_metrics ->
  (improves_on self v b <-> gains self v b).
Proof.
  intros Hm. unfold improves_on, gains, better.
  now rewrite (sign_directed _ _ _ Hm).
Qed.

(** C7. The constructor raises a configuration error exactly when the monitor
    is not one of the four names, or [min_delta < 0], or [patience < 1], or
    the monitor is an accuracy metric and the threshold is outside [0, 1];
    it raises nothing else; a loss monitor with valid [min_delta] and
    [patience] is accepted with any threshold; and on success the handler
    holds the four arguments as given, index-of-best -1 and an empty
    history. *)
Theorem init_raises_iff_invalid
    (monitor : string) (min_delta : Q) (patience : Z) (threshold : Q) :
  let r := EarlyStopping.__init__ monitor min_delta patience threshold in
  ((exists e, r = inl e /\ is_configuration_error e) <->
   (~ In monitor EarlyStopping.supported_metrics \/
    (min_delta < 0)%Q \/
    patience < 1 \/
    (accuracy_metric monitor /\ ((threshold < 0)%Q \/ (1 < threshold)%Q))))
  /\ (forall e, r = inl e -> is_configuration_error e)
  /\ (forall self, r = inr self ->
        self = EarlyStopping.mk monitor min_delta patience threshold (-1) [])
  /\ (loss_metric monitor /\ (0 <= min_delta)%Q /\ 1 <= patience ->
        r = inr (EarlyStopping.mk monitor min_delta patience threshold (-1) [])).
Proof.
  cbv zeta. unfold EarlyStopping.__init__, EarlyStopping._validate_arguments.
  destruct (existsb (String.eqb monitor) EarlyStopping.supported_metrics)
    eqn:Em; simpl.
  2:{ assert (Hn : ~ In monitor EarlyStopping.supported_metrics).
      { intros H. apply supported_iff in H. congruence. }
      repeat split.
      - intros _. now left.
      - intros _. eexists. split; [reflexivity | exact I].
      - intros e [= <-]. exact I.
      - discriminate.
      - intros ([-> | ->] & _); exfalso; apply Hn; simpl; tauto. }
  apply supported_iff in Em.
  destruct (Qlt_bool min_delta 0) eqn:Ed.
  { apply Qlt_bool_true in Ed. repeat split.
    - intros _. right. now left.
    - intros _. eexists. split; [reflexivity | exact I].
    - intros e [= <-]. exact I.
    - discriminate.
    - intros (_ & H & _). exfalso. exact (Qlt_not_le _ _ Ed H). }
  apply Qlt_bool_false in Ed.
  destruct (patience <=? 0) eqn:Ep.
  { apply Z.leb_le in Ep. repeat split.
    - intros _. right. right. left. lia.
    - intros _. eexists. split; [reflexivity | exact I].
    - intros e [= <-]. exact I.
    - discriminate.
    - intros (_ & _ & H). lia. }
  apply Z.leb_gt in Ep.
  destruct (str_in "_acc" monitor
            && (Qlt_bool threshold 0 || Qlt_bool 1 threshold)) eqn:Et.
  { apply andb_true_iff in Et as [Ea Et].
    apply (supported_accuracy _ Em) in Ea.
    apply orb_true_iff in Et. rewrite !Qlt_bool_true in Et.
    repeat split.
    - intros _. right. right. right. now split.
    - intros _. eexists. split; [reflexivity | exact I].
    - intros e [= <-]. exact I.
    - discriminate.
    - intros ([-> | ->] & _); destruct Ea; discriminate. }
  repeat split.
  - intros (e & [=] & _).
  - intros [H | [H | [H | (Ha & Hthr)]]].
    + contradiction.
    + exfalso. exact (Qlt_not_le _ _ H Ed).
    + lia.
    + exfalso. apply (supported_accuracy _ Em) in Ha. rewrite Ha in Et.
      simpl in Et. apply orb_false_iff in Et as [E0 E1].
      apply Qlt_bool_false in E0, E1.
      destruct Hthr as [H | H]; eapply Qlt_not_le; eauto.
  - discriminate.
  - now intros self [= <-].
Qed.

Lemma init_raises_iff_invalid_witness :
  EarlyStopping.__init__ "val_loss" EarlyStopping.default_min_delta 5 (-3)
  = inr (EarlyStopping.mk "val_loss" EarlyStopping.default_min_delta 5 (-3)
           (-1) []).
Proof.
  refine (proj2 (proj2 (proj2
    (init_raises_iff_invalid "val_loss" EarlyStopping.default_min_delta 5
       (-3)))) _).
  split; [right; reflexivity |]. split; [discriminate | lia].
Defined.

(** ** Calls with a non-positive epoch *)

Lemma np_any_app_repeat_false (n : nat) :
  np_any (repeat false n) = false.
Proof. induction n; simpl; auto. Qed.

Lemma for_each_unchanged {H : Type} (check : H -> outcome H bool)
    (raises : H -> bool) (x : exn) (hs : list H) :
  Forall (fun c => check c =
            Outcome c [] (if raises c then inl x else inr false)) hs ->
  forall results,
    SequentialEarlyStopping.for_each check hs results =
    Outcome hs []
      (if existsb raises hs then inl x
       else inr (results ++ repeat false (List.length hs))).
Proof.
  induction 1 as [| c hs Hc _ IH]; intros results; simpl.
  - now rewrite app_nil_r.
  - rewrite Hc. simpl. destruct (raises c); simpl; [reflexivity |].
    rewrite IH. simpl. destruct (existsb raises hs); [reflexivity |].
    now rewrite <- app_assoc.
Qed.

(** C3 (as amended). With [epoch <= 0] no handler changes any state or logs
    anything; an [EarlyStopping] handler raises the invocation error, and so
    does a sequential handler that contains one at any depth; the no-op
    handler, and a sequential handler without an [EarlyStopping] inside,
    return [False] without raising. *)
Theorem nonpositive_epoch_leaves_state
    (h : EarlyStoppingHandler) (e : Z) (mv : gmap string (option Q)) :
  e <= 0 ->
  check_early_stop h e mv =
  Outcome h [] (if has_single h then inl invocation_error else inr false).
Proof.
  intros He. induction h as [| self | hs IH]
    using EarlyStoppingHandler_nested_ind; simpl.
  - reflexivity.
  - unfold EarlyStopping.check_early_stop.
    apply Z.leb_le in He. now rewrite He.
  - unfold SequentialEarlyStopping.check_early_stop.
    rewrite (for_each_unchanged _ has_single invocation_error hs IH). simpl.
    destruct (existsb has_single hs); [reflexivity |].
    now rewrite np_any_app_repeat_false.
Qed.

Lemma nonpositive_epoch_leaves_state_witness :
  check_early_stop
    (Sequential [Noop; Single (EarlyStopping.mk "val_loss" 0 2 0 (-1) [])])
    0 (∅ : gmap string (option Q)) =
  Outcome
    (Sequential [Noop; Single (EarlyStopping.mk "val_loss" 0 2 0 (-1) [])])
    [] (inl invocation_error).
Proof.
  apply (nonpositive_epoch_leaves_state
           (Sequential [Noop;
                        Single (EarlyStopping.mk "val_loss" 0 2 0 (-1) [])])
           0 ∅).
  lia.
Defined.

(** C3, the claim as stated fails: the no-op handler called with epoch 0
    returns [False] and raises nothing. *)
Lemma noop_accepts_epoch_zero :
  returned (check_early_stop Noop 0 (∅ : gmap string (option Q))) = inr false
  /\ returned (check_early_stop Noop 0 (∅ : gmap string (option Q)))
     <> inl invocation_error.
Proof. split; [reflexivity | discriminate]. Qed.

(** ** One call of [EarlyStopping.check_early_stop], step by step *)

Lemma np_sum_epoch_count (h : list Row) (e : Z) :
  np_sum (map (fun r => epoch r =? e) h) =
  Z.of_nat (count_occ Z.eq_dec (map epoch h) e).
Proof.
  unfold np_sum. f_equal.
  induction h as [| r h IH]; simpl; [reflexivity |].
  destruct (Z.eq_dec (epoch r) e) as [E | E].
  - apply Z.eqb_eq in E. rewrite E. simpl. now rewrite IH.
  - apply Z.eqb_neq in E. now rewrite E.
Qed.

Lemma add_to_history_valid (self : EarlyStopping.t) (e : Z)
    (mv : gmap string (option Q)) :
  valid_epoch e ->
  EarlyStopping.add_to_history self e mv =
  inr (EarlyStopping.history self ++ [new_row self e mv]).
Proof.
  intros [H0 H1]. unfold EarlyStopping.add_to_history, new_row.
  rewrite np_sum_epoch_count.
  replace (e <? int64_min) with false
    by (symmetry; apply Z.ltb_ge; unfold int64_min; lia).
  replace (int64_max <? e) with false by (symmetry; apply Z.ltb_ge; lia).
  reflexivity.
Qed.

Lemma check_early_stop_valid (self : EarlyStopping.t) (e : Z)
    (mv : gmap string (option Q)) :
  valid_epoch e ->
  EarlyStopping.check_early_stop self e mv = decide_stop (appended self e mv) mv.
Proof.
  intros He. unfold EarlyStopping.check_early_stop.
  replace (e <=? 0) with false
    by (symmetry; apply Z.leb_gt; destruct He; lia).
  rewrite (add_to_history_valid _ _ _ He). fold (appended self e mv).
  unfold decide_stop.
  destruct (dict_get mv (EarlyStopping.monitor (appended self e mv)));
    [reflexivity |].
  now rewrite andb_false_r.
Qed.

Lemma check_early_stop_invalid (self : EarlyStopping.t) (e : Z)
    (mv : gmap string (option Q)) :
  ~ valid_epoch e ->
  final (EarlyStopping.check_early_stop self e mv) = self /\
  exists x, returned (EarlyStopping.check_early_stop self e mv) = inl x.
Proof.
  intros He. unfold EarlyStopping.check_early_stop.
  destruct (e <=? 0) eqn:E0; [simpl; eauto |].
  unfold EarlyStopping.add_to_history.
  replace (int64_max <? e) with true.
  - rewrite orb_true_r. simpl. eauto.
  - symmetry. apply Z.ltb_lt. apply Z.leb_gt in E0.
    unfold valid_epoch in He. lia.
Qed.

Lemma improvement_emits (self' : EarlyStopping.t)
    (mv : gmap string (option Q)) (sign : Z) :
  let o := EarlyStopping._check_for_improvement self' mv sign in
  emitted o = [] \/
  exists a b, emitted o = [PatienceExceeded a b].
Proof.
  cbv zeta. unfold EarlyStopping._check_for_improvement.
  repeat match goal with
         | |- context [match ?x with _ => _ end] => destruct x; simpl
         end; eauto.
Qed.

(** ** The threshold rule *)

(** C4. With [threshold > 0] and the monitored value present, the call
    returns [True] through the threshold branch (the one that logs
    "Threshold exceeded") exactly when [sign(value - threshold)] is the
    monitor's direction sign, +1 for an accuracy monitor and -1 for a loss
    monitor: an accuracy monitor stops exactly on [value > threshold], a
    loss monitor exactly on [value < threshold].  It then leaves the handler
    as the append left it, whatever the history, index-of-best and patience
    are; a value equal to the threshold never takes that branch. *)
Theorem threshold_rule
    (self : EarlyStopping.t) (e : Z) (mv : gmap string (option Q)) (v : Q) :
  In (EarlyStopping.monitor self) EarlyStopping.supported_metrics ->
  (0 < EarlyStopping.threshold self)%Q ->
  valid_epoch e ->
  dict_get mv (EarlyStopping.monitor self) = Some v ->
  let o := EarlyStopping.check_early_stop self e mv in
  let threshold_stop :=
    returned o = inr true /\
    emitted o = [ThresholdExceeded v (EarlyStopping.threshold self)] in
  (threshold_stop <->
   np_sign (v - EarlyStopping.threshold self)%Q
   = direction_sign (EarlyStopping.monitor self))
  /\ (accuracy_metric (EarlyStopping.monitor self) ->
      direction_sign (EarlyStopping.monitor self) = 1 /\
      (threshold_stop <-> (EarlyStopping.threshold self < v)%Q))
  /\ (loss_metric (EarlyStopping.monitor self) ->
      direction_sign (EarlyStopping.monitor self) = -1 /\
      (threshold_stop <-> (v < EarlyStopping.threshold self)%Q))
  /\ (threshold_stop -> final o = appended self e mv)
  /\ ((v == EarlyStopping.threshold self)%Q ->
      forall x y, emitted o <> [ThresholdExceeded x y]).
Proof.
  intros Hm Hthr He Hv. cbv zeta.
  rewrite <- (monitor_sign_direction _ Hm).
  rewrite (check_early_stop_valid _ _ _ He). unfold decide_stop.
  change (EarlyStopping.monitor (appended self e mv))
    with (EarlyStopping.monitor self).
  change (EarlyStopping.threshold (appended self e mv))
    with (EarlyStopping.threshold self).
  rewrite Hv. apply Qlt_bool_true in Hthr. rewrite Hthr. simpl andb.
  set (sign := EarlyStopping.monitor_sign_of (EarlyStopping.monitor self)).
  assert (Hsign : sign = 1 \/ sign = -1).
  { unfold sign, EarlyStopping.monitor_sign_of.
    destruct (str_in "_acc" (EarlyStopping.monitor self)); auto. }
  assert (Hother :
    forall x y,
      emitted
        (if Z.of_nat (List.length (EarlyStopping.history (appended self e mv)))
            =? 1
         then Outcome (EarlyStopping.set_index_best (appended self e mv) 0)
                [] (inr false)
         else EarlyStopping._check_for_improvement (appended self e mv) mv sign)
      <> [ThresholdExceeded x y]).
  { intros x y.
    destruct (Z.of_nat
                (List.length (EarlyStopping.history (appended self e mv)))
              =? 1); [discriminate |].
    destruct (improvement_emits (appended self e mv) mv sign)
      as [-> | (a & b & ->)]; discriminate. }
  assert (Hacc : accuracy_metric (EarlyStopping.monitor self) -> sign = 1).
  { unfold sign. now intros [-> | ->]. }
  assert (Hloss : loss_metric (EarlyStopping.monitor self) -> sign = -1).
  { unfold sign. now intros [-> | ->]. }
  destruct (np_sign (v - EarlyStopping.threshold self)%Q =? sign) eqn:Es.
  - apply Z.eqb_eq in Es. simpl.
    split; [tauto |]. split; [| split; [| split]].
    + intros Ha. split; [auto |]. rewrite (Hacc Ha) in Es.
      apply np_sign_sub_pos in Es. tauto.
    + intros Hl. split; [auto |]. rewrite (Hloss Hl) in Es.
      apply np_sign_sub_neg in Es. tauto.
    + reflexivity.
    + intros Heq x y. apply np_sign_sub_zero in Heq. lia.
  - apply Z.eqb_neq in Es.
    assert (Hno :
      ~ (returned
           (if Z.of_nat
                 (List.length (EarlyStopping.history (appended self e mv)))
               =? 1
            then Outcome (EarlyStopping.set_index_best (appended self e mv) 0)
                   [] (inr false)
            else EarlyStopping._check_for_improvement (appended self e mv)
                   mv sign) = inr true /\
         emitted
           (if Z.of_nat
                 (List.length (EarlyStopping.history (appended self e mv)))
               =? 1
            then Outcome (EarlyStopping.set_index_best (appended self e mv) 0)
                   [] (inr false)
            else EarlyStopping._check_for_improvement (appended self e mv)
                   mv sign)
         = [ThresholdExceeded v (EarlyStopping.threshold self)])).
    { intros [_ H]. exact (Hother _ _ H). }
    split; [tauto |]. split; [| split; [| split]].
    + intros Ha. split; [auto |]. rewrite (Hacc Ha) in Es.
      rewrite <- np_sign_sub_pos. tauto.
    + intros Hl. split; [auto |]. rewrite (Hloss Hl) in Es.
      rewrite <- np_sign_sub_neg. tauto.
    + intros H. contradiction.
    + intros _. exact Hother.
Qed.

Lemma threshold_rule_witness :
  returned
    (EarlyStopping.check_early_stop
       (EarlyStopping.mk "val_acc" EarlyStopping.default_min_delta 2
          (9 # 10) (-1) [])
       1 {[ "val_acc"%string := Some (91 # 100) ]}) = inr true
  /\ returned
       (EarlyStopping.check_early_stop
          (EarlyStopping.mk "val_loss" EarlyStopping.default_min_delta 2
             (1 # 10) (-1) [])
          1 {[ "val_loss"%string := Some (5 # 100) ]}) = inr true.
Proof.
  split.
  - refine (proj1 (proj2 (proj2 (proj1 (proj2
      (threshold_rule
         (EarlyStopping.mk "val_acc" EarlyStopping.default_min_delta 2
            (9 # 10) (-1) [])
         1 {[ "val_acc"%string := Some (91 # 100) ]} (91 # 100) _ _ _ _))
      _)) _)).
    + simpl. tauto.
    + reflexivity.
    + unfold valid_epoch, int64_max. lia.
    + vm_compute. reflexivity.
    + right. reflexivity.
    + reflexivity.
  - refine (proj1 (proj2 (proj2 (proj1 (proj2 (proj2
      (threshold_rule
         (EarlyStopping.mk "val_loss" EarlyStopping.default_min_delta 2
            (1 # 10) (-1) [])
         1 {[ "val_loss"%string := Some (5 # 100) ]} (5 # 100) _ _ _ _)))
      _)) _)).
    + simpl. tauto.
    + reflexivity.
    + unfold valid_epoch, int64_max. lia.
    + vm_compute. reflexivity.
    + right. reflexivity.
    + reflexivity.
Defined.

(** ** The history append *)

Lemma improvement_final (self' : EarlyStopping.t)
    (mv : gmap string (option Q)) (sign : Z) :
  let o := EarlyStopping._check_for_improvement self' mv sign in
  final o = self' \/
  final o = EarlyStopping.set_index_best self'
              (Z.of_nat (List.length (EarlyStopping.history self')) - 1).
Proof.
  cbv zeta. unfold EarlyStopping._check_for_improvement.
  repeat match goal with
         | |- context [match ?x with _ => _ end] => destruct x; simpl
         end; auto.
Qed.

Lemma decide_stop_final (self' : EarlyStopping.t)
    (mv : gmap string (option Q)) :
  final (decide_stop self' mv) = self' \/
  exists i, final (decide_stop self' mv) = EarlyStopping.set_index_best self' i.
Proof.
  unfold decide_stop.
  destruct (dict_get mv (EarlyStopping.monitor self')); [| now left].
  destruct (_ && _); [now left |].
  destruct (_ =? 1); [right; eauto |].
  destruct (improvement_final self' mv
              (EarlyStopping.monitor_sign_of (EarlyStopping.monitor self')))
    as [-> | ->]; eauto.
Qed.

Lemma valid_epoch_dec (e : Z) : {valid_epoch e} + {~ valid_epoch e}.
Proof.
  unfold valid_epoch.
  destruct (Z_lt_dec 0 e); [| right; lia].
  destruct (Z_le_dec e int64_max); [left; lia | right; lia].
Qed.

Lemma succeeds_valid_epoch (self : EarlyStopping.t) (e : Z)
    (mv : gmap string (option Q)) :
  succeeds (EarlyStopping.check_early_stop self e mv) -> valid_epoch e.
Proof.
  intros [b Hb]. destruct (valid_epoch_dec e) as [H | H]; [exact H |].
  destruct (check_early_stop_invalid self e mv H) as (_ & x & Hx). congruence.
Qed.

Lemma check_history (self : EarlyStopping.t) (e : Z)
    (mv : gmap string (option Q)) :
  valid_epoch e ->
  EarlyStopping.history (final (EarlyStopping.check_early_stop self e mv)) =
  EarlyStopping.history self ++ [new_row self e mv].
Proof.
  intros He. rewrite (check_early_stop_valid _ _ _ He).
  destruct (decide_stop_final (appended self e mv) mv) as [-> | (i & ->)];
    reflexivity.
Qed.

Lemma count_occ_snoc (l : list Z) (x e : Z) :
  count_occ Z.eq_dec (l ++ [x]) e =
  (count_occ Z.eq_dec l e + (if Z.eq_dec x e then 1 else 0))%nat.
Proof. rewrite count_occ_app. simpl. now destruct (Z.eq_dec x e). Qed.

(** C8. A successful call with epoch [e] appends exactly one row; its epoch
    is [e] and its duplicate-count is the number of rows already in the
    history with epoch [e].  Hence, on a history where [e] has not occurred
    yet, two consecutive calls with epoch [e] append rows with counts 0
    and 1. *)
Theorem duplicate_count
    (self : EarlyStopping.t) (e : Z) (mv mv' : gmap string (option Q)) :
  let o := EarlyStopping.check_early_stop self e mv in
  let o' := EarlyStopping.check_early_stop (final o) e mv' in
  succeeds o ->
  (exists row,
      EarlyStopping.history (final o) = EarlyStopping.history self ++ [row] /\
      epoch row = e /\
      count row =
        Z.of_nat (count_occ Z.eq_dec (map epoch (EarlyStopping.history self)) e))
  /\ (succeeds o' ->
      count_occ Z.eq_dec (map epoch (EarlyStopping.history self)) e = 0%nat ->
      exists row1 row2,
        EarlyStopping.history (final o') =
          EarlyStopping.history self ++ [row1; row2] /\
        count row1 = 0 /\ count row2 = 1).
Proof.
  cbv zeta. intros Hs. pose proof (succeeds_valid_epoch _ _ _ Hs) as He.
  split.
  - exists (new_row self e mv). split; [now apply check_history |].
    split; reflexivity.
  - intros _ H0.
    exists (new_row self e mv),
           (new_row (final (EarlyStopping.check_early_stop self e mv)) e mv').
    rewrite (check_history _ _ _ He).
    rewrite (check_history self _ _ He). rewrite <- app_assoc. simpl.
    split; [reflexivity |]. split.
    + now rewrite H0.
    + rewrite (check_history self _ _ He), map_app. simpl map.
      rewrite count_occ_snoc, H0. simpl.
      destruct (Z.eq_dec e e); [reflexivity | contradiction].
Qed.

Lemma duplicate_count_witness :
  exists row1 row2,
    EarlyStopping.history
      (final (EarlyStopping.check_early_stop
         (final (EarlyStopping.check_early_stop
            (EarlyStopping.mk "train_acc" EarlyStopping.default_min_delta 2 0
               (-1) [])
            1 {[ "train_acc"%string := Some (8 # 10) ]}))
         1 {[ "val_loss"%string := Some (34 # 100) ]})) = [row1; row2] /\
    count row1 = 0 /\ count row2 = 1.
Proof.
  refine (proj2
    (duplicate_count
       (EarlyStopping.mk "train_acc" EarlyStopping.default_min_delta 2 0
          (-1) [])
       1 {[ "train_acc"%string := Some (8 # 10) ]}
       {[ "val_loss"%string := Some (34 # 100) ]} _) _ _).
  - exists false. vm_compute. reflexivity.
  - exists false. vm_compute. reflexivity.
  - reflexivity.
Defined.

(** ** Order facts about [better] and [improvement] *)

Lemma monitor_sign_cases (m : string) :
  EarlyStopping.monitor_sign_of m = 1 \/ EarlyStopping.monitor_sign_of m = -1.
Proof.
  unfold EarlyStopping.monitor_sign_of. destruct (str_in "_acc" m); auto.
Qed.

Lemma better_pos (a b : Q) : better 1 a b <-> (b < a)%Q.
Proof. apply np_sign_sub_pos. Qed.

Lemma better_neg (a b : Q) : better (-1) a b <-> (a < b)%Q.
Proof. apply np_sign_sub_neg. Qed.

Lemma better_trans (sign : Z) (a b c : Q) :
  sign = 1 \/ sign = -1 ->
  better sign a b -> better sign b c -> better sign a c.
Proof.
  intros [-> | ->]; rewrite ?better_pos, ?better_neg; intros; lra.
Qed.

Lemma better_irrefl (sign : Z) (a : Q) :
  sign = 1 \/ sign = -1 -> ~ better sign a a.
Proof.
  intros [-> | ->]; rewrite ?better_pos, ?better_neg; intros; lra.
Qed.

Lemma improvement_spec (self : EarlyStopping.t) (v b : Q) :
  (0 <= EarlyStopping.min_delta self)%Q ->
  EarlyStopping.improvement self
    (EarlyStopping.monitor_sign_of (EarlyStopping.monitor self))
    (Some (v - b)%Q) = true <->
  improves_on self v b.
Proof.
  intros Hmd.
  unfold EarlyStopping.improvement, improves_on, better, sign_is, abs_ge.
  destruct (Qlt_bool 0 (EarlyStopping.min_delta self)) eqn:E.
  - rewrite andb_true_iff, Z.eqb_eq, Qle_bool_iff. reflexivity.
  - apply Qlt_bool_false in E. rewrite Z.eqb_eq. split; [| tauto].
    intros H. split; [exact H |].
    eapply Qle_trans; [exact E | apply Qabs_nonneg].
Qed.

Lemma improves_on_beats (self : EarlyStopping.t) (v b w : Q) :
  (0 <= EarlyStopping.min_delta self)%Q ->
  improves_on self v b -> ~ improves_on self w b ->
  better (EarlyStopping.monitor_sign_of (EarlyStopping.monitor self)) v w.
Proof.
  unfold improves_on. intros Hmd [Hb Hd] Hw.
  destruct (monitor_sign_cases (EarlyStopping.monitor self)) as [E | E];
    rewrite E in *; rewrite ?better_pos, ?better_neg in *.
  - rewrite Qabs_pos in Hd by lra.
    destruct (Qlt_le_dec b w) as [Hlt | Hle]; [| lra].
    destruct (Qlt_le_dec w v) as [? | Hvw]; [assumption |].
    exfalso. apply Hw. split; [exact Hlt |].
    rewrite Qabs_pos by lra. lra.
  - rewrite Qabs_neg in Hd by lra.
    destruct (Qlt_le_dec w b) as [Hlt | Hle]; [| lra].
    destruct (Qlt_le_dec v w) as [? | Hvw]; [assumption |].
    exfalso. apply Hw. split; [exact Hlt |].
    rewrite Qabs_neg by lra. lra.
Qed.

(** ** Reading the history *)

Lemma column_supported (h : list Row) (m : string) :
  In m EarlyStopping.supported_metrics ->
  column h m = inr (map (monitored m) h).
Proof.
  intros H. unfold column, monitored.
  destruct (supported_cases m H) as [-> | [-> | [-> | ->]]]; reflexivity.
Qed.

Lemma monitored_new_row (self : EarlyStopping.t) (e : Z)
    (mv : gmap string (option Q)) (m : string) :
  In m EarlyStopping.supported_metrics ->
  monitored m (new_row self e mv) = dict_get mv m.
Proof.
  intros H. unfold monitored.
  destruct (supported_cases m H) as [-> | [-> | [-> | ->]]]; reflexivity.
Qed.

Lemma py_getitem_index {A : Type} (l : list A) (i : Z) (x : A) :
  0 <= i -> l !! Z.to_nat i = Some x -> py_getitem l i = inr x.
Proof.
  intros Hi Hx. unfold py_getitem.
  pose proof (lookup_lt_Some _ _ _ Hx) as Hlt.
  replace (i <? 0) with false by (symmetry; apply Z.ltb_ge; lia).
  replace (i <? 0) with false by (symmetry; apply Z.ltb_ge; lia).
  replace (Z.of_nat (List.length l) <=? i) with false
    by (symmetry; apply Z.leb_gt; lia).
  simpl. now rewrite Hx.
Qed.

Lemma py_getitem_last {A : Type} (l : list A) (x : A) :
  py_getitem (l ++ [x]) (-1) = inr x.
Proof.
  unfold py_getitem. rewrite length_app. simpl List.length.
  change (-1 <? 0) with true. cbv iota.
  replace (-1 + Z.of_nat (List.length l + 1) <? 0) with false
    by (symmetry; apply Z.ltb_ge; lia).
  replace (Z.of_nat (List.length l + 1)
           <=? -1 + Z.of_nat (List.length l + 1)) with false
    by (symmetry; apply Z.leb_gt; lia).
  simpl orb. cbv iota.
  rewrite list_lookup_middle by lia. reflexivity.
Qed.

Lemma previous_best_at (self : EarlyStopping.t) (r : Row) :
  In (EarlyStopping.monitor self) EarlyStopping.supported_metrics ->
  0 <= EarlyStopping.index_best self ->
  EarlyStopping.history self !! Z.to_nat (EarlyStopping.index_best self)
    = Some r ->
  EarlyStopping.previous_best self
    = inr (monitored (EarlyStopping.monitor self) r).
Proof.
  intros Hm Hi Hr. unfold EarlyStopping.previous_best.
  rewrite (column_supported _ _ Hm).
  apply py_getitem_index; [exact Hi |].
  change (map (monitored (EarlyStopping.monitor self))
            (EarlyStopping.history self))
    with (monitored (EarlyStopping.monitor self)
            <$> EarlyStopping.history self).
  now rewrite list_lookup_fmap, Hr.
Qed.

Lemma previous_best_unset (self : EarlyStopping.t) (h : list Row) (r : Row) :
  In (EarlyStopping.monitor self) EarlyStopping.supported_metrics ->
  EarlyStopping.index_best self = -1 ->
  EarlyStopping.history self = h ++ [r] ->
  EarlyStopping.previous_best self
    = inr (monitored (EarlyStopping.monitor self) r).
Proof.
  intros Hm Hi Hh. unfold EarlyStopping.previous_best.
  rewrite (column_supported _ _ Hm), Hi, Hh, map_app. simpl map.
  apply py_getitem_last.
Qed.

Lemma dict_item_sub_present (mv : gmap string (option Q)) (k : string)
    (v : Q) (b : npfloat) :
  dict_get mv k = Some v -> dict_item_sub mv k b = inr (float_sub v b).
Proof.
  unfold dict_get, dict_item_sub. destruct (mv !! k) as [[q |] |];
    intros [=]. now subst.
Qed.

(** ** Counting the rows since the best *)

Lemma np_sum_cons (b : bool) (l : list bool) :
  np_sum (b :: l) = (if b then 1 else 0) + np_sum l.
Proof. unfold np_sum. destruct b; simpl; lia. Qed.

Lemma present_after_all (m : string) (ib pos : Z) (h : list Row) :
  ib < pos ->
  present_after m ib pos h =
  np_sum (map (fun x => negb (np_isnan x)) (map (monitored m) h)).
Proof.
  revert pos. induction h as [| r h IH]; intros pos Hlt; simpl.
  - reflexivity.
  - rewrite np_sum_cons, (IH (pos + 1)) by lia.
    replace (ib <? pos) with true by (symmetry; apply Z.ltb_lt; lia).
    reflexivity.
Qed.

Lemma present_after_drop (m : string) (ib pos : Z) (h : list Row) :
  pos - 1 <= ib ->
  present_after m ib pos h =
  np_sum (map (fun x => negb (np_isnan x))
            (map (monitored m) (drop (Z.to_nat (ib + 1 - pos)) h))).
Proof.
  revert pos. induction h as [| r h IH]; intros pos Hle.
  - now rewrite drop_nil.
  - destruct (Z.eq_dec ib (pos - 1)) as [E | E].
    + replace (Z.to_nat (ib + 1 - pos)) with 0%nat by lia.
      rewrite drop_0. apply present_after_all. lia.
    + replace (Z.to_nat (ib + 1 - pos))
        with (S (Z.to_nat (ib + 1 - (pos + 1)))) by lia.
      simpl. rewrite (IH (pos + 1)) by lia.
      replace (ib <? pos) with false by (symmetry; apply Z.ltb_ge; lia).
      reflexivity.
Qed.

Lemma slice_count (self : EarlyStopping.t) :
  -1 <= EarlyStopping.index_best self
     < Z.of_nat (List.length (EarlyStopping.history self)) ->
  np_sum (map (fun x => negb (np_isnan x))
            (map (monitored (EarlyStopping.monitor self))
               (py_slice_from (EarlyStopping.history self)
                  (EarlyStopping.index_best self + 1)))) =
  non_missing_count_since_best self.
Proof.
  intros Hi. unfold non_missing_count_since_best, py_slice_from.
  rewrite (present_after_drop _ _ 0) by lia.
  replace (EarlyStopping.index_best self + 1 <? 0) with false
    by (symmetry; apply Z.ltb_ge; lia).
  rewrite Z.min_l by lia. now rewrite Z.sub_0_r.
Qed.

(** ** The improvement check on a well-formed handler *)

Lemma cfi_spec (self' : EarlyStopping.t) (mv : gmap string (option Q))
    (v : Q) (pb : npfloat) :
  let sign := EarlyStopping.monitor_sign_of (EarlyStopping.monitor self') in
  let index_last :=
    Z.of_nat (List.length (EarlyStopping.history self')) - 1 in
  In (EarlyStopping.monitor self') EarlyStopping.supported_metrics ->
  EarlyStopping.previous_best self' = inr pb ->
  dict_get mv (EarlyStopping.monitor self') = Some v ->
  -1 <= EarlyStopping.index_best self' <= index_last ->
  EarlyStopping._check_for_improvement self' mv sign =
  if EarlyStopping.improvement self' sign (float_sub v pb)
  then Outcome (EarlyStopping.set_index_best self' index_last) [] (inr false)
  else if EarlyStopping.patience self' <? non_missing_count_since_best self'
  then Outcome self'
         [PatienceExceeded (index_last - EarlyStopping.index_best self')
            (EarlyStopping.patience self')] (inr true)
  else Outcome self' [] (inr false).
Proof.
  cbv zeta. intros Hm Hpb Hv Hi.
  unfold EarlyStopping._check_for_improvement.
  rewrite Hpb, (dict_item_sub_present _ _ _ _ Hv).
  destruct (EarlyStopping.improvement _ _ _); [reflexivity |].
  rewrite (column_supported _ _ Hm), slice_count by lia.
  reflexivity.
Qed.

Lemma improvement_self (self : EarlyStopping.t) (v : Q) :
  EarlyStopping.improvement self
    (EarlyStopping.monitor_sign_of (EarlyStopping.monitor self))
    (Some (v - v)%Q) = false.
Proof.
  assert (E : sign_is (Some (v - v)%Q)
                (EarlyStopping.monitor_sign_of (EarlyStopping.monitor self))
              = false).
  { unfold sign_is. apply Z.eqb_neq.
    assert (H0 : np_sign (v - v)%Q = 0) by (apply np_sign_sub_zero; reflexivity).
    destruct (monitor_sign_cases (EarlyStopping.monitor self)); lia. }
  unfold EarlyStopping.improvement. rewrite E.
  now destruct (Qlt_bool 0 (EarlyStopping.min_delta self)).
Qed.

Lemma best_so_far_snoc (self : EarlyStopping.t) (row : Row) :
  0 <= EarlyStopping.index_best self
    < Z.of_nat (List.length (EarlyStopping.history self)) ->
  best_so_far self ->
  (forall r b v,
     EarlyStopping.history self
       !! Z.to_nat (EarlyStopping.index_best self) = Some r ->
     monitored (EarlyStopping.monitor self) r = Some b ->
     monitored (EarlyStopping.monitor self) row = Some v ->
     ~ crosses_threshold self v ->
     ~ improves_on self v b) ->
  best_so_far
    (EarlyStopping.set_history self (EarlyStopping.history self ++ [row])).
Proof.
  intros Hi (r & b & Hr & Hb & Hall) Hnew.
  exists r, b. simpl. split; [| split; [exact Hb |]].
  - apply lookup_app_l_Some. exact Hr.
  - intros j r' v Hj Hv Hc.
    apply lookup_app_Some in Hj as [Hj | [Hlen Hj]].
    + exact (Hall j r' v Hj Hv Hc).
    + destruct (j - List.length (EarlyStopping.history self))%nat
        as [| k] eqn:Ek; [| now destruct k].
      injection Hj as <-. split; [lia |].
      intros _. exact (Hnew r b v Hr Hb Hv Hc).
Qed.

(** ** One call on a well-formed handler, case by case *)

Lemma crosses_threshold_bool (self : EarlyStopping.t) (v : Q) :
  Qlt_bool 0 (EarlyStopping.threshold self)
  && (np_sign (v - EarlyStopping.threshold self)%Q
      =? EarlyStopping.monitor_sign_of (EarlyStopping.monitor self)) = true
  <-> crosses_threshold self v.
Proof.
  unfold crosses_threshold, better.
  now rewrite andb_true_iff, Qlt_bool_true, Z.eqb_eq.
Qed.

Lemma step_spec (self : EarlyStopping.t) (e : Z)
    (mv : gmap string (option Q)) :
  In (EarlyStopping.monitor self) EarlyStopping.supported_metrics ->
  EarlyStopping.index_best self = -1 \/
    0 <= EarlyStopping.index_best self
      < Z.of_nat (List.length (EarlyStopping.history self)) ->
  valid_epoch e ->
  let self' := appended self e mv in
  let o := EarlyStopping.check_early_stop self e mv in
  (dict_get mv (EarlyStopping.monitor self) = None /\
   o = Outcome self' [] (inr false))
  \/
  (exists v,
     dict_get mv (EarlyStopping.monitor self) = Some v /\
     ((crosses_threshold self v /\
       o = Outcome self' [ThresholdExceeded v (EarlyStopping.threshold self)]
             (inr true))
      \/
      (~ crosses_threshold self v /\
       ((EarlyStopping.history self = [] /\
         o = Outcome (EarlyStopping.set_index_best self' 0) [] (inr false))
        \/
        (EarlyStopping.history self <> [] /\
         exists pb,
           EarlyStopping.previous_best self' = inr pb /\
           ((EarlyStopping.index_best self = -1 /\ pb = Some v) \/
            (0 <= EarlyStopping.index_best self /\
             exists r,
               EarlyStopping.history self
                 !! Z.to_nat (EarlyStopping.index_best self) = Some r /\
               pb = monitored (EarlyStopping.monitor self) r)) /\
           o = improvement_outcome self' v pb))))).
Proof.
  intros Hm Hi He. cbv zeta.
  rewrite (check_early_stop_valid _ _ _ He). unfold decide_stop.
  change (EarlyStopping.monitor (appended self e mv))
    with (EarlyStopping.monitor self).
  change (EarlyStopping.threshold (appended self e mv))
    with (EarlyStopping.threshold self).
  destruct (dict_get mv (EarlyStopping.monitor self)) as [v |] eqn:Hv;
    [right; exists v; split; [reflexivity |] | left; now split].
  destruct (Qlt_bool 0 (EarlyStopping.threshold self) && _) eqn:Hc.
  { left. apply crosses_threshold_bool in Hc. now split. }
  right. split.
  { intros H. apply crosses_threshold_bool in H. congruence. }
  change (EarlyStopping.history (appended self e mv))
    with (EarlyStopping.history self ++ [new_row self e mv]).
  rewrite length_app. simpl List.length.
  destruct (EarlyStopping.history self) as [| r0 h0] eqn:Hh.
  { left. now split. }
  right. split; [discriminate |].
  replace (Z.of_nat (List.length (r0 :: h0) + 1) =? 1) with false
    by (symmetry; apply Z.eqb_neq; simpl; lia).
  rewrite <- Hh in *. clear Hh r0 h0.
  assert (Hpb : exists pb,
    EarlyStopping.previous_best (appended self e mv) = inr pb /\
    ((EarlyStopping.index_best self = -1 /\ pb = Some v) \/
     (0 <= EarlyStopping.index_best self /\
      exists r,
        EarlyStopping.history self
          !! Z.to_nat (EarlyStopping.index_best self) = Some r /\
        pb = monitored (EarlyStopping.monitor self) r))).
  { destruct Hi as [Hi | Hi].
    - exists (Some v). split; [| left; now split].
      rewrite (previous_best_unset (appended self e mv)
                 (EarlyStopping.history self) (new_row self e mv) Hm Hi eq_refl).
      change (EarlyStopping.monitor (appended self e mv))
        with (EarlyStopping.monitor self).
      now rewrite (monitored_new_row _ _ _ _ Hm), Hv.
    - destruct (lookup_lt_is_Some_2 (EarlyStopping.history self)
                  (Z.to_nat (EarlyStopping.index_best self))) as [r Hr];
        [lia |].
      exists (monitored (EarlyStopping.monitor self) r). split.
      + apply (previous_best_at (appended self e mv) r Hm); [apply Hi |].
        apply lookup_app_l_Some. exact Hr.
      + right. split; [apply Hi | eauto]. }
  destruct Hpb as (pb & Hpb & Hcase). exists pb.
  split; [exact Hpb |]. split; [exact Hcase |].
  unfold improvement_outcome.
  apply (cfi_spec (appended self e mv) mv v pb Hm Hpb Hv).
  change (EarlyStopping.index_best (appended self e mv))
    with (EarlyStopping.index_best self).
  change (EarlyStopping.history (appended self e mv))
    with (EarlyStopping.history self ++ [new_row self e mv]).
  rewrite length_app. simpl List.length. lia.
Qed.

(** ** The invariant holds in every reachable state *)

Lemma wf_init (monitor : string) (min_delta : Q) (patience : Z)
    (threshold : Q) (self : EarlyStopping.t) :
  EarlyStopping.__init__ monitor min_delta patience threshold = inr self ->
  wf self.
Proof.
  unfold EarlyStopping.__init__, EarlyStopping._validate_arguments.
  destruct (existsb (String.eqb monitor) EarlyStopping.supported_metrics)
    eqn:Em; simpl; [| discriminate].
  destruct (Qlt_bool min_delta 0) eqn:Ed; [discriminate |].
  destruct (patience <=? 0) eqn:Ep; [discriminate |].
  destruct (str_in "_acc" monitor && _); [discriminate |].
  intros [= <-]. constructor; simpl.
  - now apply supported_iff.
  - now apply Qlt_bool_false.
  - apply Z.leb_gt in Ep. lia.
  - now left.
  - lia.
Qed.

Lemma wf_keep (self : EarlyStopping.t) (e : Z)
    (mv : gmap string (option Q)) :
  wf self ->
  (forall r b v,
     0 <= EarlyStopping.index_best self ->
     EarlyStopping.history self
       !! Z.to_nat (EarlyStopping.index_best self) = Some r ->
     monitored (EarlyStopping.monitor self) r = Some b ->
     dict_get mv (EarlyStopping.monitor self) = Some v ->
     ~ crosses_threshold self v ->
     ~ improves_on self v b) ->
  wf (appended self e mv).
Proof.
  intros [Hm Hd Hp Hi Hb] Hnew. constructor; simpl; auto.
  - rewrite length_app. simpl. lia.
  - intros H0. apply best_so_far_snoc; [lia | auto |].
    intros r b v Hr Hbv Hv. rewrite (monitored_new_row _ _ _ _ Hm) in Hv.
    eauto.
Qed.

Lemma wf_first (self : EarlyStopping.t) (e : Z)
    (mv : gmap string (option Q)) (v : Q) :
  wf self ->
  EarlyStopping.history self = [] ->
  dict_get mv (EarlyStopping.monitor self) = Some v ->
  wf (EarlyStopping.set_index_best (appended self e mv) 0).
Proof.
  intros [Hm Hd Hp Hi Hb] Hh Hv. constructor; simpl; auto.
  - rewrite Hh. simpl. lia.
  - intros _. exists (new_row self e mv), v. simpl. rewrite Hh. simpl.
    split; [reflexivity |]. split.
    + now rewrite (monitored_new_row _ _ _ _ Hm).
    + intros [| j] r' v' Hj _ _; [split; lia | discriminate].
Qed.

Lemma wf_new_best (self : EarlyStopping.t) (e : Z)
    (mv : gmap string (option Q)) (v : Q) (r : Row) (b : Q) :
  wf self ->
  0 <= EarlyStopping.index_best self ->
  dict_get mv (EarlyStopping.monitor self) = Some v ->
  EarlyStopping.history self
    !! Z.to_nat (EarlyStopping.index_best self) = Some r ->
  monitored (EarlyStopping.monitor self) r = Some b ->
  improves_on self v b ->
  wf (EarlyStopping.set_index_best (appended self e mv)
        (Z.of_nat (List.length (EarlyStopping.history (appended self e mv)))
         - 1)).
Proof.
  intros [Hm Hd Hp Hi Hb] H0 Hv Hr Hbv Himp.
  pose proof (monitor_sign_cases (EarlyStopping.monitor self)) as Hsign.
  destruct (Hb H0) as (r1 & b1 & Hr1 & Hb1 & Hall).
  assert (r1 = r) by congruence. subst r1.
  assert (b1 = b) by congruence. subst b1.
  constructor; simpl; auto.
  - rewrite length_app. simpl. lia.
  - intros _. exists (new_row self e mv), v. simpl.
    rewrite length_app. simpl List.length.
    replace (Z.to_nat
               (Z.of_nat (List.length (EarlyStopping.history self) + 1) - 1))
      with (List.length (EarlyStopping.history self)) by lia.
    split; [now apply list_lookup_middle |]. split.
    + now rewrite (monitored_new_row _ _ _ _ Hm).
    + intros j r' v' Hj Hv' Hc.
      pose proof (lookup_lt_Some _ _ _ Hj) as Hlt.
      rewrite length_app in Hlt. simpl in Hlt.
      split; [| lia]. intros Hjlt.
      rewrite lookup_app_l in Hj by lia.
      destruct (Hall j r' v' Hj Hv' Hc) as [Hearlier Hlater].
      destruct (Z.lt_trichotomy (Z.of_nat j) (EarlyStopping.index_best self))
        as [Hlt' | [Heq | Hgt]].
      * eapply better_trans; [exact Hsign | apply Himp | auto].
      * replace j with (Z.to_nat (EarlyStopping.index_best self)) in Hj
          by lia.
        assert (r' = r) by congruence. subst r'.
        assert (v' = b) by congruence. subst v'. apply Himp.
      * eapply improves_on_beats; eauto.
Qed.

Lemma wf_step (self : EarlyStopping.t) (e : Z)
    (mv : gmap string (option Q)) :
  wf self -> wf (final (EarlyStopping.check_early_stop self e mv)).
Proof.
  intros Hwf. destruct (valid_epoch_dec e) as [He | He].
  2:{ destruct (check_early_stop_invalid self e mv He) as [-> _]. exact Hwf. }
  pose proof Hwf as [Hm Hd Hp Hi Hb].
  destruct (step_spec self e mv Hm Hi He)
    as [[Hv ->] | (v & Hv & [[Hc ->] | [Hc [[Hh ->] | (Hh & pb & Hpb & Hcase & ->)]]])].
  - apply wf_keep; [exact Hwf |]. intros; congruence.
  - apply wf_keep; [exact Hwf |]. intros r b v' _ _ _ Hv' Hc'.
    assert (v' = v) by congruence. subst v'. contradiction.
  - eapply wf_first; eauto.
  - unfold improvement_outcome.
    destruct Hcase as [[Hi1 ->] | (H0 & r & Hr & ->)].
    + simpl float_sub.
      rewrite (improvement_self (appended self e mv) v).
      assert (Hk : wf (appended self e mv)).
      { apply wf_keep; [exact Hwf |]. intros r b v' Hge. lia. }
      destruct (_ <? _); exact Hk.
    + destruct (Hb H0) as (r1 & b & Hr1 & Hbv & _).
      assert (r1 = r) by congruence. subst r1. rewrite Hbv. simpl float_sub.
      destruct (EarlyStopping.improvement (appended self e mv) _ _) eqn:Eimp.
      * apply (improvement_spec (appended self e mv) v b Hd) in Eimp.
        simpl. eapply wf_new_best; eauto.
      * assert (Hk : wf (appended self e mv)).
        { apply wf_keep; [exact Hwf |]. intros r2 b2 v2 _ Hr2 Hb2 Hv2 _ Himp.
          assert (r2 = r) by congruence. subst r2.
          assert (b2 = b) by congruence. subst b2.
          assert (v2 = v) by congruence. subst v2.
          apply (improvement_spec (appended self e mv) v b Hd) in Himp.
          congruence. }
        destruct (_ <? _); exact Hk.
Qed.

Lemma reachable_wf (self : EarlyStopping.t) : reachable self -> wf self.
Proof.
  induction 1 as [monitor min_delta patience threshold self H | self e mv _ IH].
  - eapply wf_init; eauto.
  - now apply wf_step.
Qed.

Lemma reachable_run (self : EarlyStopping.t) (calls : list call) :
  reachable self -> reachable (fst (run self calls)).
Proof.
  revert self. induction calls as [| [e mv] rest IH]; intros self H; simpl.
  - exact H.
  - specialize (IH _ (reachable_check self e mv H)).
    now destruct (run (final (EarlyStopping.check_early_stop self e mv)) rest).
Qed.

(** ** Index-of-best *)

Lemma better_asym (sign : Z) (a b : Q) :
  sign = 1 \/ sign = -1 -> better sign a b -> ~ better sign b a.
Proof.
  intros Hs Hab Hba. apply (better_irrefl sign a Hs).
  eapply better_trans; eauto.
Qed.

Lemma index_best_step (self : EarlyStopping.t) (e : Z)
    (mv : gmap string (option Q)) :
  wf self ->
  0 <= EarlyStopping.index_best self ->
  let s' := final (EarlyStopping.check_early_stop self e mv) in
  EarlyStopping.index_best s' = EarlyStopping.index_best self \/
  EarlyStopping.index_best self < EarlyStopping.index_best s'.
Proof.
  intros Hwf H0. cbv zeta. destruct (valid_epoch_dec e) as [He | He].
  2:{ destruct (check_early_stop_invalid self e mv He) as [-> _]. now left. }
  pose proof Hwf as [Hm Hd Hp Hi Hb].
  destruct (step_spec self e mv Hm Hi He)
    as [[Hv ->] | (v & Hv & [[Hc ->] | [Hc [[Hh ->] | (Hh & pb & Hpb & Hcase & ->)]]])].
  - now left.
  - now left.
  - rewrite Hh in Hi. simpl in Hi. lia.
  - unfold improvement_outcome.
    destruct (EarlyStopping.improvement _ _ _).
    + right. simpl. rewrite length_app. simpl. lia.
    + left. now destruct (_ <? _).
Qed.

(** C9. Once index-of-best is a non-negative index, any further sequence of
    calls leaves it equal or moves it to a strictly later index; it never
    goes back to an earlier index or to -1. *)
Theorem index_best_monotone (self : EarlyStopping.t) (calls : list call) :
  reachable self ->
  0 <= EarlyStopping.index_best self ->
  let s' := fst (run self calls) in
  EarlyStopping.index_best s' = EarlyStopping.index_best self \/
  EarlyStopping.index_best self < EarlyStopping.index_best s'.
Proof.
  cbv zeta. revert self.
  induction calls as [| [e mv] rest IH]; intros self Hr H0; simpl.
  - now left.
  - pose proof (index_best_step self e mv (reachable_wf _ Hr) H0) as Hstep.
    cbv zeta in Hstep.
    specialize (IH (final (EarlyStopping.check_early_stop self e mv))
                  (reachable_check self e mv Hr)).
    destruct (run (final (EarlyStopping.check_early_stop self e mv)) rest)
      as [s' rs]. simpl in *.
    destruct IH as [IH | IH]; lia.
Qed.

Lemma index_best_monotone_witness :
  EarlyStopping.index_best
    (fst (run (fst (run (EarlyStopping.mk "train_acc" 0 2 0 (-1) [])
                      [(1, {[ "train_acc"%string := Some (80 # 100) ]})]))
            [(1, ∅);
             (2, {[ "train_acc"%string := Some (81 # 100) ]});
             (3, {[ "train_acc"%string := Some (79 # 100) ]})])) = 2.
Proof.
  destruct (index_best_monotone
    (fst (run (EarlyStopping.mk "train_acc" 0 2 0 (-1) [])
            [(1, {[ "train_acc"%string := Some (80 # 100) ]})]))
    [(1, ∅);
     (2, {[ "train_acc"%string := Some (81 # 100) ]});
     (3, {[ "train_acc"%string := Some (79 # 100) ]})]) as [H | H].
  - apply reachable_run.
    apply (reachable_init "train_acc" 0 2 0). reflexivity.
  - vm_compute. discriminate.
  - reflexivity.
  - reflexivity.
Defined.

(** ** The patience rule *)

(** C5. On a call with a present monitored value that is not the first
    entry, does not take the threshold branch and is not an improvement,
    the answer is [True] exactly when the number of rows strictly after
    index-of-best, up to and including the new row, with a present
    monitored value exceeds the patience.  With monitor [val_loss],
    patience 2 and the defaults, the values 0.065, 0.068, 0.067, 0.066 at
    epochs 1 to 4 give [False], [False], [False], [True]. *)
Theorem patience_rule :
  (forall (self : EarlyStopping.t) (e : Z) (mv : gmap string (option Q))
          (v : Q),
      reachable self ->
      valid_epoch e ->
      dict_get mv (EarlyStopping.monitor self) = Some v ->
      EarlyStopping.history self <> [] ->
      ~ crosses_threshold self v ->
      is_improvement (appended self e mv) v = false ->
      exists b,
        returned (EarlyStopping.check_early_stop self e mv) = inr b /\
        (b = true <->
         EarlyStopping.patience self
           < non_missing_count_since_best (appended self e mv)))
  /\ (exists self,
        EarlyStopping.__init__ "val_loss" EarlyStopping.default_min_delta 2
          EarlyStopping.default_threshold = inr self /\
        snd (run self
               [(1, {[ "val_loss"%string := Some (65 # 1000) ]});
                (2, {[ "val_loss"%string := Some (68 # 1000) ]});
                (3, {[ "val_loss"%string := Some (67 # 1000) ]});
                (4, {[ "val_loss"%string := Some (66 # 1000) ]})])
        = [inr false; inr false; inr false; inr true]).
Proof.
  split.
  - intros self e mv v Hr He Hv Hh Hc Himp.
    pose proof (reachable_wf _ Hr) as [Hm Hd Hp Hi Hb].
    destruct (step_spec self e mv Hm Hi He)
      as [[Hv' Ho] | (v' & Hv' & [[Hc' Ho] | [_ [[Hh' Ho] | (_ & pb & Hpb & _ & Ho)]]])];
      try congruence.
    assert (v' = v) by congruence. subst v'.
    unfold is_improvement in Himp. rewrite Hpb in Himp.
    rewrite Ho. unfold improvement_outcome. rewrite Himp.
    change (EarlyStopping.patience (appended self e mv))
      with (EarlyStopping.patience self).
    destruct (EarlyStopping.patience self
              <? non_missing_count_since_best (appended self e mv)) eqn:E.
    + exists true. split; [reflexivity |]. apply Z.ltb_lt in E. tauto.
    + exists false. split; [reflexivity |]. apply Z.ltb_ge in E.
      split; [discriminate | lia].
  - eexists. split; [reflexivity |]. vm_compute. reflexivity.
Qed.

Lemma patience_rule_witness :
  exists b,
    returned
      (EarlyStopping.check_early_stop
         (fst (run (EarlyStopping.mk "val_loss"
                      EarlyStopping.default_min_delta 2 0 (-1) [])
                 [(1, {[ "val_loss"%string := Some (65 # 1000) ]});
                  (2, {[ "val_loss"%string := Some (68 # 1000) ]});
                  (3, {[ "val_loss"%string := Some (67 # 1000) ]})]))
         4 {[ "val_loss"%string := Some (66 # 1000) ]}) = inr b /\
    (b = true <->
     2 < non_missing_count_since_best
           (appended
              (fst (run (EarlyStopping.mk "val_loss"
                           EarlyStopping.default_min_delta 2 0 (-1) [])
                      [(1, {[ "val_loss"%string := Some (65 # 1000) ]});
                       (2, {[ "val_loss"%string := Some (68 # 1000) ]});
                       (3, {[ "val_loss"%string := Some (67 # 1000) ]})]))
              4 {[ "val_loss"%string := Some (66 # 1000) ]})).
Proof.
  refine (proj1 patience_rule
    (fst (run (EarlyStopping.mk "val_loss"
                 EarlyStopping.default_min_delta 2 0 (-1) [])
            [(1, {[ "val_loss"%string := Some (65 # 1000) ]});
             (2, {[ "val_loss"%string := Some (68 # 1000) ]});
             (3, {[ "val_loss"%string := Some (67 # 1000) ]})]))
    4 {[ "val_loss"%string := Some (66 # 1000) ]} (66 # 1000) _ _ _ _ _ _).
  - apply reachable_run.
    apply (reachable_init "val_loss" EarlyStopping.default_min_delta 2 0).
    reflexivity.
  - unfold valid_epoch, int64_max. lia.
  - vm_compute. reflexivity.
  - vm_compute. discriminate.
  - intros [H _]. vm_compute in H. discriminate.
  - vm_compute. reflexivity.
Defined.

(** ** The sequential handler *)

Section ForEach.
Context {H : Type}.
Variable check : H -> outcome H bool.

Lemma for_each_succeed (hs : list H) :
  Forall (fun h => succeeds (check h)) hs ->
  forall results,
    SequentialEarlyStopping.for_each check hs results =
    Outcome (map (fun h => final (check h)) hs)
            (concat (map (fun h => emitted (check h)) hs))
            (inr (results ++ map (fun h => answer (check h)) hs)).
Proof.
  induction 1 as [| c hs [b Hb] _ IH]; intros results; simpl.
  - now rewrite app_nil_r.
  - rewrite Hb, IH. simpl. unfold answer at 2. rewrite Hb.
    now rewrite <- app_assoc.
Qed.

Lemma for_each_raise (before : list H) (c : H) (after : list H) (x : exn) :
  Forall (fun h => succeeds (check h)) before ->
  returned (check c) = inl x ->
  forall results,
    SequentialEarlyStopping.for_each check (before ++ c :: after) results =
    Outcome (map (fun h => final (check h)) before
             ++ final (check c) :: after)
            (concat (map (fun h => emitted (check h)) before)
             ++ emitted (check c))
            (inl x).
Proof.
  intros Hbefore Hc.
  induction Hbefore as [| c0 hs [b Hb] _ IH]; intros results; simpl.
  - now rewrite Hc.
  - rewrite Hb, IH. simpl. now rewrite <- app_assoc.
Qed.
End ForEach.

Lemma np_any_map {A : Type} (f : A -> bool) (l : list A) :
  np_any (map f l) = existsb f l.
Proof. unfold np_any. induction l; simpl; congruence. Qed.

(** C6. A sequential handler calls every sub handler, in list order and
    whatever the earlier ones answered: each sub handler ends in the state
    its own call leaves, the log is the sub handlers' logs in list order,
    and the answer is the logical or of the sub answers.  With no sub
    handler the answer is [False]. *)
Theorem sequential_is_or
    (hs : list EarlyStoppingHandler) (e : Z) (mv : gmap string (option Q)) :
  Forall (fun h => succeeds (check_early_stop h e mv)) hs ->
  check_early_stop (Sequential hs) e mv =
    Outcome (Sequential (map (fun h => final (check_early_stop h e mv)) hs))
            (concat (map (fun h => emitted (check_early_stop h e mv)) hs))
            (inr (existsb (fun h => answer (check_early_stop h e mv)) hs))
  /\ check_early_stop (Sequential []) e mv
     = Outcome (Sequential []) [] (inr false).
Proof.
  intros Hall. split; [| reflexivity]. simpl.
  unfold SequentialEarlyStopping.check_early_stop.
  rewrite (for_each_succeed _ hs Hall). simpl.
  now rewrite np_any_map.
Qed.

Lemma sequential_is_or_witness :
  check_early_stop
    (Sequential
       [Single (EarlyStopping.mk "val_loss" 0 2 (1 # 10) (-1) []);
        Single (EarlyStopping.mk "train_acc" 0 2 0 (-1) [])])
    1 {[ "val_loss"%string := Some (5 # 100) ]} =
  Outcome
    (Sequential
       [Single (EarlyStopping.mk "val_loss" 0 2 (1 # 10) (-1)
                  [mkRow 1 0 None None None (Some (5 # 100))]);
        Single (EarlyStopping.mk "train_acc" 0 2 0 (-1)
                  [mkRow 1 0 None None None (Some (5 # 100))])])
    [ThresholdExceeded (5 # 100) (1 # 10)] (inr true).
Proof.
  refine (eq_trans (proj1
    (sequential_is_or
       [Single (EarlyStopping.mk "val_loss" 0 2 (1 # 10) (-1) []);
        Single (EarlyStopping.mk "train_acc" 0 2 0 (-1) [])]
       1 {[ "val_loss"%string := Some (5 # 100) ]} _)) _).
  - repeat constructor.
    + exists true. vm_compute. reflexivity.
    + exists false. vm_compute. reflexivity.
  - vm_compute. reflexivity.
Defined.

(** C10. When the call of a sub handler raises, the exception leaves the
    sequential handler; the sub handlers before it keep the state their own
    call produced, the raising one keeps what it had done before raising,
    and the sub handlers after it are not called: their state is untouched
    and they log nothing. *)
Theorem sequential_raise_is_not_atomic
    (before : list EarlyStoppingHandler) (c : EarlyStoppingHandler)
    (after : list EarlyStoppingHandler) (e : Z)
    (mv : gmap string (option Q)) (x : exn) :
  Forall (fun h => succeeds (check_early_stop h e mv)) before ->
  returned (check_early_stop c e mv) = inl x ->
  check_early_stop (Sequential (before ++ c :: after)) e mv =
  Outcome
    (Sequential
       (map (fun h => final (check_early_stop h e mv)) before
        ++ final (check_early_stop c e mv) :: after))
    (concat (map (fun h => emitted (check_early_stop h e mv)) before)
     ++ emitted (check_early_stop c e mv))
    (inl x).
Proof.
  intros Hbefore Hc. simpl.
  unfold SequentialEarlyStopping.check_early_stop.
  now rewrite (for_each_raise _ before c after x Hbefore Hc).
Qed.

(** The second sub handler had its public attribute [index_best] set past
    the end of its history, so its call raises [IndexError] after the append;
    the first one has recorded the call, the third one has not. *)
Lemma sequential_raise_is_not_atomic_witness :
  check_early_stop
    (Sequential
       ([Single (EarlyStopping.mk "val_loss" 0 2 0 (-1) [])]
        ++ Single (EarlyStopping.mk "val_loss" 0 2 0 5
                     [mkRow 1 0 None None None (Some (7 # 100))])
        :: [Single (EarlyStopping.mk "val_loss" 0 2 0 (-1) [])]))
    2 {[ "val_loss"%string := Some (6 # 100) ]} =
  Outcome
    (Sequential
       [Single (EarlyStopping.mk "val_loss" 0 2 0 0
                  [mkRow 2 0 None None None (Some (6 # 100))]);
        Single (EarlyStopping.mk "val_loss" 0 2 0 5
                  [mkRow 1 0 None None None (Some (7 # 100));
                   mkRow 2 0 None None None (Some (6 # 100))]);
        Single (EarlyStopping.mk "val_loss" 0 2 0 (-1) [])])
    [] (inl IndexError).
Proof.
  refine (eq_trans
    (sequential_raise_is_not_atomic
       [Single (EarlyStopping.mk "val_loss" 0 2 0 (-1) [])]
       (Single (EarlyStopping.mk "val_loss" 0 2 0 5
                  [mkRow 1 0 None None None (Some (7 # 100))]))
       [Single (EarlyStopping.mk "val_loss" 0 2 0 (-1) [])]
       2 {[ "val_loss"%string := Some (6 # 100) ]} IndexError _ _) _).
  - repeat constructor. exists false. vm_compute. reflexivity.
  - vm_compute. reflexivity.
  - vm_compute. reflexivity.
Defined.

(** ** Calls without the monitored metric *)

Lemma present_after_snoc (m : string) (ib : Z) (h : list Row) (row : Row) :
  forall pos,
    present_after m ib pos (h ++ [row]) =
    present_after m ib pos h
    + (if (ib <? pos + Z.of_nat (List.length h))
          && negb (np_isnan (monitored m row)) then 1 else 0).
Proof.
  induction h as [| r h IH]; intros pos; simpl.
  - now rewrite Z.add_0_r, Z.add_0_r.
  - rewrite (IH (pos + 1)).
    replace (pos + 1 + Z.of_nat (List.length h))
      with (pos + Z.of_nat (S (List.length h))) by lia.
    lia.
Qed.

Lemma present_after_none (m : string) (ib : Z) (h : list Row) :
  forall pos,
    pos + Z.of_nat (List.length h) - 1 <= ib -> present_after m ib pos h = 0.
Proof.
  induction h as [| r h IH]; intros pos Hle; simpl; [reflexivity |].
  simpl in Hle. rewrite (IH (pos + 1)) by lia.
  replace (ib <? pos) with false by (symmetry; apply Z.ltb_ge; lia).
  reflexivity.
Qed.

Lemma count_appended (self : EarlyStopping.t) (e : Z)
    (mv : gmap string (option Q)) :
  wf self ->
  non_missing_count_since_best (appended self e mv) =
  non_missing_count_since_best self
  + (if np_isnan (dict_get mv (EarlyStopping.monitor self)) then 0 else 1).
Proof.
  intros [Hm _ _ Hi _]. unfold non_missing_count_since_best. simpl.
  rewrite present_after_snoc, (monitored_new_row _ _ _ _ Hm).
  replace (EarlyStopping.index_best self
           <? 0 + Z.of_nat (List.length (EarlyStopping.history self)))
    with true by (symmetry; apply Z.ltb_lt; lia).
  now destruct (np_isnan _).
Qed.

Lemma count_new_best (self : EarlyStopping.t) (e : Z)
    (mv : gmap string (option Q)) :
  non_missing_count_since_best
    (EarlyStopping.set_index_best (appended self e mv)
       (Z.of_nat (List.length (EarlyStopping.history (appended self e mv)))
        - 1)) = 0.
Proof.
  unfold non_missing_count_since_best. simpl.
  apply present_after_none. lia.
Qed.

Lemma sim_refl (self : EarlyStopping.t) :
  wf self -> EarlyStopping.history self <> [] -> sim self self.
Proof.
  intros Hwf Hh. constructor; auto; try reflexivity.
  intros H0. destruct (wf_best _ Hwf H0) as (r & b & Hr & _). eauto.
Qed.

Lemma appended_nonempty (self : EarlyStopping.t) (e : Z)
    (mv : gmap string (option Q)) :
  EarlyStopping.history (appended self e mv) <> [].
Proof. simpl. now destruct (EarlyStopping.history self). Qed.

Lemma sim_appended (s t : EarlyStopping.t) (e : Z)
    (mv : gmap string (option Q)) :
  sim s t ->
  wf (appended s e mv) -> wf (appended t e mv) ->
  sim (appended s e mv) (appended t e mv).
Proof.
  intros [Em Ed Ep Et Hs Ht Hns Hnt Hu Hb Hc] Hs' Ht'.
  constructor; auto using appended_nonempty.
  - intros H0. destruct (Hb H0) as (rs & rt & Hrs & Hrt & E).
    exists rs, rt. simpl. auto using lookup_app_l_Some.
  - rewrite (count_appended s e mv Hs), (count_appended t e mv Ht).
    rewrite Em, Hc. reflexivity.
Qed.

Lemma sim_appended_right (s t : EarlyStopping.t) (e : Z)
    (mv : gmap string (option Q)) :
  sim s t ->
  dict_get mv (EarlyStopping.monitor s) = None ->
  wf (appended t e mv) ->
  sim s (appended t e mv).
Proof.
  intros [Em Ed Ep Et Hs Ht Hns Hnt Hu Hb Hc] Hv Ht'.
  constructor; auto using appended_nonempty.
  - intros H0. destruct (Hb H0) as (rs & rt & Hrs & Hrt & E).
    exists rs, rt. simpl. auto using lookup_app_l_Some.
  - rewrite (count_appended t e mv Ht), Em, Hv, Hc. simpl. lia.
Qed.

Lemma sim_new_best (s t : EarlyStopping.t) (e : Z)
    (mv : gmap string (option Q)) :
  sim s t ->
  let best (x : EarlyStopping.t) :=
    EarlyStopping.set_index_best (appended x e mv)
      (Z.of_nat (List.length (EarlyStopping.history (appended x e mv))) - 1) in
  wf (best s) -> wf (best t) -> sim (best s) (best t).
Proof.
  intros [Em Ed Ep Et Hs Ht Hns Hnt Hu Hb Hc]. cbv zeta. intros Hs' Ht'.
  constructor; auto;
    try (change (EarlyStopping.history (EarlyStopping.set_index_best ?x ?i))
           with (EarlyStopping.history x); apply appended_nonempty).
  - simpl. rewrite !length_app. simpl. lia.
  - intros _. exists (new_row s e mv), (new_row t e mv). simpl.
    rewrite !length_app. simpl List.length.
    replace (Z.to_nat (Z.of_nat (List.length (EarlyStopping.history s) + 1) - 1))
      with (List.length (EarlyStopping.history s)) by lia.
    replace (Z.to_nat (Z.of_nat (List.length (EarlyStopping.history t) + 1) - 1))
      with (List.length (EarlyStopping.history t)) by lia.
    split; [now apply list_lookup_middle |].
    split; [now apply list_lookup_middle |].
    rewrite !monitored_new_row by apply (wf_monitor _ Hs). reflexivity.
  - now rewrite !count_new_best.
Qed.

Lemma crosses_threshold_config (s t : EarlyStopping.t) (v : Q) :
  EarlyStopping.monitor t = EarlyStopping.monitor s ->
  EarlyStopping.threshold t = EarlyStopping.threshold s ->
  crosses_threshold t v <-> crosses_threshold s v.
Proof. unfold crosses_threshold. now intros -> ->. Qed.

Lemma improvement_config (s t : EarlyStopping.t) (d : npfloat) :
  EarlyStopping.monitor t = EarlyStopping.monitor s ->
  EarlyStopping.min_delta t = EarlyStopping.min_delta s ->
  EarlyStopping.improvement t
    (EarlyStopping.monitor_sign_of (EarlyStopping.monitor t)) d =
  EarlyStopping.improvement s
    (EarlyStopping.monitor_sign_of (EarlyStopping.monitor s)) d.
Proof. unfold EarlyStopping.improvement. now intros -> ->. Qed.

(** A call made on both handlers gets the same answer and keeps them
    related. *)
Lemma sim_kept (s t : EarlyStopping.t) (e : Z)
    (mv : gmap string (option Q)) :
  sim s t ->
  valid_epoch e ->
  returned (EarlyStopping.check_early_stop s e mv) =
    returned (EarlyStopping.check_early_stop t e mv) /\
  sim (final (EarlyStopping.check_early_stop s e mv))
      (final (EarlyStopping.check_early_stop t e mv)).
Proof.
  intros Hsim He.
  pose proof Hsim as [Em Ed Ep Et Hs Ht Hns Hnt Hu Hb Hc].
  pose proof (wf_step s e mv Hs) as Hs'.
  pose proof (wf_step t e mv Ht) as Ht'.
  pose proof (crosses_threshold_config s t) as Hcross.
  destruct (step_spec s e mv (wf_monitor _ Hs) (wf_index _ Hs) He)
    as [[Hv Hos] | (v & Hv & [[Hcs Hos] | [Hcs [[Hh _] | (_ & pb & _ & Hcase & Hos)]]])];
    [| | contradiction |];
    (destruct (step_spec t e mv (wf_monitor _ Ht) (wf_index _ Ht) He)
      as [[Hv' Hot] | (v' & Hv' & [[Hct Hot] | [Hct [[Hh' _] | (_ & pb' & _ & Hcase' & Hot)]]])];
     [| | contradiction |]);
    rewrite Em in Hv';
    try congruence;
    try (assert (v' = v) by congruence; subst v');
    try (apply Hcross in Hct; [contradiction | assumption | assumption]);
    try (exfalso; apply Hct; apply Hcross; assumption).
  - rewrite Hos, Hot in *. simpl in *. split; [reflexivity |].
    now apply sim_appended.
  - rewrite Hos, Hot in *. simpl in *. split; [reflexivity |].
    now apply sim_appended.
  - assert (pb' = pb).
    { destruct Hcase as [[Hi ->] | (H0 & r & Hr & ->)].
      - destruct Hcase' as [[_ ->] | (H0' & _)]; [reflexivity |].
        apply Hu in Hi. lia.
      - destruct Hcase' as [[Hi' _] | (H0' & r' & Hr' & ->)].
        + apply Hu in Hi'. lia.
        + destruct (Hb H0) as (rs & rt & Hrs & Hrt & E).
          rewrite Em. congruence. }
    subst pb'. rewrite Hos, Hot in *. clear Hos Hot.
    unfold improvement_outcome in *.
    rewrite (improvement_config (appended s e mv) (appended t e mv)) in *
      by assumption.
    destruct (EarlyStopping.improvement (appended s e mv) _ _).
    + split; [reflexivity |]. now apply (sim_new_best s t e mv).
    + change (EarlyStopping.patience (appended t e mv))
        with (EarlyStopping.patience t) in *.
      change (EarlyStopping.patience (appended s e mv))
        with (EarlyStopping.patience s) in *.
      rewrite Ep in *.
      assert (Ecount : non_missing_count_since_best (appended t e mv)
                       = non_missing_count_since_best (appended s e mv)).
      { rewrite (count_appended s e mv Hs), (count_appended t e mv Ht).
        now rewrite Em, Hc. }
      rewrite Ecount in *.
      destruct (EarlyStopping.patience s
                <? non_missing_count_since_best (appended s e mv));
        simpl in *; (split; [reflexivity | now apply sim_appended]).
Qed.

(** A call without the monitored value made on the second handler only
    answers [False] and keeps the two related. *)
Lemma sim_absent (s t : EarlyStopping.t) (e : Z)
    (mv : gmap string (option Q)) :
  sim s t ->
  valid_epoch e ->
  dict_get mv (EarlyStopping.monitor s) = None ->
  returned (EarlyStopping.check_early_stop t e mv) = inr false /\
  sim s (final (EarlyStopping.check_early_stop t e mv)).
Proof.
  intros Hsim He Hv.
  pose proof Hsim as [Em Ed Ep Et Hs Ht Hns Hnt Hu Hb Hc].
  pose proof (wf_step t e mv Ht) as Ht'.
  destruct (step_spec t e mv (wf_monitor _ Ht) (wf_index _ Ht) He)
    as [[_ Hot] | (v' & Hv' & _)]; [| rewrite Em in Hv'; congruence].
  rewrite Hot in *. simpl in *. split; [reflexivity |].
  now apply sim_appended_right.
Qed.

Lemma check_monitor (self : EarlyStopping.t) (e : Z)
    (mv : gmap string (option Q)) :
  EarlyStopping.monitor (final (EarlyStopping.check_early_stop self e mv))
  = EarlyStopping.monitor self.
Proof.
  destruct (valid_epoch_dec e) as [He | He].
  - rewrite (check_early_stop_valid _ _ _ He).
    destruct (decide_stop_final (appended self e mv) mv) as [-> | (i & ->)];
      reflexivity.
  - now destruct (check_early_stop_invalid self e mv He) as [-> _].
Qed.

Lemma neutral_sim (m : string) (l : list (bool * call)) :
  Forall (fun x : bool * call => valid_epoch (fst (snd x))) l ->
  Forall (fun x : bool * call =>
            fst x = true -> dict_get (snd (snd x)) m = None) l ->
  forall s t,
    sim s t ->
    EarlyStopping.monitor s = m ->
    kept_answers l (snd (run t (all_calls l))) = snd (run s (kept_calls l)).
Proof.
  intros Hvalid. induction Hvalid as [| [ins [e mv]] l He _ IH];
    intros Habsent s t Hsim Hm; [reflexivity |].
  apply Forall_cons in Habsent as [Hhead Habsent].
  specialize (IH Habsent). simpl in He, Hhead.
  unfold all_calls, kept_calls in *. destruct ins; simpl.
  - destruct (sim_absent s t e mv Hsim He) as [_ Hsim'];
      [rewrite Hm; now apply Hhead |].
    specialize (IH s _ Hsim' Hm).
    destruct (run (final (EarlyStopping.check_early_stop t e mv)) (map snd l))
      as [t' rs]. exact IH.
  - destruct (sim_kept s t e mv Hsim He) as [Eret Hsim'].
    specialize (IH _ _ Hsim').
    rewrite check_monitor in IH. specialize (IH Hm).
    destruct (run (final (EarlyStopping.check_early_stop t e mv)) (map snd l))
      as [t' rs].
    destruct (run (final (EarlyStopping.check_early_stop s e mv)) _)
      as [s' rs'].
    simpl in *. now rewrite Eret, IH.
Qed.

(** X18 (C1, what does hold).  From a reachable handler whose history is not
    empty, or when the sequence does not begin with an inserted call,
    inserting calls that lack the monitored metric anywhere in a sequence
    of calls with valid epochs leaves the answers to the other calls as
    they are. *)
Lemma absent_calls_neutral_after_first
    (self : EarlyStopping.t) (l : list (bool * call)) :
  reachable self ->
  Forall (fun x : bool * call => valid_epoch (fst (snd x))) l ->
  Forall (fun x : bool * call =>
            fst x = true ->
            dict_get (snd (snd x)) (EarlyStopping.monitor self) = None) l ->
  EarlyStopping.history self <> [] \/ (forall c l', l <> (true, c) :: l') ->
  kept_answers l (snd (run self (all_calls l)))
  = snd (run self (kept_calls l)).
Proof.
  intros Hr Hvalid Habsent Hstart.
  pose proof (reachable_wf _ Hr) as Hwf.
  destruct (EarlyStopping.history self) as [| r0 h0] eqn:Hh.
  2:{ apply (neutral_sim _ l Hvalid Habsent); [| reflexivity].
      apply sim_refl; [exact Hwf | now rewrite Hh]. }
  destruct Hstart as [Hne | Hstart]; [contradiction |].
  destruct l as [| [[|] [e mv]] l]; [reflexivity | |].
  { exfalso. exact (Hstart _ _ eq_refl). }
  apply Forall_cons in Hvalid as [He Hvalid].
  apply Forall_cons in Habsent as [_ Habsent]. simpl in He.
  pose proof (neutral_sim _ l Hvalid Habsent
                (final (EarlyStopping.check_early_stop self e mv))
                (final (EarlyStopping.check_early_stop self e mv))) as IH.
  unfold all_calls, kept_calls in *. simpl.
  destruct (run (final (EarlyStopping.check_early_stop self e mv)) (map snd l))
    as [t' rs].
  destruct (run (final (EarlyStopping.check_early_stop self e mv)) _)
    as [s' rs'].
  simpl in *. f_equal. apply IH; [| apply check_monitor].
  apply sim_refl; [now apply wf_step |].
  rewrite (check_history _ _ _ He).
  now destruct (EarlyStopping.history self).
Qed.

Lemma absent_calls_neutral_after_first_witness :
  kept_answers
    [(false, (1, {[ "train_acc"%string := Some (5 # 10) ]}));
     (true, (1, {[ "val_loss"%string := Some (35 # 100) ]}));
     (false, (2, {[ "train_acc"%string := Some (6 # 10) ]}));
     (true, (2, ∅));
     (false, (3, {[ "train_acc"%string := Some (7 # 10) ]}))]
    (snd (run (EarlyStopping.mk "train_acc" 0 2 0 (-1) [])
            (all_calls
               [(false, (1, {[ "train_acc"%string := Some (5 # 10) ]}));
                (true, (1, {[ "val_loss"%string := Some (35 # 100) ]}));
                (false, (2, {[ "train_acc"%string := Some (6 # 10) ]}));
                (true, (2, ∅));
                (false, (3, {[ "train_acc"%string := Some (7 # 10) ]}))])))
  = snd (run (EarlyStopping.mk "train_acc" 0 2 0 (-1) [])
           (kept_calls
              [(false, (1, {[ "train_acc"%string := Some (5 # 10) ]}));
               (true, (1, {[ "val_loss"%string := Some (35 # 100) ]}));
               (false, (2, {[ "train_acc"%string := Some (6 # 10) ]}));
               (true, (2, ∅));
               (false, (3, {[ "train_acc"%string := Some (7 # 10) ]}))])).
Proof.
  apply (absent_calls_neutral_after_first
           (EarlyStopping.mk "train_acc" 0 2 0 (-1) [])).
  - apply (reachable_init "train_acc" 0 2 0). reflexivity.
  - repeat constructor; unfold int64_max; simpl; lia.
  - repeat constructor; simpl; intros H; try discriminate H;
      vm_compute; reflexivity.
  - right. intros c l' H. discriminate H.
Defined.

(** C1, on the code.  Monitor [train_acc], patience 2, defaults otherwise.
    The values 0.5, 0.6, 0.7 at epochs 1 to 3 improve each time and the
    answers are [False], [False], [False].  With one call without
    [train_acc] put in front, index-of-best is never set (the first-entry
    test looks at the history length, which is then 2), every value is
    compared with itself, and the third value is answered [True]. *)
Theorem absent_first_call_changes_decisions :
  let self := EarlyStopping.mk "train_acc" EarlyStopping.default_min_delta 2
                EarlyStopping.default_threshold (-1) [] in
  let calls : list call :=
    [(1, {[ "train_acc"%string := Some (5 # 10) ]});
     (2, {[ "train_acc"%string := Some (6 # 10) ]});
     (3, {[ "train_acc"%string := Some (7 # 10) ]})] in
  let absent : call := (1, {[ "val_loss"%string := Some (35 # 100) ]}) in
  EarlyStopping.__init__ "train_acc" EarlyStopping.default_min_delta 2
    EarlyStopping.default_threshold = inr self
  /\ dict_get (snd absent) "train_acc" = None
  /\ snd (run self calls) = [inr false; inr false; inr false]
  /\ snd (run self (absent :: calls))
     = [inr false; inr false; inr false; inr true]
  /\ EarlyStopping.index_best (fst (run self calls)) = 2
  /\ EarlyStopping.index_best (fst (run self (absent :: calls))) = -1.
Proof. cbv zeta. repeat split; vm_compute; reflexivity. Qed.

(* ===================================================================== *)
(** * Further properties of the code *)
(* ===================================================================== *)

(** ** Which calls raise *)

Lemma valid_epochb_iff (e : Z) : valid_epochb e = true <-> valid_epoch e.
Proof.
  unfold valid_epochb, valid_epoch.
  rewrite andb_true_iff, Z.ltb_lt, Z.leb_le. tauto.
Qed.

Lemma check_succeeds (self : EarlyStopping.t) (e : Z)
    (mv : gmap string (option Q)) :
  wf self -> valid_epoch e ->
  succeeds (EarlyStopping.check_early_stop self e mv).
Proof.
  intros [Hm _ _ Hi _] He.
  destruct (step_spec self e mv Hm Hi He)
    as [[_ ->] | (v & _ & [[_ ->] | [_ [[_ ->] | (_ & pb & _ & _ & ->)]]])];
    try (eexists; reflexivity).
  unfold improvement_outcome, succeeds.
  destruct (EarlyStopping.improvement _ _ _); [simpl; eauto |].
  destruct (_ <? _); simpl; eauto.
Qed.

Lemma check_raise_cases (self : EarlyStopping.t) (e : Z)
    (mv : gmap string (option Q)) :
  ~ valid_epoch e ->
  (e <= 0 /\
   EarlyStopping.check_early_stop self e mv
   = Outcome self [] (inl invocation_error)) \/
  (int64_max < e /\
   EarlyStopping.check_early_stop self e mv
   = Outcome self [] (inl OverflowError)).
Proof.
  intros He. unfold EarlyStopping.check_early_stop.
  destruct (e <=? 0) eqn:E0.
  - left. apply Z.leb_le in E0. now split.
  - right. apply Z.leb_gt in E0. unfold valid_epoch in He.
    assert (Hbig : int64_max < e) by lia. split; [exact Hbig |].
    unfold EarlyStopping.add_to_history.
    apply Z.ltb_lt in Hbig. rewrite Hbig, orb_true_r. reflexivity.
Qed.

(** X1. A handler that came out of the constructor raises on a call
    exactly when the epoch is not in 1 .. 2^63-1: the [ValueError] on the
    epoch for [epoch <= 0], [OverflowError] beyond the column's range, and
    never an [IndexError], [KeyError] or [TypeError]; a call that raises
    leaves the handler as it was and logs nothing. *)
Theorem check_raises_iff_bad_epoch
    (self : EarlyStopping.t) (e : Z) (mv : gmap string (option Q)) :
  reachable self ->
  let o := EarlyStopping.check_early_stop self e mv in
  (succeeds o <-> valid_epoch e)
  /\ (forall x, returned o = inl x ->
        final o = self /\ emitted o = [] /\
        ((x = invocation_error /\ e <= 0) \/
         (x = OverflowError /\ int64_max < e))).
Proof.
  intros Hr. cbv zeta. pose proof (reachable_wf _ Hr) as Hwf. split.
  - split; [apply succeeds_valid_epoch | now apply check_succeeds].
  - intros x Hx. destruct (valid_epoch_dec e) as [He | He].
    + destruct (check_succeeds self e mv Hwf He) as [b Hb]. congruence.
    + destruct (check_raise_cases self e mv He) as [[H0 Ho] | [H1 Ho]];
        rewrite Ho in *; simpl in *; injection Hx as <-; auto.
Qed.

Lemma check_raises_iff_bad_epoch_witness :
  succeeds
    (EarlyStopping.check_early_stop
       (fst (run (EarlyStopping.mk "val_acc" 0 1 0 (-1) [])
               [(1, ∅); (1, {[ "val_acc"%string := Some (1 # 2) ]})]))
       2 {[ "val_acc"%string := None ]}).
Proof.
  refine (proj2 (proj1
    (check_raises_iff_bad_epoch
       (fst (run (EarlyStopping.mk "val_acc" 0 1 0 (-1) [])
               [(1, ∅); (1, {[ "val_acc"%string := Some (1 # 2) ]})]))
       2 {[ "val_acc"%string := None ]} _)) _).
  - apply reachable_run. apply (reachable_init "val_acc" 0 1 0). reflexivity.
  - unfold valid_epoch, int64_max. lia.
Defined.

(** ** What a sequence of calls changes *)

Lemma check_frame (self : EarlyStopping.t) (e : Z)
    (mv : gmap string (option Q)) :
  let s' := final (EarlyStopping.check_early_stop self e mv) in
  EarlyStopping.monitor s' = EarlyStopping.monitor self /\
  EarlyStopping.min_delta s' = EarlyStopping.min_delta self /\
  EarlyStopping.patience s' = EarlyStopping.patience self /\
  EarlyStopping.threshold s' = EarlyStopping.threshold self /\
  EarlyStopping.history s' =
    EarlyStopping.history self
    ++ (if valid_epochb e then [new_row self e mv] else []).
Proof.
  cbv zeta. destruct (valid_epochb e) eqn:Eb.
  - apply valid_epochb_iff in Eb. rewrite (check_early_stop_valid _ _ _ Eb).
    destruct (decide_stop_final (appended self e mv) mv) as [-> | (i & ->)];
      simpl; auto.
  - assert (He : ~ valid_epoch e).
    { intros H. apply valid_epochb_iff in H. congruence. }
    destruct (check_early_stop_invalid self e mv He) as [-> _].
    now rewrite app_nil_r.
Qed.

(** X2. A sequence of calls never changes the monitor, [min_delta], the
    patience or the threshold, and never touches a row already in the
    history: it appends one row per call with an epoch in range, in call
    order, holding that epoch and the four measured values (NaN for a name
    that is missing or [None]); calls that raise append nothing. *)
Theorem run_frame (self : EarlyStopping.t) (calls : list call) :
  let s' := fst (run self calls) in
  EarlyStopping.monitor s' = EarlyStopping.monitor self /\
  EarlyStopping.min_delta s' = EarlyStopping.min_delta self /\
  EarlyStopping.patience s' = EarlyStopping.patience self /\
  EarlyStopping.threshold s' = EarlyStopping.threshold self /\
  exists rows,
    EarlyStopping.history s' = EarlyStopping.history self ++ rows /\
    map epoch rows = map fst (recorded calls) /\
    map train_acc rows
      = map (fun c : call => dict_get (snd c) "train_acc") (recorded calls) /\
    map train_loss rows
      = map (fun c : call => dict_get (snd c) "train_loss") (recorded calls) /\
    map val_acc rows
      = map (fun c : call => dict_get (snd c) "val_acc") (recorded calls) /\
    map val_loss rows
      = map (fun c : call => dict_get (snd c) "val_loss") (recorded calls).
Proof.
  cbv zeta. revert self.
  induction calls as [| [e mv] rest IH]; intros self; simpl.
  - repeat split; try reflexivity. exists []. now rewrite app_nil_r.
  - specialize (IH (final (EarlyStopping.check_early_stop self e mv))).
    destruct (check_frame self e mv) as (Em & Ed & Ep & Et & Eh).
    destruct (run (final (EarlyStopping.check_early_stop self e mv)) rest)
      as [s' rs]. simpl in *.
    destruct IH as (-> & -> & -> & -> & rows & Hh & He & H1 & H2 & H3 & H4).
    repeat split; try assumption.
    rewrite Hh, Eh, <- app_assoc. unfold recorded in *. simpl.
    destruct (valid_epochb e).
    + exists (new_row self e mv :: rows). simpl.
      repeat split; try reflexivity; f_equal; assumption.
    + exists rows. simpl. repeat split; assumption.
Qed.

(** ** The duplicate-count column *)

Lemma count_occ_take_lt (l : list Z) (i j : nat) (x : Z) :
  l !! i = Some x -> (i < j)%nat ->
  (count_occ Z.eq_dec (take i l) x < count_occ Z.eq_dec (take j l) x)%nat.
Proof.
  intros Hi Hlt.
  rewrite <- (take_drop (S i) (take j l)), take_take, Nat.min_l by lia.
  rewrite (take_S_r _ _ _ Hi), !count_occ_app. simpl.
  destruct (Z.eq_dec x x); [lia | contradiction].
Qed.

Lemma rows_counted_snoc (self : EarlyStopping.t) (e : Z)
    (mv : gmap string (option Q)) :
  rows_counted (EarlyStopping.history self) ->
  rows_counted (EarlyStopping.history self ++ [new_row self e mv]).
Proof.
  intros Hc i r Hi. apply lookup_app_Some in Hi as [Hi | [Hlen Hi]].
  - rewrite take_app_le by (apply Nat.lt_le_incl; eapply lookup_lt_Some; eauto).
    now apply Hc.
  - destruct (i - List.length (EarlyStopping.history self))%nat
      as [| k] eqn:Ek; [| now destruct k].
    injection Hi as <-.
    replace i with (List.length (EarlyStopping.history self)) by lia.
    now rewrite take_app_length.
Qed.

Lemma reachable_rows_counted (self : EarlyStopping.t) :
  reachable self -> rows_counted (EarlyStopping.history self).
Proof.
  induction 1 as [monitor min_delta patience threshold self H | self e mv _ IH].
  - unfold EarlyStopping.__init__ in H.
    destruct (EarlyStopping._validate_arguments _ _ _ _); [discriminate |].
    injection H as <-. intros i r Hi. discriminate.
  - destruct (check_frame self e mv) as (_ & _ & _ & _ & ->).
    destruct (valid_epochb e).
    + now apply rows_counted_snoc.
    + now rewrite app_nil_r.
Qed.

(** X3. In the history of a constructed handler every row's duplicate-count
    is the number of rows before it with the same epoch, so no two rows
    share both epoch and count: the pair identifies a row. *)
Theorem epoch_and_count_identify_a_row (self : EarlyStopping.t) :
  reachable self ->
  rows_counted (EarlyStopping.history self) /\
  NoDup (map (fun r => (epoch r, count r)) (EarlyStopping.history self)).
Proof.
  intros Hr. pose proof (reachable_rows_counted _ Hr) as Hc.
  split; [exact Hc |]. apply NoDup_alt. intros i j [e c] Hi Hj.
  change (map (fun r => (epoch r, count r)) (EarlyStopping.history self))
    with ((fun r => (epoch r, count r)) <$> EarlyStopping.history self)
    in Hi, Hj.
  rewrite list_lookup_fmap in Hi, Hj.
  destruct (EarlyStopping.history self !! i) as [ri |] eqn:Ei;
    [| discriminate].
  destruct (EarlyStopping.history self !! j) as [rj |] eqn:Ej;
    [| discriminate].
  simpl in Hi, Hj. injection Hi as Hei Hci. injection Hj as Hej Hcj.
  pose proof (Hc i ri Ei) as Hcnt_i. pose proof (Hc j rj Ej) as Hcnt_j.
  assert (Hli : map epoch (EarlyStopping.history self) !! i = Some e).
  { change (map epoch (EarlyStopping.history self))
      with (epoch <$> EarlyStopping.history self).
    now rewrite list_lookup_fmap, Ei, <- Hei. }
  assert (Hlj : map epoch (EarlyStopping.history self) !! j = Some e).
  { change (map epoch (EarlyStopping.history self))
      with (epoch <$> EarlyStopping.history self).
    now rewrite list_lookup_fmap, Ej, <- Hej. }
  rewrite <- firstn_map, Hei in Hcnt_i. rewrite <- firstn_map, Hej in Hcnt_j.
  destruct (Nat.lt_trichotomy i j) as [Hlt | [Heq | Hgt]]; [| exact Heq |].
  - pose proof (count_occ_take_lt _ i j e Hli Hlt). lia.
  - pose proof (count_occ_take_lt _ j i e Hlj Hgt). lia.
Qed.

Lemma epoch_and_count_identify_a_row_witness :
  NoDup
    (map (fun r => (epoch r, count r))
       (EarlyStopping.history
          (fst (run (EarlyStopping.mk "val_acc" 0 1 0 (-1) [])
                  [(1, ∅); (1, ∅); (2, ∅); (1, ∅)])))).
Proof.
  refine (proj2
    (epoch_and_count_identify_a_row
       (fst (run (EarlyStopping.mk "val_acc" 0 1 0 (-1) [])
               [(1, ∅); (1, ∅); (2, ∅); (1, ∅)])) _)).
  apply reachable_run. apply (reachable_init "val_acc" 0 1 0). reflexivity.
Defined.

(** ** Calls without a value, and the first call *)

(** X4. A call with an epoch in range whose measurement has no value for
    the monitor (the name missing, or bound to [None]) answers [False] and
    logs nothing, whatever the history, index-of-best, patience and
    threshold are, even right after a stop; it appends its row and leaves
    index-of-best alone. *)
Theorem missing_value_answers_false
    (self : EarlyStopping.t) (e : Z) (mv : gmap string (option Q)) :
  valid_epoch e ->
  dict_get mv (EarlyStopping.monitor self) = None ->
  EarlyStopping.check_early_stop self e mv
  = Outcome (appended self e mv) [] (inr false).
Proof.
  intros He Hv. rewrite (check_early_stop_valid _ _ _ He).
  unfold decide_stop.
  change (EarlyStopping.monitor (appended self e mv))
    with (EarlyStopping.monitor self).
  now rewrite Hv.
Qed.

Lemma missing_value_answers_false_witness :
  EarlyStopping.check_early_stop
    (EarlyStopping.mk "val_loss" 0 1 0 0
       [mkRow 1 0 None None None (Some (1 # 2));
        mkRow 2 0 None None None (Some (1 # 2));
        mkRow 3 0 None None None (Some (1 # 2))])
    3 {[ "val_loss"%string := None; "train_loss"%string := Some (1 # 3) ]}
  = Outcome
      (EarlyStopping.mk "val_loss" 0 1 0 0
         [mkRow 1 0 None None None (Some (1 # 2));
          mkRow 2 0 None None None (Some (1 # 2));
          mkRow 3 0 None None None (Some (1 # 2));
          mkRow 3 1 None (Some (1 # 3)) None None])
      [] (inr false).
Proof.
  refine (eq_trans
    (missing_value_answers_false
       (EarlyStopping.mk "val_loss" 0 1 0 0
          [mkRow 1 0 None None None (Some (1 # 2));
           mkRow 2 0 None None None (Some (1 # 2));
           mkRow 3 0 None None None (Some (1 # 2))])
       3 {[ "val_loss"%string := None; "train_loss"%string := Some (1 # 3) ]}
       _ _) _).
  - unfold valid_epoch, int64_max. lia.
  - vm_compute. reflexivity.
  - vm_compute. reflexivity.
Defined.

Lemma crosses_threshold_dec (self : EarlyStopping.t) (v : Q) :
  {crosses_threshold self v} + {~ crosses_threshold self v}.
Proof.
  destruct (Qlt_bool 0 (EarlyStopping.threshold self)
            && (np_sign (v - EarlyStopping.threshold self)%Q
                =? EarlyStopping.monitor_sign_of (EarlyStopping.monitor self)))
    eqn:E.
  - left. now apply crosses_threshold_bool.
  - right. intros H. apply crosses_threshold_bool in H. congruence.
Qed.

(** X5. On an empty history a call with an epoch in range never stops for
    lack of improvement: it answers [True] exactly when its value is present
    and crosses a positive threshold.  It makes row 0 the best exactly when
    the value is present and does not cross; otherwise index-of-best keeps
    its value. *)
Theorem first_call_stops_only_by_threshold
    (self : EarlyStopping.t) (e : Z) (mv : gmap string (option Q)) :
  EarlyStopping.history self = [] ->
  valid_epoch e ->
  let o := EarlyStopping.check_early_stop self e mv in
  let present_and_crossing :=
    exists v, dict_get mv (EarlyStopping.monitor self) = Some v /\
              crosses_threshold self v in
  let present_not_crossing :=
    exists v, dict_get mv (EarlyStopping.monitor self) = Some v /\
              ~ crosses_threshold self v in
  succeeds o
  /\ (returned o = inr true <-> present_and_crossing)
  /\ (present_not_crossing -> EarlyStopping.index_best (final o) = 0)
  /\ (~ present_not_crossing ->
      EarlyStopping.index_best (final o) = EarlyStopping.index_best self).
Proof.
  intros Hh He. cbv zeta. rewrite (check_early_stop_valid _ _ _ He).
  unfold decide_stop.
  change (EarlyStopping.monitor (appended self e mv))
    with (EarlyStopping.monitor self).
  change (EarlyStopping.threshold (appended self e mv))
    with (EarlyStopping.threshold self).
  change (EarlyStopping.history (appended self e mv))
    with (EarlyStopping.history self ++ [new_row self e mv]).
  rewrite Hh. simpl List.length. change (Z.of_nat 1 =? 1) with true.
  destruct (dict_get mv (EarlyStopping.monitor self)) as [v |] eqn:Hv.
  - destruct (crosses_threshold_dec self v) as [Hc | Hc].
    + pose proof (proj2 (crosses_threshold_bool self v) Hc) as ->.
      simpl. split; [eexists; reflexivity |]. split; [| split].
      * split; [intros _; eauto | reflexivity].
      * intros (v' & [= <-] & Hn). contradiction.
      * reflexivity.
    + destruct (Qlt_bool 0 (EarlyStopping.threshold self) && _) eqn:E.
      { apply crosses_threshold_bool in E. contradiction. }
      simpl. split; [eexists; reflexivity |]. split; [| split].
      * split; [discriminate |]. intros (v' & [= <-] & Hc'). contradiction.
      * reflexivity.
      * intros Hn. exfalso. apply Hn. eauto.
  - simpl. split; [eexists; reflexivity |]. split; [| split].
    + split; [discriminate |]. intros (v' & [=] & _).
    + intros (v' & [=] & _).
    + reflexivity.
Qed.

Lemma first_call_stops_only_by_threshold_witness :
  EarlyStopping.index_best
    (final (EarlyStopping.check_early_stop
              (EarlyStopping.mk "train_acc" 0 1 (9 # 10) (-1) [])
              1 {[ "train_acc"%string := Some (9 # 10) ]})) = 0.
Proof.
  refine (proj1 (proj2 (proj2
    (first_call_stops_only_by_threshold
       (EarlyStopping.mk "train_acc" 0 1 (9 # 10) (-1) [])
       1 {[ "train_acc"%string := Some (9 # 10) ]} _ _))) _).
  - reflexivity.
  - unfold valid_epoch, int64_max. lia.
  - exists (9 # 10). split; [vm_compute; reflexivity |].
    intros [_ H]. vm_compute in H. discriminate.
Defined.

(** ** A handler whose index-of-best was not set by its first call *)

Lemma unset_step (self : EarlyStopping.t) (e : Z)
    (mv : gmap string (option Q)) :
  wf self ->
  EarlyStopping.history self <> [] ->
  EarlyStopping.index_best self = -1 ->
  valid_epoch e ->
  final (EarlyStopping.check_early_stop self e mv) = appended self e mv /\
  forall v,
    dict_get mv (EarlyStopping.monitor self) = Some v ->
    ~ crosses_threshold self v ->
    returned (EarlyStopping.check_early_stop self e mv) =
    inr (EarlyStopping.patience self
         <? present_rows (EarlyStopping.monitor self)
              (EarlyStopping.history self ++ [new_row self e mv])).
Proof.
  intros Hwf Hh Hi He. pose proof Hwf as [Hm _ _ Hidx _].
  destruct (step_spec self e mv Hm Hidx He)
    as [[Hv ->] | (v & Hv & [[Hc ->] | [Hc [[Hh' _] | (_ & pb & _ & Hcase & ->)]]])].
  - split; [reflexivity |]. intros v Hv'. congruence.
  - split; [reflexivity |]. intros v' Hv' Hc'.
    assert (v' = v) by congruence. subst v'. contradiction.
  - contradiction.
  - destruct Hcase as [[_ ->] | (H0 & _)]; [| lia].
    unfold improvement_outcome. simpl float_sub.
    rewrite (improvement_self (appended self e mv) v).
    unfold non_missing_count_since_best.
    change (EarlyStopping.index_best (appended self e mv))
      with (EarlyStopping.index_best self).
    rewrite Hi. fold (present_rows (EarlyStopping.monitor (appended self e mv))
                        (EarlyStopping.history (appended self e mv))).
    split.
    + now destruct (_ <? _).
    + intros v' _ _.
      change (EarlyStopping.patience (appended self e mv))
        with (EarlyStopping.patience self).
      now destruct (_ <? _).
Qed.

Lemma unset_run (calls : list call) :
  forall self,
    wf self ->
    EarlyStopping.history self <> [] ->
    EarlyStopping.index_best self = -1 ->
    EarlyStopping.index_best (fst (run self calls)) = -1.
Proof.
  induction calls as [| [e mv] rest IH]; intros self Hwf Hh Hi; simpl;
    [exact Hi |].
  specialize (IH (final (EarlyStopping.check_early_stop self e mv))
                (wf_step self e mv Hwf)).
  destruct (run (final (EarlyStopping.check_early_stop self e mv)) rest)
    as [s' rs] eqn:Er. simpl in *. apply IH.
  - destruct (check_frame self e mv) as (_ & _ & _ & _ & ->).
    now destruct (EarlyStopping.history self).
  - destruct (valid_epoch_dec e) as [He | He].
    + now destruct (unset_step self e mv Hwf Hh Hi He) as [-> _].
    + now destruct (check_early_stop_invalid self e mv He) as [-> _].
Qed.

(** X6. When a constructed handler has rows in its history but
    index-of-best is still -1 (its first call had no value for the monitor,
    or stopped on the threshold), no later call ever sets it.  From then on a
    present value that does not cross the threshold is answered by counting
    alone, [True] exactly when the history, new row included, holds more
    than [patience] present values; how good the value is plays no part. *)
Theorem unset_index_best_stays_unset (self : EarlyStopping.t) :
  reachable self ->
  EarlyStopping.history self <> [] ->
  EarlyStopping.index_best self = -1 ->
  (forall calls, EarlyStopping.index_best (fst (run self calls)) = -1)
  /\ (forall e mv v,
        valid_epoch e ->
        dict_get mv (EarlyStopping.monitor self) = Some v ->
        ~ crosses_threshold self v ->
        returned (EarlyStopping.check_early_stop self e mv) =
        inr (EarlyStopping.patience self
             <? present_rows (EarlyStopping.monitor self)
                  (EarlyStopping.history self ++ [new_row self e mv]))).
Proof.
  intros Hr Hh Hi. pose proof (reachable_wf _ Hr) as Hwf. split.
  - intros calls. now apply unset_run.
  - intros e mv v He Hv Hc.
    exact (proj2 (unset_step self e mv Hwf Hh Hi He) v Hv Hc).
Qed.

Lemma unset_index_best_stays_unset_witness :
  EarlyStopping.index_best
    (fst (run
            (fst (run (EarlyStopping.mk "val_acc" 0 1 0 (-1) []) [(1, ∅)]))
            [(1, {[ "val_acc"%string := Some (1 # 2) ]});
             (2, {[ "val_acc"%string := Some (3 # 4) ]})])) = -1.
Proof.
  refine (proj1
    (unset_index_best_stays_unset
       (fst (run (EarlyStopping.mk "val_acc" 0 1 0 (-1) []) [(1, ∅)]))
       _ _ _) _).
  - apply reachable_run. apply (reachable_init "val_acc" 0 1 0). reflexivity.
  - vm_compute. discriminate.
  - reflexivity.
Defined.

(** ** Stops and the log *)

(** X7. In any state, a call answers [True] exactly when it passes one
    record to [logging.debug] (threshold exceeded, or patience exceeded);
    a call that answers [False] or raises logs nothing. *)
Theorem stop_is_logged
    (self : EarlyStopping.t) (e : Z) (mv : gmap string (option Q)) :
  let o := EarlyStopping.check_early_stop self e mv in
  (returned o = inr true ->
   exists v t a p,
     emitted o = [ThresholdExceeded v t] \/ emitted o = [PatienceExceeded a p])
  /\ (returned o <> inr true -> emitted o = []).
Proof.
  cbv zeta.
  unfold EarlyStopping.check_early_stop, EarlyStopping.add_to_history,
    EarlyStopping._check_for_improvement.
  repeat match goal with
         | |- context [match ?x with _ => _ end] => destruct x; simpl
         end;
    (split;
     [ intros H; try discriminate H;
       first [ eexists _, _, 0, 0; left; reflexivity
             | exists 0%Q, 0%Q; eexists _, _; right; reflexivity ]
     | intros H; first [ reflexivity | congruence ] ]).
Qed.

(** ** Names outside the four metrics *)

Lemma add_to_history_ext (self : EarlyStopping.t) (e : Z)
    (mv mv' : gmap string (option Q)) :
  (forall k, In k EarlyStopping.supported_metrics ->
             dict_get mv k = dict_get mv' k) ->
  EarlyStopping.add_to_history self e mv
  = EarlyStopping.add_to_history self e mv'.
Proof.
  intros H. unfold EarlyStopping.add_to_history.
  rewrite (H "train_acc"%string), (H "train_loss"%string),
    (H "val_acc"%string), (H "val_loss"%string)
    by (simpl; tauto).
  reflexivity.
Qed.

Lemma check_for_improvement_ext (self : EarlyStopping.t)
    (mv mv' : gmap string (option Q)) (sign : Z) (v : Q) :
  dict_get mv (EarlyStopping.monitor self) = Some v ->
  dict_get mv' (EarlyStopping.monitor self) = Some v ->
  EarlyStopping._check_for_improvement self mv sign
  = EarlyStopping._check_for_improvement self mv' sign.
Proof.
  intros Hv Hv'. unfold EarlyStopping._check_for_improvement.
  destruct (EarlyStopping.previous_best self) as [x | pb]; [reflexivity |].
  now rewrite (dict_item_sub_present _ _ _ _ Hv),
    (dict_item_sub_present _ _ _ _ Hv').
Qed.

(** X8. A call reads its measurement only through [get] on the four metric
    names: two measurements that agree there (whatever other names they
    hold, and whether a metric is missing or bound to [None]) give the same
    answer, the same log and the same handler. *)
Theorem other_names_are_ignored
    (self : EarlyStopping.t) (e : Z) (mv mv' : gmap string (option Q)) :
  In (EarlyStopping.monitor self) EarlyStopping.supported_metrics ->
  (forall k, In k EarlyStopping.supported_metrics ->
             dict_get mv k = dict_get mv' k) ->
  EarlyStopping.check_early_stop self e mv
  = EarlyStopping.check_early_stop self e mv'.
Proof.
  intros Hm H. unfold EarlyStopping.check_early_stop.
  rewrite (add_to_history_ext self e mv mv' H).
  destruct (e <=? 0); [reflexivity |].
  destruct (EarlyStopping.add_to_history self e mv') as [x | h];
    [reflexivity |].
  change (EarlyStopping.monitor (EarlyStopping.set_history self h))
    with (EarlyStopping.monitor self).
  rewrite (H _ Hm).
  destruct (dict_get mv' (EarlyStopping.monitor self)) as [v |] eqn:Hv';
    [| reflexivity].
  destruct (_ && _); [reflexivity |].
  destruct (_ =? 1); [reflexivity |].
  apply (check_for_improvement_ext (EarlyStopping.set_history self h)
           mv mv' _ v); [| exact Hv'].
  change (EarlyStopping.monitor (EarlyStopping.set_history self h))
    with (EarlyStopping.monitor self).
  now rewrite (H _ Hm).
Qed.

Lemma other_names_are_ignored_witness :
  EarlyStopping.check_early_stop
    (EarlyStopping.mk "val_loss" 0 2 0 (-1) [])
    1 {[ "val_loss"%string := Some (1 # 2);
         "train_acc"%string := None;
         "f1"%string := Some (9 # 10) ]}
  = EarlyStopping.check_early_stop
      (EarlyStopping.mk "val_loss" 0 2 0 (-1) [])
      1 {[ "val_loss"%string := Some (1 # 2) ]}.
Proof.
  apply (other_names_are_ignored
           (EarlyStopping.mk "val_loss" 0 2 0 (-1) []) 1
           {[ "val_loss"%string := Some (1 # 2);
              "train_acc"%string := None;
              "f1"%string := Some (9 # 10) ]}
           {[ "val_loss"%string := Some (1 # 2) ]}).
  - simpl. tauto.
  - intros k [<- | [<- | [<- | [<- | []]]]]; vm_compute; reflexivity.
Defined.

(** ** Patience *)

Lemma present_after_le_length (m : string) (ib : Z) (h : list Row) :
  forall pos, 0 <= present_after m ib pos h <= Z.of_nat (List.length h).
Proof.
  induction h as [| r h IH]; intros pos; simpl; [lia |].
  specialize (IH (pos + 1)).
  destruct ((ib <? pos) && negb (np_isnan (monitored m r))); lia.
Qed.

Lemma present_after_le_since (m : string) (ib : Z) (h : list Row) :
  forall pos,
    present_after m ib pos h
    <= Z.max 0 (pos + Z.of_nat (List.length h) - 1 - ib).
Proof.
  induction h as [| r h IH]; intros pos; simpl present_after; [lia |].
  specialize (IH (pos + 1)).
  pose proof (present_after_le_length m ib h (pos + 1)) as Hlen.
  simpl List.length.
  destruct (ib <? pos) eqn:E; simpl andb.
  - apply Z.ltb_lt in E.
    destruct (negb (np_isnan (monitored m r))); lia.
  - apply Z.ltb_ge in E. lia.
Qed.

Lemma not_improved_outcome (self : EarlyStopping.t) (e : Z)
    (mv : gmap string (option Q)) (v : Q) :
  wf self ->
  valid_epoch e ->
  dict_get mv (EarlyStopping.monitor self) = Some v ->
  EarlyStopping.history self <> [] ->
  ~ crosses_threshold self v ->
  is_improvement (appended self e mv) v = false ->
  final (EarlyStopping.check_early_stop self e mv) = appended self e mv /\
  returned (EarlyStopping.check_early_stop self e mv) =
    inr (EarlyStopping.patience self
         <? non_missing_count_since_best (appended self e mv)).
Proof.
  intros [Hm _ _ Hi _] He Hv Hh Hc Himp.
  destruct (step_spec self e mv Hm Hi He)
    as [[Hv' Ho] | (v' & Hv' & [[Hc' Ho] | [_ [[Hh' Ho] | (_ & pb & Hpb & _ & Ho)]]])];
    try congruence.
  assert (v' = v) by congruence. subst v'.
  unfold is_improvement in Himp. rewrite Hpb in Himp.
  rewrite Ho. unfold improvement_outcome. rewrite Himp.
  change (EarlyStopping.patience (appended self e mv))
    with (EarlyStopping.patience self).
  now destruct (_ <? _).
Qed.

Lemma patience_stop_facts (self : EarlyStopping.t) (e : Z)
    (mv : gmap string (option Q)) :
  wf self ->
  valid_epoch e ->
  returned (EarlyStopping.check_early_stop self e mv) = inr true ->
  (forall v, dict_get mv (EarlyStopping.monitor self) = Some v ->
             ~ crosses_threshold self v) ->
  final (EarlyStopping.check_early_stop self e mv) = appended self e mv /\
  EarlyStopping.history self <> [] /\
  EarlyStopping.patience self
    < non_missing_count_since_best (appended self e mv).
Proof.
  intros [Hm _ _ Hi _] He Hret Hnc.
  destruct (step_spec self e mv Hm Hi He)
    as [[Hv Ho] | (v & Hv & [[Hc Ho] | [_ [[Hh Ho] | (Hh & pb & _ & _ & Ho)]]])];
    rewrite Ho in *; simpl in Hret; try discriminate.
  - exfalso. exact (Hnc v Hv Hc).
  - unfold improvement_outcome in *.
    change (EarlyStopping.patience (appended self e mv))
      with (EarlyStopping.patience self) in *.
    destruct (EarlyStopping.improvement _ _ _); [discriminate |].
    destruct (EarlyStopping.patience self
              <? non_missing_count_since_best (appended self e mv)) eqn:E;
      [| discriminate].
    apply Z.ltb_lt in E. auto.
Qed.

(** X9. A constructed handler that answers [True] without the value
    crossing the threshold has more than [patience] present values after
    index-of-best, hence more than [patience + index_best + 1] rows: with
    the best at row 0 it cannot stop for lack of improvement before its
    call number [patience + 2]. *)
Theorem patience_stop_needs_rows
    (self : EarlyStopping.t) (e : Z) (mv : gmap string (option Q)) :
  reachable self ->
  let o := EarlyStopping.check_early_stop self e mv in
  returned o = inr true ->
  (forall v, dict_get mv (EarlyStopping.monitor self) = Some v ->
             ~ crosses_threshold self v) ->
  EarlyStopping.patience self < non_missing_count_since_best (final o)
  /\ EarlyStopping.patience self + EarlyStopping.index_best self + 1
     < Z.of_nat (List.length (EarlyStopping.history (final o))).
Proof.
  intros Hr. cbv zeta. intros Hret Hnc.
  pose proof (reachable_wf _ Hr) as Hwf.
  assert (He : valid_epoch e).
  { eapply succeeds_valid_epoch. eexists. exact Hret. }
  destruct (patience_stop_facts self e mv Hwf He Hret Hnc) as (-> & _ & Hlt).
  split; [exact Hlt |].
  pose proof (present_after_le_since
                (EarlyStopping.monitor (appended self e mv))
                (EarlyStopping.index_best (appended self e mv))
                (EarlyStopping.history (appended self e mv)) 0) as Hb.
  fold (non_missing_count_since_best (appended self e mv)) in Hb.
  change (EarlyStopping.index_best (appended self e mv))
    with (EarlyStopping.index_best self) in Hb.
  pose proof (wf_patience _ Hwf). lia.
Qed.

Lemma patience_stop_needs_rows_witness :
  2 + 0 + 1 <
  Z.of_nat (List.length (EarlyStopping.history
    (final (EarlyStopping.check_early_stop
       (fst (run (EarlyStopping.mk "val_loss" 0 2 0 (-1) [])
               [(1, {[ "val_loss"%string := Some (65 # 1000) ]});
                (2, {[ "val_loss"%string := Some (68 # 1000) ]});
                (3, {[ "val_loss"%string := Some (67 # 1000) ]})]))
       4 {[ "val_loss"%string := Some (66 # 1000) ]})))).
Proof.
  refine (proj2
    (patience_stop_needs_rows
       (fst (run (EarlyStopping.mk "val_loss" 0 2 0 (-1) [])
               [(1, {[ "val_loss"%string := Some (65 # 1000) ]});
                (2, {[ "val_loss"%string := Some (68 # 1000) ]});
                (3, {[ "val_loss"%string := Some (67 # 1000) ]})]))
       4 {[ "val_loss"%string := Some (66 # 1000) ]} _ _ _)).
  - apply reachable_run. apply (reachable_init "val_loss" 0 2 0). reflexivity.
  - vm_compute. reflexivity.
  - intros v _ [H _]. vm_compute in H. discriminate.
Defined.

(** X10. Once a constructed handler has stopped for lack of improvement,
    the next call with a present value that neither crosses the threshold
    nor improves on the best is answered [True] as well: the stop persists
    until a value improves. *)
Theorem patience_stop_persists
    (self : EarlyStopping.t) (e1 e2 : Z) (mv1 mv2 : gmap string (option Q))
    (v2 : Q) :
  reachable self ->
  let o1 := EarlyStopping.check_early_stop self e1 mv1 in
  let o2 := EarlyStopping.check_early_stop (final o1) e2 mv2 in
  returned o1 = inr true ->
  (forall v, dict_get mv1 (EarlyStopping.monitor self) = Some v ->
             ~ crosses_threshold self v) ->
  valid_epoch e2 ->
  dict_get mv2 (EarlyStopping.monitor self) = Some v2 ->
  ~ crosses_threshold self v2 ->
  is_improvement (appended (final o1) e2 mv2) v2 = false ->
  returned o2 = inr true.
Proof.
  intros Hr. cbv zeta. intros Hret Hnc He2 Hv2 Hc2 Himp.
  pose proof (reachable_wf _ Hr) as Hwf.
  assert (He1 : valid_epoch e1).
  { eapply succeeds_valid_epoch. eexists. exact Hret. }
  pose proof (wf_step self e1 mv1 Hwf) as Hwf1.
  destruct (patience_stop_facts self e1 mv1 Hwf He1 Hret Hnc)
    as (E1 & _ & Hlt).
  rewrite E1 in *.
  destruct (not_improved_outcome (appended self e1 mv1) e2 mv2 v2 Hwf1 He2)
    as [_ ->]; auto using appended_nonempty.
  f_equal. apply Z.ltb_lt.
  rewrite (count_appended _ e2 mv2 Hwf1).
  change (EarlyStopping.monitor (appended self e1 mv1))
    with (EarlyStopping.monitor self).
  change (EarlyStopping.patience (appended self e1 mv1))
    with (EarlyStopping.patience self).
  rewrite Hv2. simpl. lia.
Qed.

Lemma patience_stop_persists_witness :
  returned
    (EarlyStopping.check_early_stop
       (final (EarlyStopping.check_early_stop
          (fst (run (EarlyStopping.mk "val_acc" 0 1 0 (-1) [])
                  [(1, {[ "val_acc"%string := Some (1 # 2) ]});
                   (2, {[ "val_acc"%string := Some (1 # 2) ]})]))
          3 {[ "val_acc"%string := Some (1 # 3) ]}))
       4 {[ "val_acc"%string := Some (1 # 2) ]}) = inr true.
Proof.
  refine (patience_stop_persists
    (fst (run (EarlyStopping.mk "val_acc" 0 1 0 (-1) [])
            [(1, {[ "val_acc"%string := Some (1 # 2) ]});
             (2, {[ "val_acc"%string := Some (1 # 2) ]})]))
    3 4 {[ "val_acc"%string := Some (1 # 3) ]}
    {[ "val_acc"%string := Some (1 # 2) ]} (1 # 2) _ _ _ _ _ _ _).
  - apply reachable_run. apply (reachable_init "val_acc" 0 1 0). reflexivity.
  - vm_compute. reflexivity.
  - intros v _ [H _]. vm_compute in H. discriminate.
  - unfold valid_epoch, int64_max. lia.
  - vm_compute. reflexivity.
  - intros [H _]. vm_compute in H. discriminate.
  - vm_compute. reflexivity.
Defined.

(** X11. When index-of-best of a constructed handler is the last row of
    its history (the latest call set a new best, or nothing was recorded
    yet), the next call cannot stop for lack of improvement: it answers
    [True] exactly when its value is present and crosses the threshold. *)
Theorem no_patience_stop_right_after_best
    (self : EarlyStopping.t) (e : Z) (mv : gmap string (option Q)) :
  reachable self ->
  EarlyStopping.index_best self
    = Z.of_nat (List.length (EarlyStopping.history self)) - 1 ->
  valid_epoch e ->
  (returned (EarlyStopping.check_early_stop self e mv) = inr true <->
   exists v, dict_get mv (EarlyStopping.monitor self) = Some v /\
             crosses_threshold self v).
Proof.
  intros Hr Hlast He. pose proof (reachable_wf _ Hr) as Hwf.
  pose proof Hwf as [Hm _ Hp Hi _].
  assert (Hcount : non_missing_count_since_best (appended self e mv) <= 1).
  { rewrite (count_appended _ _ _ Hwf).
    unfold non_missing_count_since_best.
    rewrite present_after_none by lia. destruct (np_isnan _); lia. }
  destruct (step_spec self e mv Hm Hi He)
    as [[Hv ->] | (v & Hv & [[Hc ->] | [Hc [[Hh ->] | (Hh & pb & _ & _ & ->)]]])];
    simpl.
  - split; [discriminate |]. intros (v & Hv' & _). congruence.
  - split; [eauto | reflexivity].
  - split; [discriminate |]. intros (v' & Hv' & Hc').
    assert (v' = v) by congruence. subst v'. contradiction.
  - unfold improvement_outcome.
    change (EarlyStopping.patience (appended self e mv))
      with (EarlyStopping.patience self).
    replace (EarlyStopping.patience self
             <? non_missing_count_since_best (appended self e mv))
      with false by (symmetry; apply Z.ltb_ge; lia).
    destruct (EarlyStopping.improvement _ _ _); simpl;
      (split; [discriminate |]); intros (v' & Hv' & Hc');
      assert (v' = v) by congruence; subst v'; contradiction.
Qed.

Lemma no_patience_stop_right_after_best_witness :
  returned
    (EarlyStopping.check_early_stop
       (fst (run (EarlyStopping.mk "val_acc" 0 1 (9 # 10) (-1) [])
               [(1, {[ "val_acc"%string := Some (1 # 2) ]});
                (2, {[ "val_acc"%string := Some (3 # 4) ]})]))
       3 {[ "val_acc"%string := Some (95 # 100) ]}) = inr true.
Proof.
  refine (proj2
    (no_patience_stop_right_after_best
       (fst (run (EarlyStopping.mk "val_acc" 0 1 (9 # 10) (-1) [])
               [(1, {[ "val_acc"%string := Some (1 # 2) ]});
                (2, {[ "val_acc"%string := Some (3 # 4) ]})]))
       3 {[ "val_acc"%string := Some (95 # 100) ]} _ _ _) _).
  - apply reachable_run.
    apply (reachable_init "val_acc" 0 1 (9 # 10)). reflexivity.
  - reflexivity.
  - unfold valid_epoch, int64_max. lia.
  - exists (95 # 100). split; [vm_compute; reflexivity |].
    split; vm_compute; reflexivity.
Defined.

(** ** Nested handlers *)

Lemma leaves_loop_app (l1 l2 : list EarlyStopping.t) (e : Z)
    (mv : gmap string (option Q)) :
  leaves_loop (l1 ++ l2) e mv =
  match leaves_loop l1 e mv with
  | (ls1, lg1, inl x) => (ls1 ++ l2, lg1, inl x)
  | (ls1, lg1, inr b1) =>
      let '(ls2, lg2, r2) := leaves_loop l2 e mv in
      (ls1 ++ ls2, lg1 ++ lg2,
       match r2 with
       | inl x => inl x
       | inr b2 => inr (b1 || b2)
       end)
  end.
Proof.
  induction l1 as [| s l1 IH]; simpl.
  - destruct (leaves_loop l2 e mv) as [[ls2 lg2] [x | b2]]; reflexivity.
  - destruct (returned (EarlyStopping.check_early_stop s e mv)) as [x | b];
      [reflexivity |].
    rewrite IH.
    destruct (leaves_loop l1 e mv) as [[ls1 lg1] [x | b1]]; [reflexivity |].
    destruct (leaves_loop l2 e mv) as [[ls2 lg2] [x | b2]]; simpl.
    + now rewrite app_assoc.
    + now rewrite app_assoc, orb_assoc.
Qed.

Lemma for_each_leaves (e : Z) (mv : gmap string (option Q))
    (hs : list EarlyStoppingHandler) :
  Forall (fun c => observe (check_early_stop c e mv)
                   = leaves_loop (leaves c) e mv) hs ->
  forall results,
    let o := SequentialEarlyStopping.for_each
               (fun c => check_early_stop c e mv) hs results in
    (flat_map leaves (final o), emitted o,
     match returned o with
     | inl x => inl x
     | inr rs => inr (np_any rs)
     end) =
    let '(ls, lg, r) := leaves_loop (flat_map leaves hs) e mv in
    (ls, lg,
     match r with
     | inl x => inl x
     | inr b => inr (np_any results || b)
     end).
Proof.
  induction 1 as [| c hs Hc _ IH]; intros results; cbv zeta in *; simpl.
  - now rewrite orb_false_r.
  - rewrite leaves_loop_app, <- Hc. unfold observe.
    destruct (returned (check_early_stop c e mv)) as [x | b];
      [reflexivity |].
    simpl. specialize (IH (results ++ [b])).
    destruct (leaves_loop (flat_map leaves hs) e mv) as [[ls2 lg2] r2].
    injection IH as -> -> ->.
    destruct r2 as [x | b2]; [reflexivity |].
    unfold np_any. rewrite existsb_app. simpl.
    now rewrite orb_false_r, orb_assoc.
Qed.

Lemma observe_leaves_loop (e : Z) (mv : gmap string (option Q))
    (h : EarlyStoppingHandler) :
  observe (check_early_stop h e mv) = leaves_loop (leaves h) e mv.
Proof.
  induction h as [| self | hs IH] using EarlyStoppingHandler_nested_ind.
  - reflexivity.
  - unfold observe. simpl.
    destruct (returned (EarlyStopping.check_early_stop self e mv)) as [x | b];
      [reflexivity |].
    now rewrite app_nil_r, orb_false_r.
  - pose proof (for_each_leaves e mv hs IH []) as H. cbv zeta in H.
    unfold observe. simpl.
    unfold SequentialEarlyStopping.check_early_stop. simpl.
    rewrite H.
    now destruct (leaves_loop (flat_map leaves hs) e mv) as [[ls lg] [x | b]].
Qed.

Lemma leaves_flat (h : EarlyStoppingHandler) : leaves (flat h) = leaves h.
Proof.
  unfold flat. simpl. induction (leaves h) as [| s l IH]; simpl; congruence.
Qed.

(** X12. Nesting and no-op handlers change nothing: a call on any handler
    gives the same answer or exception and the same log, and leaves the
    same [EarlyStopping] instances in the same states, as the call on the
    flat sequential handler over its instances. *)
Theorem nesting_is_irrelevant
    (h : EarlyStoppingHandler) (e : Z) (mv : gmap string (option Q)) :
  let o := check_early_stop h e mv in
  let o' := check_early_stop (flat h) e mv in
  returned o = returned o' /\
  emitted o = emitted o' /\
  leaves (final o) = leaves (final o').
Proof.
  cbv zeta.
  pose proof (observe_leaves_loop e mv h) as H1.
  pose proof (observe_leaves_loop e mv (flat h)) as H2.
  rewrite leaves_flat, <- H1 in H2. unfold observe in H2.
  injection H2 as E1 E2 E3. auto.
Qed.

Lemma leaves_loop_reachable (ls : list EarlyStopping.t) (e : Z)
    (mv : gmap string (option Q)) :
  Forall reachable ls ->
  Forall reachable (fst (fst (leaves_loop ls e mv))).
Proof.
  induction 1 as [| s ls Hs Hls IH]; simpl; [constructor |].
  pose proof (reachable_check s e mv Hs) as Hs'.
  destruct (returned (EarlyStopping.check_early_stop s e mv)) as [x | b];
    simpl.
  - constructor; [exact Hs' |]. assumption.
  - destruct (leaves_loop ls e mv) as [[ls' lg] r]. simpl in *.
    now constructor.
Qed.

Lemma leaves_loop_succeed (ls : list EarlyStopping.t) (e : Z)
    (mv : gmap string (option Q)) :
  Forall (fun s => succeeds (EarlyStopping.check_early_stop s e mv)) ls ->
  leaves_loop ls e mv =
  (map (fun s => final (EarlyStopping.check_early_stop s e mv)) ls,
   concat (map (fun s => emitted (EarlyStopping.check_early_stop s e mv)) ls),
   inr (existsb (fun s => answer (EarlyStopping.check_early_stop s e mv)) ls)).
Proof.
  induction 1 as [| s ls [b Hb] _ IH]; simpl; [reflexivity |].
  unfold answer at 1. rewrite Hb, IH. reflexivity.
Qed.

(** X13. A handler built from constructed [EarlyStopping] instances,
    nested to any depth, stays one after every call, raising or not.  On an
    epoch in range it does not raise, every instance inside makes its own
    call (none is skipped after an earlier [True]), and the answer is the
    disjunction of the instances' answers. *)
Theorem handler_of_constructed_instances
    (h : EarlyStoppingHandler) (e : Z) (mv : gmap string (option Q)) :
  handler_reachable h ->
  let o := check_early_stop h e mv in
  handler_reachable (final o)
  /\ (valid_epoch e ->
      leaves (final o)
        = map (fun s => final (EarlyStopping.check_early_stop s e mv))
              (leaves h)
      /\ returned o
         = inr (existsb
                  (fun s => answer (EarlyStopping.check_early_stop s e mv))
                  (leaves h))).
Proof.
  unfold handler_reachable. intros Hr. cbv zeta.
  pose proof (observe_leaves_loop e mv h) as Hobs. unfold observe in Hobs.
  split.
  - pose proof (leaves_loop_reachable _ e mv Hr) as H.
    rewrite <- Hobs in H. exact H.
  - intros He.
    rewrite leaves_loop_succeed in Hobs.
    + injection Hobs as E1 E2 E3. auto.
    + eapply Forall_impl; [exact Hr |]. intros s Hs.
      apply check_succeeds; [now apply reachable_wf | exact He].
Qed.

Lemma handler_of_constructed_instances_witness :
  returned
    (check_early_stop
       (Sequential
          [Noop;
           Sequential
             [Single (EarlyStopping.mk "val_loss" 0 1 (1 # 10) (-1) []);
              Noop];
           Single (EarlyStopping.mk "train_acc" 0 1 0 (-1) [])])
       1 {[ "val_loss"%string := Some (5 # 100) ]}) = inr true.
Proof.
  refine (proj2 (proj2
    (handler_of_constructed_instances
       (Sequential
          [Noop;
           Sequential
             [Single (EarlyStopping.mk "val_loss" 0 1 (1 # 10) (-1) []);
              Noop];
           Single (EarlyStopping.mk "train_acc" 0 1 0 (-1) [])])
       1 {[ "val_loss"%string := Some (5 # 100) ]} _) _)).
  - repeat constructor.
    + apply (reachable_init "val_loss" 0 1 (1 # 10)). reflexivity.
    + apply (reachable_init "train_acc" 0 1 0). reflexivity.
  - unfold valid_epoch, int64_max. lia.
Defined.

(** ** Improvements *)

(** X14. On a constructed handler whose index-of-best points to a row with
    value [b], take a call with a present value [v] that does not trigger
    the threshold stop.  If [v] is strictly better than [b] (greater for an
    accuracy monitor, smaller for a loss monitor) by [min_delta] or more,
    index-of-best moves to the new row, and the call answers [False] and
    logs nothing, however many calls without improvement came before.  If
    [v] is not strictly better than [b] (a tie or worse), index-of-best
    stays.  Whenever index-of-best moves, [v] is strictly better than [b]
    and the call answers [False]. *)
Theorem improvement_moves_index_best
    (self : EarlyStopping.t) (e : Z) (mv : gmap string (option Q))
    (v b : Q) (r : Row) :
  reachable self ->
  valid_epoch e ->
  dict_get mv (EarlyStopping.monitor self) = Some v ->
  ~ triggers_threshold self v ->
  0 <= EarlyStopping.index_best self ->
  EarlyStopping.history self
    !! Z.to_nat (EarlyStopping.index_best self) = Some r ->
  monitored (EarlyStopping.monitor self) r = Some b ->
  let o := EarlyStopping.check_early_stop self e mv in
  let moved :=
    Outcome
      (EarlyStopping.set_index_best (appended self e mv)
         (Z.of_nat (List.length (EarlyStopping.history self))))
      [] (inr false) in
  (gains self v b -> o = moved)
  /\ (~ strictly_better (EarlyStopping.monitor self) v b ->
      EarlyStopping.index_best (final o) = EarlyStopping.index_best self)
  /\ (EarlyStopping.index_best (final o) <> EarlyStopping.index_best self ->
      strictly_better (EarlyStopping.monitor self) v b /\ o = moved).
Proof.
  intros Hr He Hv Hc H0 Hrow Hb. cbv zeta.
  pose proof (reachable_wf _ Hr) as [Hm Hd _ Hi _].
  rewrite <- (crosses_triggers _ _ Hm) in Hc.
  destruct (step_spec self e mv Hm Hi He)
    as [[Hv' Ho] | (v' & Hv' & [[Hc' Ho] | [_ [[Hh Ho] | (_ & pb & _ & Hcase & Ho)]]])];
    try congruence.
  { rewrite Hh in Hrow. discriminate. }
  assert (v' = v) by congruence. subst v'.
  destruct Hcase as [[Hi1 _] | (_ & r' & Hr' & ->)]; [lia |].
  assert (r' = r) by congruence. subst r'. rewrite Hb in Ho.
  rewrite Ho. unfold improvement_outcome. simpl float_sub.
  destruct (EarlyStopping.improvement (appended self e mv) _ _) eqn:Eimp.
  - apply (improvement_spec (appended self e mv) v b Hd) in Eimp.
    apply (improves_gains (appended self e mv) v b Hm) in Eimp.
    assert (Emoved :
      Outcome
        (EarlyStopping.set_index_best (appended self e mv)
           (Z.of_nat
              (List.length (EarlyStopping.history (appended self e mv))) - 1))
        [] (inr false)
      = Outcome
          (EarlyStopping.set_index_best (appended self e mv)
             (Z.of_nat (List.length (EarlyStopping.history self))))
          [] (inr false)).
    { f_equal. f_equal. simpl. rewrite length_app. simpl. lia. }
    rewrite Emoved. split; [auto |]. split.
    + intros Hn. exfalso. apply Hn. apply Eimp.
    + intros _. split; [apply Eimp | reflexivity].
  - assert (Hstay :
      EarlyStopping.index_best
        (final
           (if EarlyStopping.patience (appended self e mv)
               <? non_missing_count_since_best (appended self e mv)
            then Outcome (appended self e mv)
                   [PatienceExceeded
                      (Z.of_nat
                         (List.length
                            (EarlyStopping.history (appended self e mv))) - 1
                       - EarlyStopping.index_best (appended self e mv))
                      (EarlyStopping.patience (appended self e mv))]
                   (inr true)
            else Outcome (appended self e mv) [] (inr false)))
      = EarlyStopping.index_best self).
    { now destruct (_ <? _). }
    split; [| split].
    + intros Hg.
      apply (improves_gains (appended self e mv) v b Hm) in Hg.
      apply (improvement_spec (appended self e mv) v b Hd) in Hg.
      congruence.
    + intros _. exact Hstay.
    + intros Hne. contradiction.
Qed.

Lemma improvement_moves_index_best_witness :
  EarlyStopping.check_early_stop
    (fst (run (EarlyStopping.mk "val_loss" (1 # 100) 1 0 (-1) [])
            [(1, {[ "val_loss"%string := Some (40 # 1000) ]});
             (2, {[ "val_loss"%string := Some (39 # 1000) ]});
             (3, {[ "val_loss"%string := Some (38 # 1000) ]})]))
    4 {[ "val_loss"%string := Some (20 # 1000) ]}
  = Outcome
      (EarlyStopping.set_index_best
         (appended
            (fst (run (EarlyStopping.mk "val_loss" (1 # 100) 1 0 (-1) [])
                    [(1, {[ "val_loss"%string := Some (40 # 1000) ]});
                     (2, {[ "val_loss"%string := Some (39 # 1000) ]});
                     (3, {[ "val_loss"%string := Some (38 # 1000) ]})]))
            4 {[ "val_loss"%string := Some (20 # 1000) ]})
         3)
      [] (inr false).
Proof.
  refine (proj1
    (improvement_moves_index_best
       (fst (run (EarlyStopping.mk "val_loss" (1 # 100) 1 0 (-1) [])
               [(1, {[ "val_loss"%string := Some (40 # 1000) ]});
                (2, {[ "val_loss"%string := Some (39 # 1000) ]});
                (3, {[ "val_loss"%string := Some (38 # 1000) ]})]))
       4 {[ "val_loss"%string := Some (20 # 1000) ]}
       (20 # 1000) (40 # 1000)
       (mkRow 1 0 None None None (Some (40 # 1000))) _ _ _ _ _ _ _) _).
  - apply reachable_run.
    apply (reachable_init "val_loss" (1 # 100) 1 0). reflexivity.
  - unfold valid_epoch, int64_max. lia.
  - vm_compute. reflexivity.
  - intros [H _]. vm_compute in H. discriminate.
  - vm_compute. discriminate.
  - vm_compute. reflexivity.
  - reflexivity.
  - split.
    + right. split; [right; reflexivity | reflexivity].
    + vm_compute. discriminate.
Defined.

(** ** Patience as a parameter *)

Lemma check_with_patience (self : EarlyStopping.t) (p : Z) (e : Z)
    (mv : gmap string (option Q)) :
  EarlyStopping.patience self <= p ->
  let o := EarlyStopping.check_early_stop self e mv in
  let o' := EarlyStopping.check_early_stop (with_patience self p) e mv in
  final o' = with_patience (final o) p /\
  no_earlier (returned o) (returned o').
Proof.
  destruct self as [m d pt th ib h]. unfold with_patience, no_earlier.
  simpl. intros Hp.
  unfold EarlyStopping.check_early_stop, EarlyStopping.add_to_history,
    EarlyStopping._check_for_improvement, EarlyStopping.previous_best,
    EarlyStopping.improvement.
  simpl.
  repeat match goal with
         | |- context [match ?x with _ => _ end] =>
             destruct x eqn:?; simpl
         end;
    try (split; [reflexivity | left; reflexivity]).
  - exfalso.
    repeat match goal with
           | H : (_ <? _) = true |- _ => apply Z.ltb_lt in H
           | H : (_ <? _) = false |- _ => apply Z.ltb_ge in H
           end; lia.
  - split; [reflexivity | right; split; reflexivity].
Qed.

(** X15. Raising the patience never makes a handler stop earlier: run on
    the same calls from the same state, the handler with the larger
    patience ends with the same history and index-of-best, raises where the
    other raises, and answers [True] only where the other answers [True]. *)
Theorem larger_patience_stops_no_earlier
    (self : EarlyStopping.t) (p : Z) (calls : list call) :
  EarlyStopping.patience self <= p ->
  fst (run (with_patience self p) calls)
    = with_patience (fst (run self calls)) p
  /\ Forall2 no_earlier (snd (run self calls))
       (snd (run (with_patience self p) calls)).
Proof.
  revert self. induction calls as [| [e mv] rest IH]; intros self Hp; simpl.
  - split; [reflexivity | constructor].
  - destruct (check_with_patience self p e mv Hp) as [Ef Hr].
    cbv zeta in Ef, Hr. rewrite Ef.
    specialize (IH (final (EarlyStopping.check_early_stop self e mv))).
    destruct (check_frame self e mv) as (_ & _ & Epat & _).
    cbv zeta in Epat. rewrite Epat in IH. specialize (IH Hp).
    destruct (run (with_patience
                     (final (EarlyStopping.check_early_stop self e mv)) p)
                rest) as [s2 r2].
    destruct (run (final (EarlyStopping.check_early_stop self e mv)) rest)
      as [s1 r1].
    simpl in *. destruct IH as [-> Hall]. split; [reflexivity |].
    now constructor.
Qed.

Lemma larger_patience_stops_no_earlier_witness :
  Forall2 no_earlier
    (snd (run (EarlyStopping.mk "val_acc" 0 1 0 (-1) [])
            [(1, {[ "val_acc"%string := Some (1 # 2) ]});
             (2, {[ "val_acc"%string := Some (1 # 2) ]});
             (3, {[ "val_acc"%string := Some (1 # 2) ]})]))
    (snd (run (with_patience (EarlyStopping.mk "val_acc" 0 1 0 (-1) []) 3)
            [(1, {[ "val_acc"%string := Some (1 # 2) ]});
             (2, {[ "val_acc"%string := Some (1 # 2) ]});
             (3, {[ "val_acc"%string := Some (1 # 2) ]})])).
Proof.
  refine (proj2
    (larger_patience_stops_no_earlier
       (EarlyStopping.mk "val_acc" 0 1 0 (-1) []) 3
       [(1, {[ "val_acc"%string := Some (1 # 2) ]});
        (2, {[ "val_acc"%string := Some (1 # 2) ]});
        (3, {[ "val_acc"%string := Some (1 # 2) ]})] _)).
  simpl. lia.
Defined.

(** ** Accuracy and loss monitors mirror each other *)

Lemma np_sign_opp_sub (v b : Q) :
  np_sign (- v - - b)%Q = - np_sign (v - b)%Q.
Proof.
  destruct v as [nv dv], b as [nb db]. unfold np_sign. simpl.
  rewrite <- Z.sgn_opp. f_equal. ring.
Qed.

Lemma Qabs_opp_sub (v b : Q) : Qabs (- v - - b)%Q = Qabs (v - b)%Q.
Proof.
  destruct v as [nv dv], b as [nb db]. unfold Qabs, Qminus, Qplus, Qopp.
  simpl. f_equal. rewrite <- Z.abs_opp. f_equal. ring.
Qed.

Lemma improvement_mirrored (s t : EarlyStopping.t) (v : Q) (pb : npfloat) :
  EarlyStopping.monitor_sign_of (EarlyStopping.monitor t)
    = - EarlyStopping.monitor_sign_of (EarlyStopping.monitor s) ->
  EarlyStopping.min_delta t = EarlyStopping.min_delta s ->
  EarlyStopping.improvement t
    (EarlyStopping.monitor_sign_of (EarlyStopping.monitor t))
    (float_sub (- v) (opp_float pb))
  = EarlyStopping.improvement s
      (EarlyStopping.monitor_sign_of (EarlyStopping.monitor s))
      (float_sub v pb).
Proof.
  intros Hs Hd. unfold EarlyStopping.improvement. rewrite Hs, Hd.
  destruct pb as [b |]; unfold float_sub, opp_float, sign_is, abs_ge;
    [| now destruct (Qlt_bool _ _)].
  rewrite np_sign_opp_sub, Qabs_opp_sub.
  replace (- np_sign (v - b)
           =? - EarlyStopping.monitor_sign_of (EarlyStopping.monitor s))
    with (np_sign (v - b)
          =? EarlyStopping.monitor_sign_of (EarlyStopping.monitor s)).
  - reflexivity.
  - destruct (Z.eqb_spec (np_sign (v - b))
                (EarlyStopping.monitor_sign_of (EarlyStopping.monitor s)));
      symmetry; [apply Z.eqb_eq | apply Z.eqb_neq]; lia.
Qed.

Lemma py_getitem_map {A B : Type} (f : A -> B) (l : list A) (i : Z) :
  py_getitem (map f l) i =
  match py_getitem l i with
  | inl x => inl x
  | inr a => inr (f a)
  end.
Proof.
  unfold py_getitem. rewrite length_map.
  destruct (_ || _); [reflexivity |].
  change (map f l) with (f <$> l). rewrite list_lookup_fmap.
  now destruct (l !! _).
Qed.

Lemma py_slice_from_map {A B : Type} (f : A -> B) (l : list A) (i : Z) :
  py_slice_from (map f l) i = map f (py_slice_from l i).
Proof. unfold py_slice_from. now rewrite length_map, skipn_map. Qed.

Lemma np_sum_present_opp (col : list npfloat) :
  np_sum (map (fun x => negb (np_isnan x)) (map opp_float col))
  = np_sum (map (fun x => negb (np_isnan x)) col).
Proof.
  rewrite map_map. f_equal. apply map_ext. now intros [q |].
Qed.

Lemma mirrored_length (s t : EarlyStopping.t) :
  mirrored s t ->
  List.length (EarlyStopping.history t) = List.length (EarlyStopping.history s).
Proof.
  intros H. pose proof (f_equal (@List.length _) (mirrored_history _ _ H)) as E.
  now rewrite !length_map in E.
Qed.

Lemma mirrored_appended (s t : EarlyStopping.t) (e : Z)
    (mv mv' : gmap string (option Q)) :
  mirrored s t ->
  dict_get mv' (EarlyStopping.monitor t)
    = opp_float (dict_get mv (EarlyStopping.monitor s)) ->
  mirrored (appended s e mv) (appended t e mv').
Proof.
  intros [Hms Hmt Hsg Hd Hp Hts Htt Hi Hh] Hv.
  constructor; simpl; auto.
  rewrite !map_app, Hh. simpl.
  now rewrite !monitored_new_row, Hv by assumption.
Qed.

Lemma mirrored_set_index_best (s t : EarlyStopping.t) (i : Z) :
  mirrored s t ->
  mirrored (EarlyStopping.set_index_best s i)
           (EarlyStopping.set_index_best t i).
Proof. intros [Hms Hmt Hsg Hd Hp Hts Htt Hi Hh]. now constructor. Qed.

Lemma mirrored_sign (s t : EarlyStopping.t) :
  mirrored s t ->
  EarlyStopping.monitor_sign_of (EarlyStopping.monitor t)
  = - EarlyStopping.monitor_sign_of (EarlyStopping.monitor s).
Proof.
  intros H. destruct (mirrored_kinds _ _ H) as [[Hs Ht] | [Hs Ht]];
    unfold accuracy_metric, loss_metric in Hs, Ht;
    destruct Hs as [-> | ->], Ht as [-> | ->]; reflexivity.
Qed.

Lemma check_for_improvement_mirrored (s t : EarlyStopping.t)
    (mv mv' : gmap string (option Q)) (v : Q) :
  mirrored s t ->
  dict_get mv (EarlyStopping.monitor s) = Some v ->
  dict_get mv' (EarlyStopping.monitor t) = Some (- v)%Q ->
  let o := EarlyStopping._check_for_improvement s mv
             (EarlyStopping.monitor_sign_of (EarlyStopping.monitor s)) in
  let o' := EarlyStopping._check_for_improvement t mv'
              (EarlyStopping.monitor_sign_of (EarlyStopping.monitor t)) in
  returned o' = returned o /\ emitted o' = emitted o /\
  mirrored (final o) (final o').
Proof.
  intros Hmir Hv Hv'. cbv zeta.
  pose proof (mirrored_length _ _ Hmir) as Hlen.
  pose proof Hmir as [Hms Hmt _ Hd Hp Hts Htt Hi Hh].
  pose proof (mirrored_sign _ _ Hmir) as Hsg.
  unfold EarlyStopping._check_for_improvement, EarlyStopping.previous_best.
  rewrite !column_supported by assumption.
  rewrite Hh, py_getitem_map, Hi.
  destruct (py_getitem
              (map (monitored (EarlyStopping.monitor s))
                 (EarlyStopping.history s))
              (EarlyStopping.index_best s)) as [x | pb]; [simpl; auto |].
  rewrite (dict_item_sub_present _ _ _ _ Hv),
    (dict_item_sub_present _ _ _ _ Hv').
  rewrite (improvement_mirrored s t v pb Hsg Hd), Hlen, Hp.
  destruct (EarlyStopping.improvement s _ _).
  - simpl. split; [reflexivity |]. split; [reflexivity |].
    now apply mirrored_set_index_best.
  - rewrite <- (py_slice_from_map (monitored (EarlyStopping.monitor t))),
      Hh, !py_slice_from_map, np_sum_present_opp.
    destruct (_ <? _); simpl; auto.
Qed.

Lemma mirrored_step (s t : EarlyStopping.t) (e : Z)
    (mv mv' : gmap string (option Q)) :
  mirrored s t ->
  dict_get mv' (EarlyStopping.monitor t)
    = opp_float (dict_get mv (EarlyStopping.monitor s)) ->
  let o := EarlyStopping.check_early_stop s e mv in
  let o' := EarlyStopping.check_early_stop t e mv' in
  returned o' = returned o /\ emitted o' = emitted o /\
  mirrored (final o) (final o').
Proof.
  intros Hmir Hv. cbv zeta. destruct (valid_epoch_dec e) as [He | He].
  2:{ destruct (check_raise_cases s e mv He) as [[H1 ->] | [H1 ->]];
        destruct (check_raise_cases t e mv' He) as [[H2 ->] | [H2 ->]];
        simpl; auto; unfold int64_max in *; lia. }
  pose proof (mirrored_appended s t e mv mv' Hmir Hv) as Happ.
  pose proof (mirrored_length _ _ Happ) as Hlen.
  rewrite !check_early_stop_valid by assumption. unfold decide_stop.
  rewrite Hlen.
  change (dict_get mv (EarlyStopping.monitor (appended s e mv)))
    with (dict_get mv (EarlyStopping.monitor s)).
  change (dict_get mv' (EarlyStopping.monitor (appended t e mv')))
    with (dict_get mv' (EarlyStopping.monitor t)).
  destruct (dict_get mv (EarlyStopping.monitor s)) as [v |] eqn:Hvs;
    simpl in Hv; rewrite Hv; [| simpl; auto].
  replace (Qlt_bool 0 (EarlyStopping.threshold (appended s e mv)))
    with false
    by (symmetry; apply Qlt_bool_false; apply (mirrored_threshold_s _ _ Hmir)).
  replace (Qlt_bool 0 (EarlyStopping.threshold (appended t e mv')))
    with false
    by (symmetry; apply Qlt_bool_false; apply (mirrored_threshold_t _ _ Hmir)).
  simpl andb. cbv iota.
  destruct (_ =? 1).
  - simpl. split; [reflexivity |]. split; [reflexivity |].
    now apply mirrored_set_index_best.
  - now apply (check_for_improvement_mirrored _ _ mv mv' v Happ).
Qed.

(** X16. Accuracy and loss monitors are mirror images.  Take two handlers,
    one on an accuracy metric and one on a loss metric, with the threshold
    rule off, the same [min_delta] and patience and the same index-of-best,
    whose monitored columns hold opposite values; feed them calls with the
    same epochs and opposite monitored values.  Call after call they log the
    same records and give the same answers or exceptions, and they end
    related in the same way. *)
Theorem opposite_monitors_mirror (calls calls' : list call) :
  forall s t,
    mirrored s t ->
    Forall2 (mirrored_call s t) calls calls' ->
    run_outcomes t calls' = run_outcomes s calls
    /\ snd (run t calls') = snd (run s calls)
    /\ mirrored (fst (run s calls)) (fst (run t calls')).
Proof.
  revert calls'. induction calls as [| [e mv] rest IH];
    intros calls' s t Hmir Hcalls.
  - apply Forall2_nil_inv_l in Hcalls as ->. simpl. auto.
  - apply Forall2_cons_inv_l in Hcalls
      as ([e' mv'] & rest' & [He Hv] & Hrest & ->).
    simpl in He, Hv. subst e'. simpl.
    destruct (mirrored_step s t e mv mv' Hmir Hv) as (Eret & Elog & Hmir').
    cbv zeta in Eret, Elog, Hmir'.
    assert (Hrest' :
      Forall2 (mirrored_call (final (EarlyStopping.check_early_stop s e mv))
                 (final (EarlyStopping.check_early_stop t e mv')))
        rest rest').
    { eapply Forall2_impl; [exact Hrest |]. intros c c' [E1 E2].
      split; [exact E1 |]. now rewrite !check_monitor. }
    specialize (IH rest' _ _ Hmir' Hrest').
    destruct (run (final (EarlyStopping.check_early_stop s e mv)) rest)
      as [s1 r1].
    destruct (run (final (EarlyStopping.check_early_stop t e mv')) rest')
      as [t1 r1'].
    simpl in *. destruct IH as (-> & -> & Hm). now rewrite Eret, Elog.
Qed.

Lemma opposite_monitors_mirror_witness :
  run_outcomes (EarlyStopping.mk "val_loss" (1 # 100) 1 0 (-1) [])
    [(1, {[ "val_loss"%string := Some (- (80 # 100))%Q ]});
     (2, {[ "val_loss"%string := Some (- (80 # 100))%Q ]});
     (2, {[ "train_acc"%string := Some (1 # 2) ]});
     (3, {[ "val_loss"%string := Some (- (79 # 100))%Q ]})]
  = run_outcomes (EarlyStopping.mk "val_acc" (1 # 100) 1 0 (-1) [])
      [(1, {[ "val_acc"%string := Some (80 # 100) ]});
       (2, {[ "val_acc"%string := Some (80 # 100) ]});
       (2, {[ "train_loss"%string := Some (1 # 2) ]});
       (3, {[ "val_acc"%string := Some (79 # 100) ]})].
Proof.
  refine (proj1
    (opposite_monitors_mirror
       [(1, {[ "val_acc"%string := Some (80 # 100) ]});
        (2, {[ "val_acc"%string := Some (80 # 100) ]});
        (2, {[ "train_loss"%string := Some (1 # 2) ]});
        (3, {[ "val_acc"%string := Some (79 # 100) ]})]
       [(1, {[ "val_loss"%string := Some (- (80 # 100))%Q ]});
        (2, {[ "val_loss"%string := Some (- (80 # 100))%Q ]});
        (2, {[ "train_acc"%string := Some (1 # 2) ]});
        (3, {[ "val_loss"%string := Some (- (79 # 100))%Q ]})]
       (EarlyStopping.mk "val_acc" (1 # 100) 1 0 (-1) [])
       (EarlyStopping.mk "val_loss" (1 # 100) 1 0 (-1) []) _ _)).
  - constructor; simpl; try tauto; try reflexivity; try discriminate.
    left. split; right; reflexivity.
  - repeat constructor.
Defined.

(** ** What the patience log reports *)

(** X17. When a constructed handler logs "Patience exceeded", the patience
    it reports is its own, and the value it reports is the number of rows
    after index-of-best, rows without a monitored value included; the number
    that was compared with the patience, the present values among those
    rows, is at most that and larger than the patience. *)
Theorem patience_log_reports_rows
    (self : EarlyStopping.t) (e : Z) (mv : gmap string (option Q))
    (a p : Z) :
  reachable self ->
  let o := EarlyStopping.check_early_stop self e mv in
  emitted o = [PatienceExceeded a p] ->
  p = EarlyStopping.patience self
  /\ a = Z.of_nat (List.length (EarlyStopping.history (final o))) - 1
         - EarlyStopping.index_best self
  /\ p < non_missing_count_since_best (final o) <= a.
Proof.
  intros Hr. cbv zeta. intros Hlog.
  pose proof (reachable_wf _ Hr) as Hwf. pose proof Hwf as [Hm _ Hp Hi _].
  destruct (valid_epoch_dec e) as [He | He].
  2:{ destruct (check_raise_cases self e mv He) as [[_ Ho] | [_ Ho]];
        rewrite Ho in Hlog; discriminate. }
  destruct (step_spec self e mv Hm Hi He)
    as [[Hv Ho] | (v & Hv & [[Hc Ho] | [_ [[Hh Ho] | (_ & pb & _ & _ & Ho)]]])];
    rewrite Ho in *; try discriminate.
  unfold improvement_outcome in *.
  change (EarlyStopping.patience (appended self e mv))
    with (EarlyStopping.patience self) in *.
  change (EarlyStopping.index_best (appended self e mv))
    with (EarlyStopping.index_best self) in *.
  destruct (EarlyStopping.improvement _ _ _); [discriminate |].
  destruct (EarlyStopping.patience self
            <? non_missing_count_since_best (appended self e mv)) eqn:E;
    [| discriminate].
  simpl in *. injection Hlog as <- <-. apply Z.ltb_lt in E.
  pose proof (present_after_le_since
                (EarlyStopping.monitor (appended self e mv))
                (EarlyStopping.index_best (appended self e mv))
                (EarlyStopping.history (appended self e mv)) 0) as Hb.
  fold (non_missing_count_since_best (appended self e mv)) in Hb.
  change (EarlyStopping.index_best (appended self e mv))
    with (EarlyStopping.index_best self) in Hb.
  simpl in Hb. repeat split; lia.
Qed.

Lemma patience_log_reports_rows_witness :
  5 = Z.of_nat (List.length (EarlyStopping.history
        (final (EarlyStopping.check_early_stop
           (fst (run (EarlyStopping.mk "val_loss" 0 2 0 (-1) [])
                   [(1, {[ "val_loss"%string := Some (35 # 100) ]});
                    (1, ∅);
                    (2, {[ "val_loss"%string := Some (35 # 100) ]});
                    (2, ∅);
                    (2, {[ "val_loss"%string := Some (35 # 100) ]})]))
           3 {[ "val_loss"%string := Some (35 # 100) ]})))) - 1 - 0.
Proof.
  refine (proj1 (proj2
    (patience_log_reports_rows
       (fst (run (EarlyStopping.mk "val_loss" 0 2 0 (-1) [])
               [(1, {[ "val_loss"%string := Some (35 # 100) ]});
                (1, ∅);
                (2, {[ "val_loss"%string := Some (35 # 100) ]});
                (2, ∅);
                (2, {[ "val_loss"%string := Some (35 # 100) ]})]))
       3 {[ "val_loss"%string := Some (35 # 100) ]} 5 2 _ _))).
  - apply reachable_run. apply (reachable_init "val_loss" 0 2 0). reflexivity.
  - vm_compute. reflexivity.
Defined.

(** ** Index-of-best, in the direction of the specification *)



Lemma strictly_better_irrefl (m : string) (a : Q) : ~ strictly_better m a a.
Proof. intros [[_ H] | [_ H]]; lra. Qed.

Lemma strictly_better_asym (m : string) (a b : Q) :
  strictly_better m a b -> ~ strictly_better m b a.
Proof.
  intros [[Ha H1] | [Hl H1]] [[Ha' H2] | [Hl' H2]]; try lra.
  - destruct Ha as [-> | ->], Hl' as [E | E]; discriminate E.
  - destruct Hl as [-> | ->], Ha' as [E | E]; discriminate E.
Qed.

Lemma best_so_far_directed (self : EarlyStopping.t) :
  In (EarlyStopping.monitor self) EarlyStopping.supported_metrics ->
  best_so_far self -> best_entry self.
Proof.
  intros Hm (r & b & Hr & Hb & Hall). exists r, b.
  split; [exact Hr |]. split; [exact Hb |].
  intros j r' v Hj Hv Hnt.
  rewrite <- (crosses_triggers _ _ Hm) in Hnt.
  destruct (Hall j r' v Hj Hv Hnt) as [Hearlier Hlater]. split.
  - intros Hlt. apply (sign_directed _ _ _ Hm). now apply Hearlier.
  - intros Hgt Hg. apply (Hlater Hgt). now apply improves_gains.
Qed.

Lemma first_row_sets_index (self : EarlyStopping.t) :
  reachable self ->
  (exists r v,
      EarlyStopping.history self !! 0%nat = Some r /\
      monitored (EarlyStopping.monitor self) r = Some v /\
      ~ crosses_threshold self v) ->
  0 <= EarlyStopping.index_best self.
Proof.
  induction 1 as [monitor min_delta patience threshold self H | self e mv Hr IH].
  - unfold EarlyStopping.__init__ in H.
    destruct (EarlyStopping._validate_arguments _ _ _ _); [discriminate |].
    injection H as <-. intros (r & v & Hr0 & _). discriminate.
  - intros (r & v & Hr0 & Hv0 & Hnc).
    pose proof (reachable_wf _ Hr) as Hwf. pose proof Hwf as [Hm _ _ Hi _].
    destruct (check_frame self e mv) as (Em & _ & _ & Et & Eh).
    cbv zeta in Em, Et, Eh. rewrite Em in Hv0. rewrite Eh in Hr0.
    assert (Hnc' : ~ crosses_threshold self v).
    { intros Hc. apply Hnc. unfold crosses_threshold in *.
      now rewrite Em, Et. }
    clear Hnc.
    destruct (EarlyStopping.history self) as [| r0 h0] eqn:Hh.
    + destruct (valid_epochb e) eqn:Eb; [| discriminate].
      apply valid_epochb_iff in Eb. simpl in Hr0. injection Hr0 as <-.
      rewrite (monitored_new_row _ _ _ _ Hm) in Hv0.
      destruct (step_spec self e mv Hm (wf_index _ Hwf) Eb)
        as [[Hv Ho] | (v' & Hv & [[Hc Ho] | [_ [[_ Ho] | (Hne & _)]]])];
        try congruence.
      rewrite Ho. simpl. lia.
    + assert (H0 : 0 <= EarlyStopping.index_best self).
      { apply IH. exists r, v. simpl in Hr0. injection Hr0 as <-. auto. }
      pose proof (index_best_step self e mv Hwf H0) as Hstep.
      cbv zeta in Hstep. lia.
Qed.

Lemma first_entry_sets_index (self : EarlyStopping.t) :
  reachable self -> first_entry_counts self ->
  0 <= EarlyStopping.index_best self.
Proof.
  intros Hr (r & v & Hr0 & Hv & Hnt). apply first_row_sets_index; [exact Hr |].
  exists r, v. split; [exact Hr0 |]. split; [exact Hv |].
  intros Hc. apply Hnt.
  apply crosses_triggers; [apply (wf_monitor _ (reachable_wf _ Hr)) | exact Hc].
Qed.

(** C2 (as amended). In every reachable state index-of-best is -1 or a
    valid index into the history, and it is -1 when no row holds a present
    monitored value.  When the first row holds a present monitored value
    that did not trigger the threshold stop, index-of-best is an index and
    the row it points to has a present value [b]; among the rows with a
    present value that did not trigger the threshold stop, every earlier one
    is strictly worse than [b] (smaller for an accuracy monitor, greater for
    a loss monitor) and no later one is better than [b] by [min_delta] or
    more.  With, in addition, [min_delta = 0] and the threshold rule
    switched off, that row holds the best present value of the history: the
    maximum for an accuracy monitor, the minimum for a loss monitor. *)
Theorem index_best_invariant (self : EarlyStopping.t) :
  reachable self ->
  (EarlyStopping.index_best self = -1 \/
   0 <= EarlyStopping.index_best self
     < Z.of_nat (List.length (EarlyStopping.history self)))
  /\ ((forall r, r ∈ EarlyStopping.history self ->
                 monitored (EarlyStopping.monitor self) r = None) ->
      EarlyStopping.index_best self = -1)
  /\ (first_entry_counts self ->
      0 <= EarlyStopping.index_best self /\ best_entry self)
  /\ (first_entry_counts self ->
      (EarlyStopping.min_delta self == 0)%Q ->
      (EarlyStopping.threshold self <= 0)%Q ->
      points_to_best self).
Proof.
  intros Hr. pose proof (reachable_wf self Hr) as [Hm Hd Hp Hi Hb].
  split; [exact Hi |]. split; [| split].
  - intros Hnone. destruct Hi as [Hi | Hi]; [exact Hi |].
    destruct (Hb (proj1 Hi)) as (r & b & Hrow & Hbv & _).
    rewrite (Hnone r) in Hbv; [discriminate |].
    apply list_elem_of_lookup. eauto.
  - intros Hfirst. pose proof (first_entry_sets_index _ Hr Hfirst) as H0.
    split; [exact H0 |]. apply best_so_far_directed; auto.
  - intros Hfirst Hmd Hthr.
    pose proof (first_entry_sets_index _ Hr Hfirst) as H0.
    destruct (best_so_far_directed _ Hm (Hb H0))
      as (r & b & Hrow & Hbv & Hall).
    exists r, b. split; [exact Hrow |]. split; [exact Hbv |].
    intros r' v Hin Hv Hbetter.
    apply list_elem_of_lookup in Hin as [j Hj].
    assert (Hc : ~ triggers_threshold self v).
    { intros [Hpos _]. lra. }
    destruct (Hall j r' v Hj Hv Hc) as [Hearlier Hlater].
    destruct (Z.lt_trichotomy (Z.of_nat j) (EarlyStopping.index_best self))
      as [Hlt | [Heq | Hgt]].
    + exact (strictly_better_asym _ _ _ (Hearlier Hlt) Hbetter).
    + replace j with (Z.to_nat (EarlyStopping.index_best self)) in Hj by lia.
      assert (r' = r) by congruence. subst r'.
      assert (v = b) by congruence. subst v.
      exact (strictly_better_irrefl _ _ Hbetter).
    + apply (Hlater Hgt). split; [exact Hbetter |].
      rewrite Hmd. apply Qabs_nonneg.
Qed.

Lemma index_best_invariant_witness :
  points_to_best
    (fst (run (EarlyStopping.mk "val_acc" 0 2 0 (-1) [])
            [(1, {[ "val_acc"%string := Some (80 # 100) ]});
             (2, {[ "val_acc"%string := Some (82 # 100) ]});
             (3, {[ "val_acc"%string := Some (81 # 100) ]})]))
  /\ points_to_best
       (fst (run (EarlyStopping.mk "train_loss" 0 2 0 (-1) [])
               [(1, {[ "train_loss"%string := Some (40 # 100) ]});
                (2, ∅);
                (2, {[ "train_loss"%string := Some (30 # 100) ]});
                (3, {[ "train_loss"%string := Some (35 # 100) ]})])).
Proof.
  split.
  - refine (proj2 (proj2 (proj2
      (index_best_invariant
         (fst (run (EarlyStopping.mk "val_acc" 0 2 0 (-1) [])
                 [(1, {[ "val_acc"%string := Some (80 # 100) ]});
                  (2, {[ "val_acc"%string := Some (82 # 100) ]});
                  (3, {[ "val_acc"%string := Some (81 # 100) ]})])) _)))
      _ _ _).
    + apply reachable_run.
      apply (reachable_init "val_acc" 0 2 0). reflexivity.
    + exists (mkRow 1 0 None None (Some (80 # 100)) None), (80 # 100).
      split; [reflexivity |]. split; [reflexivity |].
      intros [H _]. vm_compute in H. discriminate.
    + vm_compute. reflexivity.
    + vm_compute. discriminate.
  - refine (proj2 (proj2 (proj2
      (index_best_invariant
         (fst (run (EarlyStopping.mk "train_loss" 0 2 0 (-1) [])
                 [(1, {[ "train_loss"%string := Some (40 # 100) ]});
                  (2, ∅);
                  (2, {[ "train_loss"%string := Some (30 # 100) ]});
                  (3, {[ "train_loss"%string := Some (35 # 100) ]})])) _)))
      _ _ _).
    + apply reachable_run.
      apply (reachable_init "train_loss" 0 2 0). reflexivity.
    + exists (mkRow 1 0 None (Some (40 # 100)) None None), (40 # 100).
      split; [reflexivity |]. split; [reflexivity |].
      intros [H _]. vm_compute in H. discriminate.
    + vm_compute. reflexivity.
    + vm_compute. discriminate.
Defined.

(** C2, the claim as stated fails, in three ways.  (1) With
    [min_delta = 0.01] a loss of 0.031 after 0.04 is not an improvement, so
    index-of-best stays on the first row although the second row holds the
    smaller loss.  (2) With threshold 0.9 an accuracy of 0.95 after 0.5
    stops on the threshold before the best is updated, so index-of-best
    stays on 0.5.  (3) After a first call without the monitored value,
    index-of-best is -1 although a later row holds a present value (the
    defect of C1). *)
Lemma index_best_not_the_minimum :
  let s1 :=
    fst (run (EarlyStopping.mk "val_loss" (1 # 100) 2 0 (-1) [])
           [(1, {[ "val_loss"%string := Some (40 # 1000) ]});
            (2, {[ "val_loss"%string := Some (31 # 1000) ]})]) in
  let s2 :=
    fst (run (EarlyStopping.mk "val_acc" 0 2 (9 # 10) (-1) [])
           [(1, {[ "val_acc"%string := Some (50 # 100) ]});
            (2, {[ "val_acc"%string := Some (95 # 100) ]})]) in
  let s3 :=
    fst (run (EarlyStopping.mk "train_acc" 0 2 0 (-1) [])
           [(1, {[ "val_loss"%string := Some (35 # 100) ]});
            (1, {[ "train_acc"%string := Some (50 # 100) ]})]) in
  (EarlyStopping.__init__ "val_loss" (1 # 100) 2 0
     = inr (EarlyStopping.mk "val_loss" (1 # 100) 2 0 (-1) [])
   /\ EarlyStopping.index_best s1 = 0
   /\ ~ points_to_best s1)
  /\ (EarlyStopping.__init__ "val_acc" 0 2 (9 # 10)
        = inr (EarlyStopping.mk "val_acc" 0 2 (9 # 10) (-1) [])
      /\ EarlyStopping.index_best s2 = 0
      /\ ~ points_to_best s2)
  /\ (EarlyStopping.__init__ "train_acc" 0 2 0
        = inr (EarlyStopping.mk "train_acc" 0 2 0 (-1) [])
      /\ EarlyStopping.index_best s3 = -1
      /\ exists r v,
           r ∈ EarlyStopping.history s3 /\
           monitored (EarlyStopping.monitor s3) r = Some v).
Proof.
  cbv zeta. split; [| split].
  - split; [reflexivity |]. split; [reflexivity |].
    intros (r & b & Hr & Hb & Hall).
    vm_compute in Hr. injection Hr as <-.
    vm_compute in Hb. injection Hb as <-.
    apply (Hall (mkRow 2 0 None None None (Some (31 # 1000))) (31 # 1000)).
    + apply list_elem_of_In. vm_compute. right. left. reflexivity.
    + reflexivity.
    + right. split; [right; reflexivity | reflexivity].
  - split; [reflexivity |]. split; [reflexivity |].
    intros (r & b & Hr & Hb & Hall).
    vm_compute in Hr. injection Hr as <-.
    vm_compute in Hb. injection Hb as <-.
    apply (Hall (mkRow 2 0 None None (Some (95 # 100)) None) (95 # 100)).
    + apply list_elem_of_In. vm_compute. right. left. reflexivity.
    + reflexivity.
    + left. split; [right; reflexivity | reflexivity].
  - split; [reflexivity |]. split; [reflexivity |].
    exists (mkRow 1 1 (Some (50 # 100)) None None None), (50 # 100).
    split; [| reflexivity].
    apply list_elem_of_In. vm_compute. right. left. reflexivity.
Qed.
